(** * EcommerceScraper: the extraction and pagination core

    A shallow embedding of [src/scraper/base_scraper.py],
    [src/scraper/amazon_scraper.py], [src/config/settings.py] and the
    entry point [src/main.py], followed by the properties of the
    specification that are checked against it.

    Python text is a sequence of Unicode code points, dictionaries are
    finite maps with string keys, exceptions are an explicit result type,
    and the browser session is a state that is passed along.

    What stands for the browser and the network:
    - a page is a tree of elements that does not change while a function
      reads it, so a wait for an element succeeds at once or times out,
      and reading the text or an attribute of a located element does not
      raise;
    - a navigation lands on a page or raises, as the world decides for
      each call; a click on the control of the next page does not raise;
      a sleep raises when it is asked for a negative time, which only the
      random delay can ask for, from the draws the world provides;
    - saving and printing the result end well, raise, or are interrupted
      by the user, as the world decides; an interrupt at another moment
      is outside the model, whose exceptions are those that derive from
      [Exception];
    - of the log lines only the one that announces a page of the listing
      is kept, as an event of the session; the other events are the
      navigations, sleeps, scrolls and clicks;
    - a float is kept as the numeral it was read from, and the time stamp
      of the result is left out. *)

From Stdlib Require Import ZArith NArith QArith Lqa Ascii String.
From stdpp Require Import base option list strings gmap.

Local Open Scope Z_scope.

(** ** Python text *)

Module Py.

(** A [str] is a sequence of code points. *)
Definition str := list N.

(** An ASCII literal of the source. *)
Definition lit (s : string) : str :=
  (fun a => N_of_ascii a) <$> list_ascii_of_string s.

(** Truthiness of a string: [if s:]. *)
Definition truthy (s : str) : bool :=
  match s with [] => false | _ => true end.

(** Code points of general category Nd come in runs of ten, one run per
    script, each starting at the digit zero of the script (Unicode 14, the
    table [str.isdecimal], [int] and the pattern [\d] consult). *)
Definition decimal_zeros : list N :=
  [48; 1632; 1776; 1984; 2406; 2534; 2662; 2790; 2918; 3046; 3174; 3302;
   3430; 3558; 3664; 3792; 3872; 4160; 4240; 6112; 6160; 6470; 6608; 6784;
   6800; 6992; 7088; 7232; 7248; 42528; 43216; 43264; 43472; 43504; 43600;
   44016; 65296; 66720; 68912; 69734; 69872; 69942; 70096; 70384; 70736;
   70864; 71248; 71360; 71472; 71904; 72016; 72784; 73040; 73120; 92768;
   92864; 93008; 120782; 120792; 120802; 120812; 120822; 123200; 123632;
   125264; 130032]%N.

Definition in_run (c z : N) : bool := ((z <=? c) && (c <? z + 10))%N.

(** The value of a decimal digit, [None] for any other code point. *)
Definition digit_value (c : N) : option N :=
  (fun z => (c - z)%N) <$> List.find (in_run c) decimal_zeros.

(** The class [\d] of a [str] pattern. *)
Definition isdecimal (c : N) : bool := bool_decide (is_Some (digit_value c)).

(** [str.isspace] on one code point; it is also the class [\s]. *)
Definition isspace (c : N) : bool :=
  bool_decide (c ∈ [9; 10; 11; 12; 13; 28; 29; 30; 31; 32; 133; 160; 5760;
                    8192; 8193; 8194; 8195; 8196; 8197; 8198; 8199; 8200;
                    8201; 8202; 8232; 8233; 8239; 8287; 12288]%N).

Fixpoint lstrip (s : str) : str :=
  match s with
  | c :: s' => if isspace c then lstrip s' else s
  | [] => []
  end.

(** [s.strip()] *)
Definition strip (s : str) : str := rev (lstrip (rev (lstrip s))).

(** [s.startswith(p)] *)
Fixpoint startswith (p s : str) : bool :=
  match p, s with
  | [], _ => true
  | a :: p', b :: s' => bool_decide (a = b) && startswith p' s'
  | _ :: _, [] => false
  end.

(** [p in s] *)
Fixpoint contains (p s : str) : bool :=
  startswith p s ||
  match s with
  | [] => false
  | _ :: s' => contains p s'
  end.

(** [s.replace(old, new)] for a non-empty [old]: occurrences are replaced
    from the left and do not overlap. The recursion is on a copy of the
    text that bounds the number of steps. *)
Fixpoint replace_aux (old new : str) (fuel s : str) : str :=
  match fuel with
  | [] => s
  | _ :: fuel' =>
      match s with
      | [] => []
      | c :: s' =>
          if startswith old s
          then new ++ replace_aux old new fuel' (drop (length old) s)
          else c :: replace_aux old new fuel' s'
      end
  end.

Definition replace (old new s : str) : str := replace_aux old new s s.

(** [s.lower()] as far as it can produce ASCII: the letters A-Z, the
    Kelvin sign and the dotted capital I are the only code points whose
    lower case contains an ASCII letter. Every other code point is left
    as it is; Python may map it to another non-ASCII code point, which
    no test of the source against an ASCII literal can observe. *)
Definition lower1 (c : N) : str :=
  if ((65 <=? c) && (c <=? 90))%N then [(c + 32)%N]
  else if (c =? 8490)%N then [107%N]
  else if (c =? 304)%N then [105%N; 775%N]
  else [c].

Definition lower (s : str) : str := s ≫= lower1.

(** The default of [sys.get_int_max_str_digits()]: the interpreter
    refuses to convert a numeral with more digits. *)
Definition int_max_str_digits : nat := 4300.

(** [int(s)] for a string of decimal digits; [None] stands for the
    [ValueError] raised on an empty string and on a numeral of more than
    [int_max_str_digits] digits. *)
Definition int_digits (s : str) : option Z :=
  match s with
  | [] => None
  | _ =>
      if bool_decide (int_max_str_digits < length s)%nat then None
      else Some (fold_left (fun acc c => 10 * acc + Z.of_N (default 0%N (digit_value c))) s 0)
  end.

(** *** The regular expressions of the source *)

(** The longest prefix whose characters all satisfy [cls]. *)
Fixpoint span (cls : N -> bool) (s : str) : str * str :=
  match s with
  | c :: s' => if cls c then let '(a, b) := span cls s' in (c :: a, b)
               else ([], s)
  | [] => ([], [])
  end.

(** [re.search(r'(CLS+)', s)]: the first maximal run of the class. *)
Fixpoint search_run (cls : N -> bool) (s : str) : option str :=
  match s with
  | c :: s' => if cls c then Some (fst (span cls s)) else search_run cls s'
  | [] => None
  end.

(** [re.search(r'(\d+)', s).group(1)] *)
Definition search_int (s : str) : option str := search_run isdecimal s.

(** [re.search(r'([\d,]+)', s).group(1)] *)
Definition search_count (s : str) : option str :=
  search_run (fun c => isdecimal c || (c =? 44)%N) s.

(** [re.search] for the rating pattern, group 1: digits, an optional
    point, digits; the match starts at the first digit of the text. *)
Fixpoint search_decimal (s : str) : option str :=
  match s with
  | c :: s' =>
      if isdecimal c then
        let '(a, b) := span isdecimal s in
        match b with
        | d :: b' => if (d =? 46)%N then Some (a ++ d :: fst (span isdecimal b'))
                     else Some a
        | [] => Some a
        end
      else search_decimal s'
  | [] => None
  end.

(** [re.sub(r'[^\d.]', '', s)] *)
Definition keep_digits_and_points (s : str) : str :=
  List.filter (fun c => isdecimal c || (c =? 46)%N) s.

(** [re.sub] of a leading bullet glyph (a bullet, a hyphen or a star)
    and the white space after it by the empty string. *)
Definition drop_bullet (s : str) : str :=
  match s with
  | c :: s' => if bool_decide (c ∈ [8226; 45; 42]%N) then lstrip s' else s
  | [] => []
  end.

(** The class [[A-Z0-9]] of the identifier patterns. *)
Definition is_AZ09 (c : N) : bool :=
  ((65 <=? c) && (c <=? 90) || (48 <=? c) && (c <=? 57))%N.

(** A pattern of the source is a sequence of these atoms. Every [\s*] of
    the source is followed by a character that is not white space, so the
    greedy match needs no backtracking. *)
Inductive atom :=
  | Lit (s : str)          (* literal text *)
  | Spaces                 (* white space, any number *)
  | Group (n : nat).       (* ([A-Z0-9]{n}) *)

(** Match the atoms at the start of [s]; the result is group 1. *)
Fixpoint match_here (p : list atom) (g : option str) (s : str) : option (option str) :=
  match p with
  | [] => Some g
  | Lit l :: p' =>
      if startswith l s then match_here p' g (drop (length l) s) else None
  | Spaces :: p' => match_here p' g (lstrip s)
  | Group n :: p' =>
      let c := take n s in
      if bool_decide (length c = n) && forallb is_AZ09 c
      then match_here p' (Some c) (drop n s) else None
  end.

(** [re.search(p, s)]: the leftmost position at which the atoms match. *)
Fixpoint search (p : list atom) (s : str) : option str :=
  match match_here p None s with
  | Some g => Some (default [] g)
  | None => match s with
            | [] => None
            | _ :: s' => search p s'
            end
  end.

End Py.

(** ** Exceptions *)

Inductive exn :=
  | NoSuchElementException
  | TimeoutException
  | WebDriverException
  | TypeError
  | ValueError
  | KeyError
  | RequestException.

Global Instance exn_eq_dec : EqDecision exn.
Proof. solve_decision. Defined.

(** The result of a call that may raise. *)
Inductive res (A : Type) :=
  | Ok (a : A)
  | Raise (e : exn).
Arguments Ok {A} a.
Arguments Raise {A} e.

Global Instance res_ret : MRet res := fun A a => Ok a.

Global Instance res_bind : MBind res := fun A B k c =>
  match c with
  | Ok a => k a
  | Raise e => Raise e
  end.

Global Instance res_fmap : FMap res := fun A B f c =>
  match c with
  | Ok a => Ok (f a)
  | Raise e => Raise e
  end.

(** [try: c  except E: h], for the exception classes [handles] accepts. *)
Definition try_except {A} (c : res A) (handles : exn -> bool) (h : res A) : res A :=
  match c with
  | Ok a => Ok a
  | Raise e => if handles e then h else Raise e
  end.

(** [except Exception] and bare [except]. *)
Definition any_exception (e : exn) : bool := true.

Definition is_timeout (e : exn) : bool := bool_decide (e = TimeoutException).

(** *** Calls that also change a state

    A Python object that is mutated in place (the dictionary
    [product_data], the list [reviews], the browser session) is the state
    [S]; a handler sees the state as the raising call left it. *)
Definition stx (S A : Type) : Type := S -> res A * S.

Global Instance stx_ret {S} : MRet (stx S) := fun A a s => (Ok a, s).

Global Instance stx_bind {S} : MBind (stx S) := fun A B k c s =>
  match c s with
  | (Ok a, s') => k a s'
  | (Raise e, s') => (Raise e, s')
  end.

Definition lift {S A} (c : res A) : stx S A := fun s => (c, s).
Definition gets {S A} (f : S -> A) : stx S A := fun s => (Ok (f s), s).
Definition modify {S} (f : S -> S) : stx S unit := fun s => (Ok (), f s).

(** [try: c  except E: h] *)
Definition try_ {S A} (c : stx S A) (handles : exn -> bool) (h : stx S A) : stx S A :=
  fun s =>
    match c s with
    | (Ok a, s') => (Ok a, s')
    | (Raise e, s') => if handles e then h s' else (Raise e, s')
    end.

(** Run a call on one component of a pair of states. *)
Definition on_fst {S T A} (c : stx S A) : stx (S * T) A :=
  fun st => let '(r, s') := c (fst st) in (r, (s', snd st)).
Definition on_snd {S T A} (c : stx T A) : stx (S * T) A :=
  fun st => let '(r, t') := c (snd st) in (r, (fst st, t')).

(** ** The rendered document and the driver's queries *)

(** A node of the rendered document: tag, attributes, the DOM property
    [textContent], the visible text WebDriver reports as [.text], and the
    child elements in document order. *)
#[local] Set Warnings "-register-all".
Inductive Element :=
  Elem { tag : string;
         attrs : list (string * Py.str);
         textContent : Py.str;
         text : Py.str;
         children : list Element }.

(** The simple selectors the source's CSS uses. *)
Inductive simple :=
  | Tag (t : string)                  (* li *)
  | Id (i : string)                   (* #productTitle *)
  | Class (c : string)                (* .a-last *)
  | AttrIs (a : string) (v : string)  (* [data-hook='review'] *)
  | AttrHas (a : string) (v : string) (* [src*='captcha'] *)
  | AttrSet (a : string).             (* any value: bs4's attrs={a: True} *)

(** A compound selector is a conjunction of simple ones; a selector is a
    chain of compounds under the descendant combinator, outermost first. *)
Definition compound := list simple.
Definition selector := list compound.

Definition attr (e : Element) (a : string) : option Py.str :=
  snd <$> List.find (fun kv => bool_decide (fst kv = a)) (attrs e).

(** The white-space separated tokens of a [class] attribute. *)
Fixpoint tokens_aux (cur : Py.str) (s : Py.str) : list Py.str :=
  match s with
  | [] => match cur with [] => [] | _ => [rev cur] end
  | c :: s' =>
      if Py.isspace c
      then match cur with [] => tokens_aux [] s' | _ => rev cur :: tokens_aux [] s' end
      else tokens_aux (c :: cur) s'
  end.

Definition tokens (s : Py.str) : list Py.str := tokens_aux [] s.

Definition matches_simple (e : Element) (t : simple) : bool :=
  match t with
  | Tag n => bool_decide (tag e = n)
  | Id i => bool_decide (attr e "id" = Some (Py.lit i))
  | Class c => bool_decide (Py.lit c ∈ tokens (default [] (attr e "class")))
  | AttrIs a v => bool_decide (attr e a = Some (Py.lit v))
  | AttrHas a v => match attr e a with
                   | Some x => Py.contains (Py.lit v) x
                   | None => false
                   end
  | AttrSet a => bool_decide (is_Some (attr e a))
  end.

Definition matches_compound (c : compound) (e : Element) : bool :=
  forallb (matches_simple e) c.

(** The outer compounds of a chain, innermost first, against the
    ancestors of a node, nearest first. Taking the nearest ancestor that
    matches loses no solution under the descendant combinator. *)
Fixpoint above (cs : list compound) (anc : list Element) : bool :=
  match cs with
  | [] => true
  | c :: cs' =>
      (fix climb (anc : list Element) : bool :=
         match anc with
         | [] => false
         | a :: anc' => if matches_compound c a then above cs' anc' else climb anc'
         end) anc
  end.

Definition matches (sel : selector) (anc : list Element) (e : Element) : bool :=
  match rev sel with
  | [] => false
  | c :: cs => matches_compound c e && above cs anc
  end.

(** What the driver hands out: a node together with its ancestors,
    nearest first, so that a later query below it still sees the whole
    document, as [querySelectorAll] does. *)
Record WebElement := { ancestors : list Element; node : Element }.

(** The nodes at or below [e] that match, in document order. *)
Fixpoint select (sel : selector) (anc : list Element) (e : Element) : list WebElement :=
  (if matches sel anc e then [{| ancestors := anc; node := e |}] else []) ++
  match e with
  | Elem _ _ _ _ kids => flat_map (select sel (e :: anc)) kids
  end.

(** The state of the browser tab between two navigations. *)
Record Page := {
  current_url : Py.str;            (* driver.current_url *)
  page_source : Py.str;            (* driver.page_source *)
  document : list Element;         (* the element tree of that source *)
  scroll_height : nat -> Z         (* document.body.scrollHeight after k scrolls *)
}.

(** [driver.find_elements(By.CSS_SELECTOR, sel)] *)
Definition driver_find_elements (p : Page) (sel : selector) : list WebElement :=
  flat_map (select sel []) (document p).

(** [element.find_elements(By.CSS_SELECTOR, sel)]: strict descendants. *)
Definition find_elements (element : WebElement) (sel : selector) : list WebElement :=
  flat_map (select sel (node element :: ancestors element)) (children (node element)).

(** [element.find_element(By.CSS_SELECTOR, sel)] *)
Definition find_element (element : WebElement) (sel : selector) : res WebElement :=
  match find_elements element sel with
  | e :: _ => Ok e
  | [] => Raise NoSuchElementException
  end.

(** [WebDriverWait(driver, t).until(EC.presence_of_element_located(...))]
    on a document that no longer changes: the first match, or a
    [TimeoutException] once the wait has run out. *)
Definition wait_presence (p : Page) (sel : selector) : res WebElement :=
  match driver_find_elements p sel with
  | e :: _ => Ok e
  | [] => Raise TimeoutException
  end.

(** The attributes that every element mirrors in a DOM property of type
    string ([className] for [class], [id]): the property is the empty
    string on an element without the attribute. *)
Definition reflected (name : string) : bool :=
  bool_decide (name ∈ ["class"; "id"]%string).

(** [element.get_attribute(name)]: the DOM property of that name when the
    element has one, else the attribute; [None] when neither exists. So
    [textContent] is always there, [class] and [id] are the empty string
    on an element without them, and any other name of the source ([src]
    of an image) is [None] when the attribute is absent. *)
Definition get_attribute (element : WebElement) (name : string) : option Py.str :=
  if bool_decide (name = "textContent") then Some (textContent (node element))
  else match attr (node element) name with
       | Some v => Some v
       | None => if reflected name then Some [] else None
       end.

(** ** config/settings.py *)

Record ScrapingSettings := {
  MAX_REVIEWS_PER_PRODUCT : Z;
  MAX_PAGES_TO_SCRAPE : Z;
  RANDOM_DELAYS : bool;
  HANDLE_CAPTCHAS : bool;
  MIN_DELAY : Q;
  MAX_DELAY : Q;
  REQUEST_TIMEOUT : Z;
  MAX_RETRIES : Z
}.

(** The values of the class body; the environment may override each, and
    nothing checks the override: a bound of the delay may be negative. *)
Definition settings : ScrapingSettings := {|
  MAX_REVIEWS_PER_PRODUCT := 1000;
  MAX_PAGES_TO_SCRAPE := 20;
  RANDOM_DELAYS := true;
  HANDLE_CAPTCHAS := true;
  MIN_DELAY := 1;
  MAX_DELAY := 3;
  REQUEST_TIMEOUT := 30;
  MAX_RETRIES := 3
|}.

(** ** base_scraper.py: the safe accessors *)

(** [safe_find_element]: only the time-out of the wait is absorbed. *)
Definition safe_find_element (p : Page) (sel : selector) : res (option WebElement) :=
  try_except (Some <$> wait_presence p sel) is_timeout (Ok None).

(** [safe_find_elements] *)
Definition safe_find_elements (p : Page) (sel : selector) : res (list WebElement) :=
  try_except (_ ← wait_presence p sel; Ok (driver_find_elements p sel))
             is_timeout (Ok []).

(** [safe_get_text]: the stripped visible text. Reading [.text] of a node
    of a fixed document does not raise, so the fall-back to [textContent]
    and then to the empty string is never taken. *)
Definition safe_get_text (element : option WebElement) : Py.str :=
  match element with
  | None => []
  | Some e => Py.strip (text (node e))
  end.

(** [safe_get_attribute]: [element.get_attribute(attribute) or ""] *)
Definition safe_get_attribute (element : option WebElement) (attribute : string) : Py.str :=
  match element with
  | None => []
  | Some e => default [] (get_attribute e attribute)
  end.

(** [int(m.group(1))] *)
Definition int_ (s : Py.str) : res Z :=
  match Py.int_digits s with
  | Some n => Ok n
  | None => Raise ValueError
  end.

(** ** amazon_scraper.py: the review extractor *)

Definition sel_review : selector := [[AttrIs "data-hook" "review"]].
Definition sel_profile_name : selector := [[Class "a-profile-name"]].
Definition sel_review_rating : selector :=
  [[Tag "i"; Class "a-icon"]; [Tag "span"; Class "a-icon-alt"]].
Definition sel_review_title : selector :=
  [[AttrIs "data-hook" "review-title"]; [Tag "span"]].
Definition sel_review_body : selector :=
  [[AttrIs "data-hook" "review-body"]; [Tag "span"]].
Definition sel_review_date : selector := [[AttrIs "data-hook" "review-date"]].
Definition sel_avp_badge : selector := [[AttrIs "data-hook" "avp-badge"]].
Definition sel_helpful : selector := [[AttrIs "data-hook" "helpful-vote-statement"]].
Definition sel_vine : selector := [[AttrIs "data-hook" "vine-customer-review"]].

(** The dictionary [review_data] once every key has been assigned. *)
Record review := {
  review_id : Py.str;
  reviewer_name : Py.str;
  rating : Z;
  title : Py.str;
  review_text : Py.str;
  date : Py.str;
  verified_purchase : bool;
  helpful_votes : Z;
  vine_customer : bool
}.

Global Instance review_eq_dec : EqDecision review.
Proof. solve_decision. Defined.

(** [wait_for_reviews_to_load]: every exception of the wait is caught. *)
Definition wait_for_reviews_to_load (p : Page) : bool :=
  match wait_presence p sel_review with
  | Ok _ => true
  | Raise _ => false
  end.

(** [int(m.group(1)) if m else 0] for the pattern of one or more digits. *)
Definition first_int_or_zero (s : Py.str) : res Z :=
  match Py.search_int s with
  | Some g => int_ g
  | None => Ok 0
  end.

(** The assignments to [review_data] in the body of the loop of the second
    definition of [_extract_reviews_from_page], the one the class ends up
    with, before the length test. The reviewer is looked up through
    [self.safe_find_element], that is in the whole document; rating,
    title, body and date are looked up with [element.find_element],
    which raises when the node has no such descendant. *)
Definition review_data_of (p : Page) (element : WebElement) : res review :=
  let review_id := safe_get_attribute (Some element) "id" in
  reviewer_element ← safe_find_element p sel_profile_name;
  let reviewer_name :=
    match reviewer_element with
    | Some _ => safe_get_text reviewer_element
    | None => Py.lit "Anonymous"
    end in
  rating_element ← find_element element sel_review_rating;
  let rating_text := safe_get_text (Some rating_element) in
  rating ← (if Py.truthy rating_text then first_int_or_zero rating_text else Ok 0);
  title_element ← find_element element sel_review_title;
  let title := safe_get_text (Some title_element) in
  content_element ← find_element element sel_review_body;
  let review_text := safe_get_text (Some content_element) in
  date_element ← find_element element sel_review_date;
  let date := safe_get_text (Some date_element) in
  let verified_element := find_elements element sel_avp_badge in
  let verified_purchase := bool_decide (0 < length verified_element)%nat in
  let helpful_element := find_elements element sel_helpful in
  helpful_votes ←
    match helpful_element with
    | h :: _ => first_int_or_zero (safe_get_text (Some h))
    | [] => Ok 0
    end;
  let vine_element := find_elements element sel_vine in
  let vine_customer := bool_decide (0 < length vine_element)%nat in
  Ok {| review_id := review_id; reviewer_name := reviewer_name;
        rating := rating; title := title; review_text := review_text;
        date := date; verified_purchase := verified_purchase;
        helpful_votes := helpful_votes; vine_customer := vine_customer |}.

(** [review_data["review_text"] and len(review_data["review_text"].strip()) >= 10] *)
Definition meaningful (r : review) : bool :=
  Py.truthy (review_text r) &&
  bool_decide (10 ≤ length (Py.strip (review_text r)))%nat.

(** The [for element in review_elements] loop; [reviews] is the list
    being appended to. An exception in the body is caught by the
    [except Exception] of the iteration, which goes on with the next
    element. *)
Fixpoint review_loop (p : Page) (review_elements : list WebElement)
    (reviews : list review) : list review :=
  match review_elements with
  | [] => reviews
  | element :: rest =>
      match review_data_of p element with
      | Ok review_data =>
          if meaningful review_data
          then review_loop p rest (reviews ++ [review_data])
          else review_loop p rest reviews
      | Raise _ => review_loop p rest reviews
      end
  end.

(** The second definition of [_extract_reviews_from_page] (the later [def]
    of a class body replaces the earlier one). Outside the loop nothing
    raises on a fixed document, so the outer handler has nothing to
    catch. *)
Definition _extract_reviews_from_page (p : Page) : list review :=
  if negb (wait_for_reviews_to_load p) then []
  else
    let review_elements := driver_find_elements p sel_review in
    match review_elements with
    | [] => []
    | _ => review_loop p review_elements []
    end.

(** The first definition of [_extract_reviews_from_page], which the class
    body then replaces. It guards each sub-field with a handler of its
    own and fills in the field's default there. Its dictionary has the key
    [content] for the body and no [review_id]. *)
Record review_v1 := {
  v1_reviewer_name : Py.str;
  v1_rating : Z;
  v1_title : Py.str;
  v1_content : Py.str;
  v1_date : Py.str;
  v1_verified_purchase : bool;
  v1_helpful_votes : Z;
  v1_vine_customer : bool
}.

(** [try: c  except: d] where [d] assigns a default. *)
Definition or_default {A} (c : res A) (d : A) : A :=
  match c with
  | Ok a => a
  | Raise _ => d
  end.

Definition text_of (element : WebElement) (sel : selector) : res Py.str :=
  e ← find_element element sel; Ok (safe_get_text (Some e)).

Definition review_data_v1 (element : WebElement) : review_v1 :=
  {| v1_reviewer_name :=
       or_default (text_of element sel_profile_name) (Py.lit "Anonymous");
     v1_rating :=
       or_default (rating_text ← text_of element sel_review_rating;
                   first_int_or_zero rating_text) 0;
     v1_title := or_default (text_of element sel_review_title) [];
     v1_content := or_default (text_of element sel_review_body) [];
     v1_date := or_default (text_of element sel_review_date) [];
     v1_verified_purchase :=
       bool_decide (0 < length (find_elements element sel_avp_badge))%nat;
     v1_helpful_votes :=
       or_default (match find_elements element sel_helpful with
                   | h :: _ => first_int_or_zero (safe_get_text (Some h))
                   | [] => Ok 0
                   end) 0;
     v1_vine_customer :=
       bool_decide (0 < length (find_elements element sel_vine))%nat |}.

Definition meaningful_v1 (r : review_v1) : bool :=
  Py.truthy (v1_content r) &&
  bool_decide (10 ≤ length (Py.strip (v1_content r)))%nat.

Definition _extract_reviews_from_page_shadowed (p : Page) : list review_v1 :=
  List.filter meaningful_v1 (review_data_v1 <$> driver_find_elements p sel_review).

(** ** amazon_scraper.py: the product fields *)

(** The values stored in [product_data]. A float is kept as the numeral
    it was read from. *)
Inductive value :=
  | VStr (s : Py.str)
  | VFloat (numeral : Py.str)
  | VInt (n : Z)
  | VList (l : list Py.str)
  | VDict (d : gmap string Py.str).

(** [product_data[k] = v] *)
Definition set_item (k : string) (v : value) : stx (gmap string value) unit :=
  modify <[k := v]>.

(** [product_data[k]] *)
Definition get_item (k : string) : stx (gmap string value) value :=
  fun d => match d !! k with
           | Some v => (Ok v, d)
           | None => (Raise KeyError, d)
           end.

(** [product_data[k].append(x)] *)
Definition append_item (k : string) (x : Py.str) : stx (gmap string value) unit :=
  v ← get_item k;
  match v with
  | VList l => set_item k (VList (l ++ [x]))
  | _ => lift (Raise TypeError)
  end.

(** The dictionary [extract_product_details] starts from. *)
Definition initial_product_data (resolved_url : Py.str) : gmap string value :=
  <["url" := VStr resolved_url]> (
  <["name" := VStr []]> (
  <["price" := VStr []]> (
  <["currency" := VStr []]> (
  <["rating" := VFloat (Py.lit "0.0")]> (
  <["review_count" := VInt 0]> (
  <["features" := VList []]> (
  <["seller_name" := VStr []]> (
  <["asin" := VStr []]> (
  <["images" := VList []]> ∅))))))))).

Definition name_selectors : list selector :=
  [ [[Id "productTitle"]];
    [[Class "product-title"]; [Tag "h1"]];
    [[Tag "h1"; Class "a-size-large"]] ].

Fixpoint name_loop (p : Page) (selectors : list selector) : stx (gmap string value) unit :=
  match selectors with
  | [] => mret ()
  | selector :: rest =>
      element ← lift (safe_find_element p selector);
      match element with
      | Some _ => set_item "name" (VStr (safe_get_text element))
      | None => name_loop p rest
      end
  end.

Definition price_selectors : list selector :=
  [ [[Class "a-price-whole"]];
    [[Class "a-offscreen"]];
    [[Id "apex_desktop"]; [Class "a-price"]; [Class "a-offscreen"]];
    [[Id "price_inside_buybox"]];
    [[Class "a-price"]; [Class "a-offscreen"]] ].

Definition dollar : Py.str := [36%N].
Definition rupee : Py.str := [8377%N].
Definition pound : Py.str := [163%N].
Definition euro : Py.str := [8364%N].

(** The body of [if price_text:] in [_extract_price_info]. *)
Definition price_assign (price_text : Py.str) : stx (gmap string value) unit :=
  if Py.contains dollar price_text then
    _ ← set_item "currency" (VStr (Py.lit "USD"));
    set_item "price" (VStr (Py.keep_digits_and_points price_text))
  else if Py.contains rupee price_text then
    _ ← set_item "currency" (VStr (Py.lit "INR"));
    set_item "price" (VStr (Py.keep_digits_and_points price_text))
  else if Py.contains pound price_text then
    _ ← set_item "currency" (VStr (Py.lit "GBP"));
    set_item "price" (VStr (Py.keep_digits_and_points price_text))
  else if Py.contains euro price_text then
    _ ← set_item "currency" (VStr (Py.lit "EUR"));
    set_item "price" (VStr (Py.keep_digits_and_points price_text))
  else
    set_item "price" (VStr (Py.keep_digits_and_points price_text)).

Fixpoint price_loop (p : Page) (selectors : list selector) : stx (gmap string value) unit :=
  match selectors with
  | [] => mret ()
  | selector :: rest =>
      element ← lift (safe_find_element p selector);
      match element with
      | Some _ =>
          let price_text := safe_get_text element in
          if Py.truthy price_text then price_assign price_text
          else price_loop p rest
      | None => price_loop p rest
      end
  end.

Definition _extract_price_info (p : Page) : stx (gmap string value) unit :=
  price_loop p price_selectors.

Definition rating_selectors : list selector :=
  [ [[Class "a-icon-alt"]];
    [[AttrIs "data-hook" "average-star-rating"]; [Class "a-icon-alt"]];
    [[Class "reviewCountTextLinkedHistogram"]; [Class "a-icon-alt"]] ].

Definition review_count_selectors : list selector :=
  [ [[Id "acrCustomerReviewText"]];
    [[AttrIs "data-hook" "total-review-count"]];
    [[Class "reviewCountTextLinkedHistogram"]; [Class "a-link-normal"]] ].

(** [a or b] on strings *)
Definition str_or (a b : Py.str) : Py.str := if Py.truthy a then a else b.

Fixpoint rating_loop (p : Page) (selectors : list selector) : stx (gmap string value) unit :=
  match selectors with
  | [] => mret ()
  | selector :: rest =>
      element ← lift (safe_find_element p selector);
      match element with
      | Some _ =>
          let rating_text :=
            str_or (safe_get_attribute element "textContent") (safe_get_text element) in
          if Py.truthy rating_text then
            match Py.search_decimal rating_text with
            | Some g => set_item "rating" (VFloat g)
            | None => rating_loop p rest
            end
          else rating_loop p rest
      | None => rating_loop p rest
      end
  end.

(** [s.replace(',', '')] *)
Definition without_commas (s : Py.str) : Py.str :=
  List.filter (fun c => negb (c =? 44)%N) s.

Fixpoint review_count_loop (p : Page) (selectors : list selector) : stx (gmap string value) unit :=
  match selectors with
  | [] => mret ()
  | selector :: rest =>
      element ← lift (safe_find_element p selector);
      match element with
      | Some _ =>
          let count_text := safe_get_text element in
          if Py.truthy count_text then
            match Py.search_count count_text with
            | Some g =>
                r ← try_ (n ← lift (int_ (without_commas g));
                          _ ← set_item "review_count" (VInt n);
                          mret true)
                         (fun e => bool_decide (e = ValueError)) (mret false);
                if r : bool then mret () else review_count_loop p rest
            | None => review_count_loop p rest
            end
          else review_count_loop p rest
      | None => review_count_loop p rest
      end
  end.

Definition _extract_rating_info (p : Page) : stx (gmap string value) unit :=
  _ ← rating_loop p rating_selectors;
  review_count_loop p review_count_selectors.

Definition feature_selectors : list selector :=
  [ [[Id "feature-bullets"]; [Tag "ul"]; [Tag "li"]];
    [[Id "productDetails_feature_div"]; [Tag "li"]];
    [[Class "a-unordered-list"]; [Class "a-list-item"]] ].

Fixpoint feature_items (elements : list WebElement) : stx (gmap string value) unit :=
  match elements with
  | [] => mret ()
  | element :: rest =>
      let feature_text := safe_get_text (Some element) in
      _ ← (if Py.truthy feature_text
              && bool_decide (10 < length feature_text)%nat
              && negb (Py.startswith (Py.lit "Make sure") feature_text)
           then append_item "features" (Py.strip (Py.drop_bullet feature_text))
           else mret ());
      feature_items rest
  end.

Fixpoint feature_loop (p : Page) (selectors : list selector) : stx (gmap string value) unit :=
  match selectors with
  | [] => mret ()
  | selector :: rest =>
      elements ← lift (safe_find_elements p selector);
      match elements with
      | [] => feature_loop p rest
      | _ => feature_items (take 10 elements)
      end
  end.

Definition _extract_features (p : Page) : stx (gmap string value) unit :=
  feature_loop p feature_selectors.

Definition seller_selectors : list selector :=
  [ [[Id "sellerProfileTriggerId"]];
    [[Id "bylineInfo"]];
    [[Class "po-brand"]; [Class "po-break-word"]] ].

(** The loop of [_extract_seller_info] over the local dictionary
    [seller_info]. *)
Fixpoint seller_loop (p : Page) (selectors : list selector) : stx (gmap string Py.str) unit :=
  match selectors with
  | [] => mret ()
  | selector :: rest =>
      element ← lift (safe_find_element p selector);
      match element with
      | Some _ =>
          let seller_text := safe_get_text element in
          if Py.truthy seller_text && negb (Py.startswith (Py.lit "Visit") seller_text)
          then modify <["name" := Py.strip (Py.replace (Py.lit "Brand:") [] seller_text)]>
          else seller_loop p rest
      | None => seller_loop p rest
      end
  end.

(** [_extract_seller_info]: the result goes under the key [seller_info];
    the key [seller_name] of the initial dictionary is not assigned. *)
Definition _extract_seller_info (p : Page) : stx (gmap string value) unit :=
  fun product_data =>
    let '(r, seller_info) := seller_loop p seller_selectors ∅ in
    match r with
    | Raise e => (Raise e, product_data)
    | Ok _ =>
        let seller_info :=
          if Py.truthy (default [] (seller_info !! "name")) then seller_info
          else <["name" := Py.lit "Amazon"]> seller_info in
        set_item "seller_info" (VDict seller_info) product_data
    end.

Definition availability_selectors : list selector :=
  [ [[Id "availability"]; [Tag "span"]];
    [[Class "a-color-success"]];
    [[Class "a-color-price"]] ].

Fixpoint availability_loop (p : Page) (selectors : list selector) : stx (gmap string value) unit :=
  match selectors with
  | [] => mret ()
  | selector :: rest =>
      element ← lift (safe_find_element p selector);
      match element with
      | Some _ =>
          let availability_text := safe_get_text element in
          if Py.contains (Py.lit "stock") (Py.lower availability_text)
             || Py.contains (Py.lit "available") (Py.lower availability_text)
          then set_item "availability" (VStr availability_text)
          else availability_loop p rest
      | None => availability_loop p rest
      end
  end.

Definition _extract_availability (p : Page) : stx (gmap string value) unit :=
  availability_loop p availability_selectors.

Definition image_selectors : list selector :=
  [ [[Id "altImages"]; [Tag "img"]];
    [[Id "landingImage"]];
    [[Class "a-dynamic-image"]] ].

Fixpoint image_items (elements : list WebElement) : stx (gmap string value) unit :=
  match elements with
  | [] => mret ()
  | element :: rest =>
      let img_src := safe_get_attribute (Some element) "src" in
      _ ← (if Py.truthy img_src && Py.contains (Py.lit "http") img_src
           then append_item "images" img_src
           else mret ());
      image_items rest
  end.

Fixpoint image_loop (p : Page) (selectors : list selector) : stx (gmap string value) unit :=
  match selectors with
  | [] => mret ()
  | selector :: rest =>
      elements ← lift (safe_find_elements p selector);
      match elements with
      | [] => image_loop p rest
      | _ => image_items (take 5 elements)
      end
  end.

Definition _extract_images (p : Page) : stx (gmap string value) unit :=
  image_loop p image_selectors.

(** ** amazon_scraper.py: the catalogue identifier (ASIN) *)

(** [detect_amazon_domain] *)
Definition detect_amazon_domain (url : Py.str) : Py.str :=
  if Py.contains (Py.lit "amazon.com") url then Py.lit "https://www.amazon.com"
  else if Py.contains (Py.lit "amazon.co.uk") url then Py.lit "https://www.amazon.co.uk"
  else if Py.contains (Py.lit "amazon.in") url then Py.lit "https://www.amazon.in"
  else if Py.contains (Py.lit "amazon.de") url then Py.lit "https://www.amazon.de"
  else Py.lit "https://www.amazon.com".

(** The double quote. *)
Definition dq : Py.str := [34%N].

(** [soup.find(...)]: the first match in document order. The tree
    BeautifulSoup builds from [page_source] is taken to be [document]; the
    [.string] of a script is its [textContent]. *)
Definition soup_find_all (p : Page) (sel : selector) : list Element :=
  node <$> driver_find_elements p sel.

Definition soup_find (p : Page) (sel : selector) : option Element :=
  head (soup_find_all p sel).

Definition sel_meta_pageId : selector := [[Tag "meta"; AttrIs "name" "pageId"]].
Definition sel_data_asin : selector := [[AttrSet "data-asin"]].
Definition sel_script : selector := [[Tag "script"]].
Definition sel_input_asin : selector := [[Tag "input"; AttrIs "name" "ASIN"]].
Definition sel_img : selector := [[Tag "img"]].

(** The first pattern of the list that matches the text. *)
Fixpoint first_pattern (patterns : list (list Py.atom)) (s : Py.str) : option Py.str :=
  match patterns with
  | [] => None
  | pattern :: rest =>
      match Py.search pattern s with
      | Some g => Some g
      | None => first_pattern rest s
      end
  end.

(** [for script in scripts: if script.string: ...] *)
Fixpoint script_loop (patterns : list (list Py.atom)) (scripts : list Element) : option Py.str :=
  match scripts with
  | [] => None
  | script :: rest =>
      if Py.truthy (textContent script) then
        match first_pattern patterns (textContent script) with
        | Some g => Some g
        | None => script_loop patterns rest
        end
      else script_loop patterns rest
  end.

Definition pat_ASIN_colon : list Py.atom :=
  [Py.Lit (dq ++ Py.lit "ASIN" ++ dq); Py.Spaces; Py.Lit (Py.lit ":"); Py.Spaces;
   Py.Lit dq; Py.Group 10; Py.Lit dq].

(** [extract_asin_from_page], the function the scraper calls: the meta
    tag, then a [data-asin] attribute, then the scripts. The first two
    return whatever the attribute holds, [None] included. *)
Definition extract_asin_from_page (p : Page) : option Py.str :=
  match soup_find p sel_meta_pageId with
  | Some asin_meta => attr asin_meta "content"
  | None =>
      match soup_find p sel_data_asin with
      | Some asin_element => attr asin_element "data-asin"
      | None => script_loop [pat_ASIN_colon] (soup_find_all p sel_script)
      end
  end.

Definition url_patterns : list (list Py.atom) :=
  [ [Py.Lit (Py.lit "/dp/"); Py.Group 10];
    [Py.Lit (Py.lit "/gp/product/"); Py.Group 10];
    [Py.Lit (Py.lit "asin="); Py.Group 10] ].

(** [extract_asin] *)
Definition extract_asin (p : Page) (url : Py.str) : option Py.str :=
  match first_pattern url_patterns url with
  | Some g => Some g
  | None => extract_asin_from_page p
  end.

Section PrivateAsin.

(** [unicode_alnum c] stands for [chr(c).isalnum()], a table of the
    Unicode database of the interpreter. *)
Variable unicode_alnum : N -> bool.

(** [s.isalnum()] *)
Definition isalnum (s : Py.str) : bool := Py.truthy s && forallb unicode_alnum s.

Definition script_patterns : list (list Py.atom) :=
  [ pat_ASIN_colon;
    [Py.Lit (Py.lit "asin"); Py.Spaces; Py.Lit (Py.lit ":"); Py.Spaces;
     Py.Lit dq; Py.Group 10; Py.Lit dq];
    [Py.Lit (dq ++ Py.lit "asin" ++ dq); Py.Spaces; Py.Lit (Py.lit ":"); Py.Spaces;
     Py.Lit dq; Py.Group 10; Py.Lit dq];
    [Py.Lit (Py.lit "ASIN"); Py.Spaces; Py.Lit (Py.lit "="); Py.Spaces;
     Py.Lit dq; Py.Group 10; Py.Lit dq] ].

(** Method 1: the path of the current URL. *)
Definition asin_method1 (p : Page) : option Py.str :=
  Py.search [Py.Lit (Py.lit "/dp/"); Py.Group 10] (current_url p).

(** Method 2: the meta tag [pageId]. *)
Definition asin_method2 (p : Page) : option Py.str :=
  match soup_find p sel_meta_pageId with
  | Some meta_tag =>
      let content := default [] (attr meta_tag "content") in
      if bool_decide (length content = 10%nat) && isalnum content
      then Some content else None
  | None => None
  end.

(** [if asin and len(asin) == 10: return asin] *)
Definition ten_long (asin : option Py.str) : option Py.str :=
  match asin with
  | Some a => if Py.truthy a && bool_decide (length a = 10%nat) then Some a else None
  | None => None
  end.

(** Method 3: the first element that carries [data-asin]. *)
Definition asin_method3 (p : Page) : option Py.str :=
  match soup_find p sel_data_asin with
  | Some asin_element => ten_long (attr asin_element "data-asin")
  | None => None
  end.

(** Method 4: variables in the scripts. *)
Definition asin_method4 (p : Page) : option Py.str :=
  script_loop script_patterns (soup_find_all p sel_script).

(** Method 5: the form input named [ASIN]. *)
Definition asin_method5 (p : Page) : option Py.str :=
  match soup_find p sel_input_asin with
  | Some asin_input => ten_long (attr asin_input "value")
  | None => None
  end.

(** Method 6: the [src] of the images. *)
Fixpoint image_url_loop (images : list Element) : option Py.str :=
  match images with
  | [] => None
  | img :: rest =>
      let src := default [] (attr img "src") in
      if Py.contains (Py.lit "/images/I/") src then
        match Py.search [Py.Lit (Py.lit "/"); Py.Group 10; Py.Lit (Py.lit ".")] src with
        | Some g => Some g
        | None => image_url_loop rest
        end
      else image_url_loop rest
  end.

Definition asin_method6 (p : Page) : option Py.str :=
  image_url_loop (soup_find_all p sel_img).

(** [_extract_asin_from_page]: each method returns as soon as it has a
    candidate it accepts; no caller of it exists in the sources. *)
Definition _extract_asin_from_page (p : Page) : option Py.str :=
  match asin_method1 p with
  | Some a => Some a
  | None =>
  match asin_method2 p with
  | Some a => Some a
  | None =>
  match asin_method3 p with
  | Some a => Some a
  | None =>
  match asin_method4 p with
  | Some a => Some a
  | None =>
  match asin_method5 p with
  | Some a => Some a
  | None => asin_method6 p
  end end end end end.

End PrivateAsin.

(** [str.isalnum] restricted to ASCII, to run the examples with. *)
Definition ascii_alnum (c : N) : bool :=
  ((48 <=? c) && (c <=? 57) || (65 <=? c) && (c <=? 90) || (97 <=? c) && (c <=? 122))%N.

(** ** The browser session *)

(** What a run does to the outside, in the order it happens. *)
Inductive event :=
  | Navigate (url : Py.str)     (* driver.get(url) is called *)
  | Sleep (seconds : Q)         (* time.sleep(seconds) *)
  | RandomSleep (lo hi : Q)     (* time.sleep(random.uniform(lo, hi)) is called *)
  | Scroll                      (* window.scrollTo(0, document.body.scrollHeight) *)
  | Click                       (* next_button.click() *)
  | Scraping (page : Z).        (* the log line of a page of the listing *)

(** The dictionary [scrape_product] returns, without its time stamp. *)
Record scrape_result := {
  product_details : gmap string value;
  reviews : list review;
  total_reviews_scraped : nat
}.

(** What can leave a block of main.py: an exception that derives from
    [Exception], or the interrupt of the user, which [except Exception]
    does not handle. *)
Inductive raised :=
  | Exception (e : exn)
  | KeyboardInterrupt.

(** The outside of the program. The [n]-th call of [driver.get] lands on
    a page of [site] or raises; a click on the control of the next page
    moves to the following page of [site]. [random n] holds the 53 random
    bits behind the value of [random.random()] that is drawn when the log
    of the session has [n] entries. [report result] is what leaves the
    lines of [scrape_amazon_product] that save and print [result]: saving
    catches its own exceptions, [print] has no handler. *)
Record World := {
  probe : Py.str -> res Py.str;   (* requests.head(url, allow_redirects=True, timeout=10).url *)
  load : nat -> Py.str -> res nat;
  site : nat -> Page;
  driver_starts : bool;           (* AmazonScraper() does not raise *)
  random : nat -> N;
  report : scrape_result -> option raised
}.

Record Session := {
  loads : nat;          (* calls of driver.get so far *)
  position : nat;       (* index in [site] of the current page *)
  page : Page;          (* the current page *)
  scrolled : nat;       (* scrolls on the current page *)
  log : list event      (* oldest first *)
}.

(** The tab of a browser that has not navigated yet. *)
Definition blank_page : Page :=
  {| current_url := Py.lit "data:,"; page_source := []; document := [];
     scroll_height := fun _ => 0 |}.

Definition new_session : Session :=
  {| loads := 0; position := 0; page := blank_page; scrolled := 0; log := [] |}.

Definition record (e : event) (s : Session) : Session :=
  {| loads := loads s; position := position s; page := page s;
     scrolled := scrolled s; log := log s ++ [e] |}.

Definition on_page (i : nat) (p : Page) (s : Session) : Session :=
  {| loads := loads s; position := i; page := p; scrolled := 0; log := log s |}.

(** [time.sleep(seconds)] for the arguments the source passes itself:
    the literals 1 and 30 and the back-off of an attempt, none of them
    negative. *)
Definition sleep (seconds : Q) : stx Session unit := modify (record (Sleep seconds)).

(** [random.uniform(a, b)], which is [a + (b - a) * random()], from the
    bits of the draw; the rounding of floats is left out. *)
Definition uniform (bits : N) (a b : Q) : Q :=
  (a + (b - a) * (Z.of_N (bits mod 2 ^ 53) # 2 ^ 53))%Q.

(** [a or b] on an optional number: [None] and zero give [b]. *)
Definition q_or (a : option Q) (b : Q) : Q :=
  match a with
  | Some q => if Qeq_bool q 0 then b else q
  | None => b
  end.

Section Scraper.

Variable cfg : ScrapingSettings.
Variable w : World.

(** [self.driver.get(url)] *)
Definition driver_get (url : Py.str) : stx Session unit :=
  fun s =>
    let s1 := record (Navigate url)
                {| loads := S (loads s); position := position s; page := page s;
                   scrolled := scrolled s; log := log s |} in
    match load w (loads s) url with
    | Ok i => (Ok (), on_page i (site w i) s1)
    | Raise e => (Raise e, s1)
    end.

(** [next_button.click()] *)
Definition click_next : stx Session unit :=
  modify (fun s => on_page (S (position s)) (site w (S (position s))) (record Click s)).

(** [ethical_delay]: [time.sleep] raises a [ValueError] when the delay
    drawn is negative. *)
Definition ethical_delay (min_delay max_delay : option Q) : stx Session unit :=
  if negb (RANDOM_DELAYS cfg) then mret ()
  else
    let min_delay := q_or min_delay (MIN_DELAY cfg) in
    let max_delay := q_or max_delay (MAX_DELAY cfg) in
    delay ← gets (fun s => uniform (random w (length (log s))) min_delay max_delay);
    _ ← modify (record (RandomSleep min_delay max_delay));
    if Qle_bool 0 delay then mret () else lift (Raise ValueError).

Definition body_scroll_height (s : Session) : Z := scroll_height (page s) (scrolled s).

Definition scroll_to_bottom : stx Session unit :=
  modify (fun s => record Scroll
            {| loads := loads s; position := position s; page := page s;
               scrolled := S (scrolled s); log := log s |}).

Fixpoint scroll_loop (max_scrolls : nat) (current_height : Z) : stx Session unit :=
  match max_scrolls with
  | O => mret ()
  | S n =>
      _ ← scroll_to_bottom;
      _ ← sleep 1;
      new_height ← gets body_scroll_height;
      if new_height =? current_height then mret ()
      else scroll_loop n new_height
  end.

(** [scroll_page(pause_time=1.0, max_scrolls=3)] *)
Definition scroll_page : stx Session unit :=
  try_ (current_height ← gets body_scroll_height; scroll_loop 3 current_height)
       any_exception (mret ()).

(** [wait_for_page_ready]: two waits inside a handler for every
    exception; they leave nothing behind but the time they took. *)
Definition wait_for_page_ready : stx Session unit := mret ().

(** [handle_dynamic_content_loading] *)
Definition handle_dynamic_content_loading : stx Session unit :=
  try_ (p ← gets page;
        _ ← lift (wait_presence p [[Tag "body"]]);
        _ ← scroll_page;
        wait_for_page_ready)
       is_timeout (mret ()).

Definition captcha_selectors : list selector :=
  [ [[Tag "iframe"; AttrHas "src" "captcha"]];
    [[Tag "iframe"; AttrHas "src" "recaptcha"]];
    [[Class "captcha-container"]];
    [[Id "captcha"]];
    [[AttrIs "data-testid" "captcha"]];
    [[Class "g-recaptcha"]] ].

Fixpoint captcha_loop (p : Page) (selectors : list selector) : stx Session unit :=
  match selectors with
  | [] => mret ()
  | selector :: rest =>
      match driver_find_elements p selector with
      | [] => captcha_loop p rest
      | _ => sleep 30
      end
  end.

Definition blocked_indicators : list Py.str :=
  Py.lit <$> ["access denied"; "blocked"; "captcha"; "unusual traffic";
              "automated requests"]%string.

(** [handle_anti_bot_measures] *)
Definition handle_anti_bot_measures : stx Session unit :=
  if negb (HANDLE_CAPTCHAS cfg) then mret ()
  else
    try_ (p ← gets page;
          _ ← captcha_loop p captcha_selectors;
          let page_text := Py.lower (page_source p) in
          if existsb (fun indicator => Py.contains indicator page_text) blocked_indicators
          then ethical_delay (Some 5%Q) (Some 10%Q)
          else mret ())
         any_exception (mret ()).

(** The [try] block of one attempt of [navigate_with_retry]; it ends in
    [return True]. A result [Some b] stands for [return b], [None] for
    going on with the loop. *)
Definition attempt_block (url : Py.str) : stx Session (option bool) :=
  _ ← driver_get url;
  _ ← handle_dynamic_content_loading;
  _ ← handle_anti_bot_measures;
  _ ← ethical_delay None None;
  mret (Some true).

(** The handler of an attempt. *)
Definition attempt_failed (attempt : Z) : stx Session (option bool) :=
  if attempt <? MAX_RETRIES cfg - 1
  then _ ← sleep (inject_Z ((attempt + 1) * 2)); mret None
  else mret (Some false).

(** The loop of [navigate_with_retry] over [range(settings.MAX_RETRIES)],
    and the [return False] after it. *)
Fixpoint retry_loop (url : Py.str) (attempts : list Z) : stx Session bool :=
  match attempts with
  | [] => mret false
  | attempt :: rest =>
      r ← try_ (attempt_block url) any_exception (attempt_failed attempt);
      match r with
      | Some b => mret b
      | None => retry_loop url rest
      end
  end.

(** [navigate_with_retry] *)
Definition navigate_with_retry (url : Py.str) : stx Session bool :=
  retry_loop url (seqZ 0 (MAX_RETRIES cfg)).

(** [resolve_short_url] *)
Definition resolve_short_url (url : Py.str) : stx Session Py.str :=
  try_ (lift (probe w url)) any_exception (mret url).

(** The f-string of the summary reads these keys of [product_data]. *)
Definition logging_summary : stx (gmap string value) unit :=
  _ ← get_item "name"; _ ← get_item "currency"; _ ← get_item "price";
  _ ← get_item "rating"; _ ← get_item "review_count";
  _ ← get_item "seller_name"; _ ← get_item "features"; _ ← get_item "asin";
  mret ().

(** The [try] block of [extract_product_details]. *)
Definition product_details_body (resolved_url : Py.str)
    : stx (Session * gmap string value) unit :=
  _ ← on_fst (driver_get resolved_url);
  _ ← on_fst (ethical_delay None None);
  p ← gets (fun st => page (fst st));
  _ ← on_snd (set_item "asin" (VStr (default [] (extract_asin_from_page p))));
  _ ← on_snd (name_loop p name_selectors);
  _ ← on_snd (_extract_price_info p);
  _ ← on_snd (_extract_rating_info p);
  _ ← on_snd (_extract_features p);
  _ ← on_snd (_extract_seller_info p);
  _ ← on_snd (_extract_availability p);
  _ ← on_snd (_extract_images p);
  on_snd logging_summary.

(** The dictionary is created, the [try] block runs on it under a
    handler for every exception, and the dictionary is returned as the
    block left it. *)
Definition product_details_from (resolved_url : Py.str) : stx Session (gmap string value) :=
  fun s =>
    let '(_, (s', product_data)) :=
      try_ (product_details_body resolved_url) any_exception (mret ())
           (s, initial_product_data resolved_url) in
    (Ok product_data, s').

(** [extract_product_details] *)
Definition extract_product_details (url : Py.str) : stx Session (gmap string value) :=
  resolved_url ← resolve_short_url url;
  product_details_from resolved_url.

Definition sel_next : selector := [[Tag "li"; Class "a-last"]; [Tag "a"]].

(** The [try] block at the end of an iteration of the page loop; the
    result tells whether the loop goes on. [get_attribute("class")] is a
    string for every element, so the [in] test has a text to look in; a
    delay that raises after the click ends the loop through the bare
    [except]. *)
Definition advance (p : Page) : stx (Session * list review) bool :=
  next_button ← lift (safe_find_element p sel_next);
  match next_button with
  | Some b =>
      cls ← lift (match get_attribute b "class" with
                  | Some c => Ok c
                  | None => Raise TypeError
                  end);
      if negb (Py.contains (Py.lit "a-disabled") cls)
      then _ ← on_fst click_next;
           _ ← on_fst (ethical_delay None None);
           mret true
      else mret false
  | None => mret false
  end.

(** [for page in range(1, max_pages + 1)]; the second component of the
    state is the list [reviews]. Every exception of the block that moves
    to the next page ends the loop. *)
Fixpoint page_loop (pages : list Z) : stx (Session * list review) unit :=
  match pages with
  | [] => mret ()
  | page_no :: rest =>
      _ ← on_fst (modify (record (Scraping page_no)));
      p ← gets (fun st => page (fst st));
      let page_reviews := _extract_reviews_from_page p in
      _ ← modify (fun st : Session * list review => (fst st, snd st ++ page_reviews));
      go_on ← try_ (advance p) any_exception (mret false);
      if go_on : bool then page_loop rest else mret ()
  end.

Definition reviews_path : Py.str :=
  Py.lit "/ref=cm_cr_dp_d_show_all_btm?reviewerType=all_reviews&sortBy=recent".

(** The [try] block of [collect_customer_reviews]. *)
Definition collect_body (url : Py.str) (max_pages : Z) : stx (Session * list review) unit :=
  p ← gets (fun st => page (fst st));
  match extract_asin p url with
  | None => mret ()
  | Some asin =>
      if negb (Py.truthy asin) then mret ()
      else
        let base_url := detect_amazon_domain url in
        let reviews_url :=
          base_url ++ Py.lit "/product-reviews/" ++ asin ++ reviews_path in
        ok ← on_fst (navigate_with_retry reviews_url);
        if negb ok then mret ()
        else page_loop (seqZ 1 max_pages)
  end.

(** [collect_customer_reviews(url, max_pages)] *)
Definition collect_customer_reviews (url : Py.str) (max_pages : Z) : stx Session (list review) :=
  fun s =>
    let '(_, (s', reviews)) :=
      try_ (collect_body url max_pages) any_exception (mret ()) (s, []) in
    (Ok reviews, s').

(** [scrape_product]; the call [self.collect_customer_reviews(url)]
    leaves [max_pages] at its default of 5. *)
Definition scrape_product (url : Py.str) : stx Session scrape_result :=
  product_details ← extract_product_details url;
  reviews ← collect_customer_reviews url 5;
  mret {| product_details := product_details; reviews := reviews;
          total_reviews_scraped := length reviews |}.

(** ** main.py *)

Definition amazon_domains : list Py.str :=
  Py.lit <$> ["amazon.com"; "amazon.in"; "amazon.co.uk"; "amazon.de";
              "amzn.in"; "amzn.to"; "a.co"]%string.

(** [is_amazon_url] *)
Definition is_amazon_url (url : Py.str) : bool :=
  existsb (fun domain => Py.contains domain (Py.lower url)) amazon_domains.

(** [AmazonScraper()]: the constructor sets the driver up and lets its
    exception through. *)
Definition setup_driver : stx Session unit :=
  if driver_starts w then mret () else lift (Raise WebDriverException).

(** [scrape_amazon_product]; [None] is the empty dictionary returned by
    either handler. The constructor and [scrape_product] are followed by
    the lines that save and print the result, all inside the [try]. *)
Definition scrape_amazon_product (url : Py.str) : stx Session (option scrape_result) :=
  fun s =>
    match (_ ← setup_driver; scrape_product url) s with
    | (Ok result, s') =>
        match report w result with
        | None => (Ok (Some result), s')
        | Some KeyboardInterrupt => (Ok None, s')   (* except KeyboardInterrupt *)
        | Some (Exception _) => (Ok None, s')       (* except Exception *)
        end
    | (Raise _, s') => (Ok None, s')                (* except Exception *)
    end.

(** [main] from the check of the address on (the arguments are parsed and
    logging is set up before it), followed by [sys.exit]: the exit status
    of the process and the session it leaves. *)
Definition main (url : Py.str) : Z * Session :=
  if negb (is_amazon_url url) then (1, new_session)
  else
    match scrape_amazon_product url new_session with
    | (Ok (Some result), s) =>
        match reviews result with
        | [] => (1, s)
        | _ => (0, s)
        end
    | (_, s) => (1, s)
    end.

End Scraper.

(** ** Notions the properties are stated with *)

(** The dictionaries the body of the review loop completes, one for each
    review node in which no look-up raises, in document order. *)
Definition review_candidates (p : Page) : list review :=
  omap (fun element =>
          match review_data_of p element with
          | Ok review_data => Some review_data
          | Raise _ => None
          end)
       (driver_find_elements p sel_review).

(** The first run of digits of a text has more digits than [int]
    converts. *)
Definition too_many_digits (s : Py.str) : bool :=
  match Py.search_int s with
  | Some g => bool_decide (Py.int_max_str_digits < length g)%nat
  | None => false
  end.

(** The two texts of a review node the loop body reads a number from. *)
Definition rating_text_of (element : WebElement) : Py.str :=
  match find_elements element sel_review_rating with
  | e :: _ => safe_get_text (Some e)
  | [] => []
  end.

Definition helpful_text_of (element : WebElement) : Py.str :=
  match find_elements element sel_helpful with
  | e :: _ => safe_get_text (Some e)
  | [] => []
  end.

(** A review node from which the loop body completes a dictionary: it
    has a rating, a title, a body and a date element, and its numbers
    are not too long for [int]. *)
Definition complete_node (element : WebElement) : Prop :=
  Forall (λ sel, find_elements element sel ≠ [])
         [sel_review_rating; sel_review_title; sel_review_body; sel_review_date]
  ∧ too_many_digits (rating_text_of element) = false
  ∧ too_many_digits (helpful_text_of element) = false.

(** The text of the first [.a-profile-name] node of the whole document,
    or the default when the document has none. *)
Definition page_reviewer_name (p : Page) : Py.str :=
  match driver_find_elements p sel_profile_name with
  | e :: _ => Py.strip (text (node e))
  | [] => Py.lit "Anonymous"
  end.

(** Ten characters, each an upper-case ASCII letter or an ASCII digit. *)
Definition ten_AZ09 (a : Py.str) : Prop :=
  length a = 10%nat ∧ forallb Py.is_AZ09 a = true.

(** The groups of a pattern all have ten characters, and there is one. *)
Definition groups_of_ten (p : list Py.atom) : Prop :=
  Forall (λ a, match a with Py.Group n => n = 10%nat | _ => True end) p.

Definition has_group (p : list Py.atom) : Prop :=
  Exists (λ a, match a with Py.Group _ => True | _ => False end) p.

(** Events that only let time pass. *)
Definition is_pause (e : event) : bool :=
  match e with
  | Sleep _ | RandomSleep _ _ | Scroll => true
  | _ => false
  end.

(** [s'] is [s] after some pauses [l]: same page, same number of loads. *)
Definition paused (s s' : Session) (l : list event) : Prop :=
  loads s' = loads s ∧ position s' = position s ∧ page s' = page s
  ∧ log s' = log s ++ l ∧ forallb is_pause l = true.

(** A call that only pauses, and raises nothing outside [allowed]. *)
Definition pausing {A} (allowed : exn → Prop) (c : stx Session A) : Prop :=
  ∀ s, ∃ r s' l, c s = (r, s') ∧ paused s s' l ∧ ∀ e, r = Raise e → allowed e.

(** The delay [ethical_delay(a, b)] makes is never negative: no delay is
    made at all, or neither bound of the draw is negative. *)
Definition delay_range_ok (cfg : ScrapingSettings) (a b : option Q) : bool :=
  negb (RANDOM_DELAYS cfg)
  || Qle_bool 0 (q_or a (MIN_DELAY cfg)) && Qle_bool 0 (q_or b (MAX_DELAY cfg)).




(** What [k] failed attempts leave in the log: each navigation and the
    back-off after it, two time units times the number of the attempt
    counted from one. *)
Definition backoffs (url : Py.str) (first k : nat) : list event :=
  flat_map (λ i, [Navigate url; Sleep (inject_Z ((Z.of_nat (first + i) + 1) * 2))])
           (seq 0 k).

(** The [n] loads that follow the state [s] all raise. *)
Definition all_raise (w : World) (url : Py.str) (s : Session) (n : nat) : Prop :=
  ∀ k, (k < n)%nat → ∃ e, load w (loads s + k) url = Raise e.


(** The pages of a listing a session has scraped. *)
Definition is_scraping (e : event) : bool :=
  match e with Scraping _ => true | _ => false end.

Definition pages_visited (s : Session) : nat :=
  length (List.filter is_scraping (log s)).

(** The clicks on the control of the next page. *)
Definition is_click (e : event) : bool :=
  match e with Click => true | _ => false end.

(** The navigations a session has asked for. *)
Definition is_navigate (e : event) : bool :=
  match e with Navigate _ => true | _ => false end.

(** The check of the address as the specification words it, to compare
    [is_amazon_url] with: the domain of the address is on the list. The
    host is what follows the first "://" (the whole address when there is
    none) up to the first of "/", "?", "#" and ":", in lower case; it is
    on the list when it is a domain of the list or a name below one. *)
Fixpoint after_scheme (s : Py.str) : option Py.str :=
  if Py.startswith (Py.lit "://") s then Some (drop 3 s)
  else match s with
       | [] => None
       | _ :: s' => after_scheme s'
       end.

Definition spec_url_host (url : Py.str) : Py.str :=
  Py.lower (fst (Py.span (fun c => negb (bool_decide (c ∈ [47; 63; 35; 58]%N)))
                         (default url (after_scheme url)))).

(** [s.endswith(p)] *)
Definition endswith (p s : Py.str) : bool := Py.startswith (rev p) (rev s).

Definition spec_domain_allowed (url : Py.str) : bool :=
  existsb (fun domain => bool_decide (spec_url_host url = domain)
                         || endswith (Py.lit "." ++ domain) (spec_url_host url))
          amazon_domains.

(** The settings with another bound on the pages. *)
Definition with_max_pages (n : Z) (cfg : ScrapingSettings) : ScrapingSettings :=
  {| MAX_REVIEWS_PER_PRODUCT := MAX_REVIEWS_PER_PRODUCT cfg;
     MAX_PAGES_TO_SCRAPE := n;
     RANDOM_DELAYS := RANDOM_DELAYS cfg;
     HANDLE_CAPTCHAS := HANDLE_CAPTCHAS cfg;
     MIN_DELAY := MIN_DELAY cfg;
     MAX_DELAY := MAX_DELAY cfg;
     REQUEST_TIMEOUT := REQUEST_TIMEOUT cfg;
     MAX_RETRIES := MAX_RETRIES cfg |}.

(** A call raises the measure [m] of the state by at most [n], however
    it ends. *)
Definition adds {S A} (m : S → nat) (n : nat) (c : stx S A) : Prop :=
  ∀ s, (m (snd (c s)) ≤ m s + n)%nat.

(** The pages scraped by the session of a pair of states. *)
Definition pages_visited_fst {T} (st : Session * T) : nat := pages_visited (fst st).

(** A call leaves the observation [f] of the state as it was, however
    it ends. *)
Definition preserves {S A X} (f : S → X) (c : stx S A) : Prop :=
  ∀ s, f (snd (c s)) = f s.

(** The keys of [product_data] that the [try] block of
    [extract_product_details] assigns. *)
Definition assigned_keys : list string :=
  ["asin"; "name"; "currency"; "price"; "rating"; "review_count"; "features";
   "seller_info"; "availability"; "images"]%string.

(** ** amazon_scraper.py: [_navigate_to_next_page] *)

Section NextPage.

Variable cfg : ScrapingSettings.
Variable w : World.


End NextPage.

(** ** utils.py: [generate_filename] *)

Section Utils.

(** [unicode_alnum c] stands for [chr(c).isalnum()]; [timestamp] for
    [datetime.now().strftime("%Y%m%d_%H%M%S")]. *)
Variable unicode_alnum : N -> bool.
Variable timestamp : Py.str.

(** [c.isalnum() or c in (' ', '-', '_')] *)
Definition filename_char (c : N) : bool :=
  unicode_alnum c || bool_decide (c ∈ [32; 45; 95]%N).

(** The two assignments to [safe_name]. *)
Definition safe_name (product_name : Py.str) : Py.str :=
  (fun c => if (c =? 32)%N then 95%N else c)
    <$> take 50 (Py.strip (List.filter filename_char product_name)).

(** [generate_filename] *)
Definition generate_filename (product_name asin file_type : Py.str) : Py.str :=
  Py.lit "amazon_" ++ safe_name product_name ++ Py.lit "_" ++ asin
  ++ Py.lit "_" ++ timestamp ++ Py.lit "." ++ file_type.

End Utils.

(** ** Notions the further properties are stated with *)



(** The address of the listing of the reviews of an identifier. *)
Definition reviews_url_of (url asin : Py.str) : Py.str :=
  detect_amazon_domain url ++ Py.lit "/product-reviews/" ++ asin ++ reviews_path.

(** A text that does not begin with white space. *)
Definition starts_clean (l : Py.str) : Prop :=
  match l with
  | c :: _ => Py.isspace c = false
  | [] => True
  end.

(** After a call from a state in [P], the state is in [Q], however the
    call ends. *)
Definition triple {S A} (P : S → Prop) (c : stx S A) (Q : S → Prop) : Prop :=
  ∀ s, P s → Q (snd (c s)).

(** What a key of [product_data] holds. *)
Definition at_key (K : string) (Q : option value → Prop) (d : gmap string value) : Prop :=
  Q (d !! K).

(** [Q] admits every value the [try] block of [extract_product_details]
    may store under the key [K]. *)
Record admits (K : string) (Q : option value → Prop) : Prop := {
  admits_asin : "asin" = K → ∀ t, Q (Some (VStr t));
  admits_name : "name" = K → ∀ t, Q (Some (VStr (Py.strip t)));
  admits_currency :
    "currency" = K → ∀ c, c ∈ ["USD"; "INR"; "GBP"; "EUR"]%string → Q (Some (VStr (Py.lit c)));
  admits_price : "price" = K → ∀ t, Q (Some (VStr (Py.keep_digits_and_points t)));
  admits_rating :
    "rating" = K → ∀ t g, Py.search_decimal t = Some g → Q (Some (VFloat g));
  admits_review_count : "review_count" = K → ∀ n, 0 ≤ n → Q (Some (VInt n));
  admits_features :
    "features" = K → ∀ l x, Q (Some (VList l)) → Q (Some (VList (l ++ [x])));
  admits_seller_info :
    "seller_info" = K → ∀ m name, m !! "name" = Some name → name ≠ [] → Q (Some (VDict m));
  admits_availability : "availability" = K → ∀ t, Q (Some (VStr (Py.strip t)));
  admits_images :
    "images" = K → ∀ l x, Py.contains (Py.lit "http") x = true →
                   Q (Some (VList l)) → Q (Some (VList (l ++ [x])))
}.

(** The address [resolve_short_url] gives back: where the probe ended,
    or the address it was given when the probe raised. *)
Definition resolved_url_of (w : World) (url : Py.str) : Py.str :=
  match probe w url with
  | Ok final_url => final_url
  | Raise _ => url
  end.

(** The value under a key is a list of at most [n] items. *)
Definition list_upto (n : nat) (o : option value) : Prop :=
  ∃ l, o = Some (VList l) ∧ (length l ≤ n)%nat.

(** The scrolls [scroll_loop] makes on page [p], [k] scrolls in and with
    [n] more allowed: it goes on while a scroll has changed the height. *)
Fixpoint scrolls_needed (p : Page) (k n : nat) : nat :=
  match n with
  | O => O
  | S n' =>
      if scroll_height p (S k) =? scroll_height p k then 1%nat
      else S (scrolls_needed p (S k) n')
  end.

(** An element of one of the CAPTCHA selectors is on the page. *)
Definition captcha_shown (p : Page) : bool :=
  existsb (fun selector => match driver_find_elements p selector with
                           | [] => false
                           | _ => true
                           end) captcha_selectors.

(** The source of the page holds one of the phrases, in any case. *)
Definition looks_blocked (p : Page) : bool :=
  existsb (fun indicator => Py.contains indicator (Py.lower (page_source p)))
          blocked_indicators.

(** The clicks on the control of the next page a session has made. *)
Definition clicks (s : Session) : nat := length (List.filter is_click (log s)).

(** ** Sample documents *)

Module Sample.

(** A node whose visible text equals its [textContent]. *)
Definition el (t : string) (a : list (string * string)) (txt : string)
    (kids : list Element) : Element :=
  Elem t (prod_map id Py.lit <$> a) (Py.lit txt) (Py.lit txt) kids.

Definition profile (name : string) : Element :=
  el "span" [("class", "a-profile-name")] name [].

Definition stars (txt : string) : Element :=
  el "i" [("class", "a-icon a-icon-star")] ""
     [el "span" [("class", "a-icon-alt")] txt []].

Definition review_title (txt : string) : Element :=
  el "a" [("data-hook", "review-title")] "" [el "span" [] txt []].

Definition review_body (txt : string) : Element :=
  el "span" [("data-hook", "review-body")] "" [el "span" [] txt []].

Definition review_date (txt : string) : Element :=
  el "span" [("data-hook", "review-date")] txt [].

Definition review_node (rid : string) (kids : list Element) : Element :=
  el "div" [("id", rid); ("data-hook", "review")] "" kids.

Definition page_of (url : string) (doc : list Element) : Page :=
  {| current_url := Py.lit url; page_source := [];
     document := [el "html" [] "" [el "body" [] "" doc]];
     scroll_height := fun _ => 900 |}.

(** Two complete reviews by different reviewers, one of them too short. *)
Definition two_reviews : Page :=
  page_of "https://www.amazon.com/product-reviews/B0123ABCDE"
    [review_node "R1" [profile "Alice"; stars "5.0 out of 5 stars";
                       review_title "Great"; review_date "on 1 May 2024";
                       review_body "Works exactly as described."];
     review_node "R2" [profile "Bob"; stars "2.0 out of 5 stars";
                       review_title "Meh"; review_date "on 2 May 2024";
                       review_body "Too short"];
     review_node "R3" [profile "Carol"; stars "4.0 out of 5 stars";
                       review_title "Good"; review_date "on 3 May 2024";
                       review_body "Solid build, fair price."]].

(** One review with a long enough body and no date element. *)
Definition no_date : Page :=
  page_of "https://www.amazon.com/product-reviews/B0123ABCDE"
    [review_node "R1" [profile "Alice"; stars "5.0 out of 5 stars";
                       review_title "Great";
                       review_body "Works exactly as described."]].


(** A page of a listing with one review and an enabled control. *)
Definition listing_page : Page :=
  page_of "https://www.amazon.com/product-reviews/B0123ABCDE"
    [review_node "R1" [profile "Alice"; stars "5.0 out of 5 stars";
                       review_title "Great"; review_date "on 1 May 2024";
                       review_body "Works exactly as described."];
     el "ul" [("class", "a-pagination")] ""
        [el "li" [("class", "a-last")] "" [el "a" [("class", "next")] "Next page" []]]].

Definition product_page : Page :=
  page_of "https://www.amazon.com/dp/B0123ABCDE"
    [el "span" [("id", "productTitle")] "  Steel Bottle 1L  " [];
     el "span" [("class", "a-price-whole")] "1,299." [];
     el "span" [("id", "acrCustomerReviewText")] "2,345 ratings" [];
     el "div" [("id", "availability")] "" [el "span" [] "In stock" []]].

Definition product_url : Py.str := Py.lit "https://www.amazon.com/dp/B0123ABCDE".

(** Every navigation succeeds; the listing never ends: each page shows
    an enabled control for the next one. *)
Definition endless : World :=
  {| probe := fun url => Ok url;
     load := fun _ url => if Py.contains (Py.lit "/product-reviews/") url
                          then Ok 1%nat else Ok 0%nat;
     site := fun i => match i with O => product_page | _ => listing_page end;
     driver_starts := true;
     random := fun _ => 0%N;
     report := fun _ => None |}.

(** No navigation succeeds and the probe of the URL fails too. *)
Definition offline : World :=
  {| probe := fun _ => Raise RequestException;
     load := fun _ _ => Raise WebDriverException;
     site := fun _ => blank_page;
     driver_starts := true;
     random := fun _ => 0%N;
     report := fun _ => None |}.

(** A page that shows the identifier nowhere but in a [data-asin]
    attribute, whose ten characters are not all letters or digits. *)
Definition odd_data_asin : Page :=
  page_of "https://www.amazon.com/gp/offer-listing"
    [el "div" [("data-asin", "B01-2_AB.C")] "" []].

(** A page that shows the identifier only in a script variable. *)
Definition script_text : Py.str :=
  Py.lit "var d = { " ++ dq ++ Py.lit "ASIN" ++ dq ++ Py.lit " : " ++ dq
  ++ Py.lit "B0123ABCDE" ++ dq ++ Py.lit " };".

Definition script_only : Page :=
  page_of "https://amzn.to/3xYzAbC" [Elem "script" [] script_text [] []].



(** The last page of a listing: the control carries the class of a
    disabled one. *)
Definition last_page : Page :=
  page_of "https://www.amazon.com/product-reviews/B0123ABCDE"
    [review_node "R9" [profile "Dan"; stars "3.0 out of 5 stars";
                       review_title "Fine"; review_date "on 9 May 2024";
                       review_body "Does the job, nothing more."];
     el "ul" [("class", "a-pagination")] ""
        [el "li" [("class", "a-last")] ""
            [el "a" [("class", "a-disabled")] "Next page" []]]].

(** A listing of one page. *)
Definition one_page : World :=
  {| probe := fun url => Ok url;
     load := fun _ url => if Py.contains (Py.lit "/product-reviews/") url
                          then Ok 1%nat else Ok 0%nat;
     site := fun i => match i with O => product_page | _ => last_page end;
     driver_starts := true;
     random := fun _ => 0%N;
     report := fun _ => None |}.

End Sample.

(** ** Further scenarios *)

Module Scenario.

(** An address of another shop: its host is not on the list, and it
    holds the text of a short-link domain of the list. *)
Definition ikea_url : Py.str := Py.lit "https://www.ikea.com/dp/B0123ABCDE".

(** The endless listing on a console that cannot show the summary:
    [print] raises a [UnicodeEncodeError], which is a [ValueError]. *)
Definition narrow_console : World :=
  {| probe := probe Sample.endless;
     load := load Sample.endless;
     site := site Sample.endless;
     driver_starts := true;
     random := fun _ => 0%N;
     report := fun _ => Some (Exception ValueError) |}.



End Scenario.

(** * Properties *)

(** ** Python text on examples *)

Example lit_dp : Py.lit "/dp/" = [47; 100; 112; 47]%N.
Proof. reflexivity. Qed.

Example strip_ex : Py.strip (Py.lit "  ab c ") = Py.lit "ab c".
Proof. reflexivity. Qed.

Example decimal_ex : Py.search_decimal (Py.lit "4.5 out of 5 stars") = Some (Py.lit "4.5").
Proof. reflexivity. Qed.

Example search_ex :
  Py.search [Py.Lit (Py.lit "/dp/"); Py.Group 10] (Py.lit "https://www.amazon.in/x/dp/B0123ABCDE/ref=1")
  = Some (Py.lit "B0123ABCDE").
Proof. vm_compute. reflexivity. Qed.


(** ** The review extractor *)

Lemma strip_nil : Py.strip [] = [].
Proof. reflexivity. Qed.

(** The test before [reviews.append] is the length test alone: a text
    whose stripped form has ten characters is not empty. *)
Lemma meaningful_iff (r : review) :
  meaningful r = true ↔ (10 ≤ length (Py.strip (review_text r)))%nat.
Proof.
  unfold meaningful. rewrite andb_true_iff, bool_decide_eq_true.
  split; [tauto |]. intros H. split; [| done].
  destruct (review_text r); [| done].
  rewrite strip_nil in H. simpl in H. lia.
Qed.

(** The loop appends, in order, the completed dictionaries that pass the
    length test, and nothing else. *)
Lemma review_loop_spec (p : Page) (elements : list WebElement) (acc : list review) :
  review_loop p elements acc =
  acc ++ filter (λ r, 10 ≤ length (Py.strip (review_text r)))%nat
           (omap (λ element,
                    match review_data_of p element with
                    | Ok review_data => Some review_data
                    | Raise _ => None
                    end) elements).
Proof.
  revert acc. induction elements as [| element rest IH]; intros acc; simpl.
  - by rewrite app_nil_r.
  - destruct (review_data_of p element) as [r | e]; [| apply IH].
    rewrite filter_cons. destruct (meaningful r) eqn:Hm.
    + apply meaningful_iff in Hm. rewrite decide_True by done.
      rewrite IH. by rewrite <- app_assoc.
    + rewrite decide_False; [apply IH |].
      intros H. apply meaningful_iff in H. congruence.
Qed.

Lemma search_run_nonempty (cls : N → bool) (s g : Py.str) :
  Py.search_run cls s = Some g → g ≠ [].
Proof.
  induction s as [| c s IH]; simpl; [done |].
  destruct (cls c) eqn:Hc; [| exact IH].
  intros [= <-]. by destruct (Py.span cls s).
Qed.

(** [int] of the first run of digits raises exactly when the run is too
    long. *)
Lemma first_int_or_zero_cases (s : Py.str) :
  if too_many_digits s then first_int_or_zero s = Raise ValueError
  else ∃ n, first_int_or_zero s = Ok n.
Proof.
  unfold too_many_digits, first_int_or_zero, Py.search_int.
  destruct (Py.search_run Py.isdecimal s) as [g |] eqn:Hg; [| eauto].
  apply search_run_nonempty in Hg. unfold int_, Py.int_digits.
  destruct g as [| c g]; [done |]. destruct (bool_decide _); eauto.
Qed.

Lemma safe_find_element_ok (p : Page) (sel : selector) :
  safe_find_element p sel = Ok (head (driver_find_elements p sel)).
Proof.
  unfold safe_find_element, wait_presence.
  by destruct (driver_find_elements p sel).
Qed.

(** A review node yields a candidate exactly when it is complete. *)
Lemma review_data_of_built (p : Page) (element : WebElement) :
  (∃ r, review_data_of p element = Ok r) ↔ complete_node element.
Proof.
  unfold complete_node, rating_text_of, helpful_text_of, review_data_of, find_element.
  rewrite safe_find_element_ok. cbn [mbind res_bind].
  rewrite !Forall_cons.
  destruct (find_elements element sel_review_rating) as [| e1 l1];
    [split; [by intros [r H] | by intros [[H _] _]] |].
  cbn [mbind res_bind].
  pose proof (first_int_or_zero_cases (safe_get_text (Some e1))) as Hrt.
  destruct (Py.truthy (safe_get_text (Some e1))) eqn:Htr.
  2: { destruct (safe_get_text (Some e1)); [| done]. clear Hrt.
       cbn [mbind res_bind too_many_digits Py.search_int Py.search_run].
       destruct (find_elements element sel_review_title) as [| e2 l2];
         [split; [by intros [r H] | by intros [(_ & H & _) _]] |].
       cbn [mbind res_bind].
       destruct (find_elements element sel_review_body) as [| e3 l3];
         [split; [by intros [r H] | by intros [(_ & _ & H & _) _]] |].
       cbn [mbind res_bind].
       destruct (find_elements element sel_review_date) as [| e4 l4];
         [split; [by intros [r H] | by intros [(_ & _ & _ & H & _) _]] |].
       cbn [mbind res_bind].
       destruct (find_elements element sel_helpful) as [| h lh].
       - cbn [mbind res_bind too_many_digits Py.search_int Py.search_run].
         split; [intros _ | eauto]. repeat split; done.
       - pose proof (first_int_or_zero_cases (safe_get_text (Some h))) as Hhv.
         destruct (too_many_digits (safe_get_text (Some h))).
         + rewrite Hhv. cbn [mbind res_bind].
           split; [by intros [r H] | by intros (_ & _ & H)].
         + destruct Hhv as [m ->]. cbn [mbind res_bind].
           split; [intros _ | eauto]. repeat split; done. }
  destruct (too_many_digits (safe_get_text (Some e1))).
  { rewrite Hrt. cbn [mbind res_bind]. split; [by intros [r H] | by intros (_ & H & _)]. }
  destruct Hrt as [n ->]. cbn [mbind res_bind].
  destruct (find_elements element sel_review_title) as [| e2 l2];
    [split; [by intros [r H] | by intros [(_ & H & _) _]] |].
  cbn [mbind res_bind].
  destruct (find_elements element sel_review_body) as [| e3 l3];
    [split; [by intros [r H] | by intros [(_ & _ & H & _) _]] |].
  cbn [mbind res_bind].
  destruct (find_elements element sel_review_date) as [| e4 l4];
    [split; [by intros [r H] | by intros [(_ & _ & _ & H & _) _]] |].
  cbn [mbind res_bind].
  destruct (find_elements element sel_helpful) as [| h lh].
  - cbn [mbind res_bind too_many_digits Py.search_int Py.search_run].
    split; [intros _ | eauto]. repeat split; done.
  - pose proof (first_int_or_zero_cases (safe_get_text (Some h))) as Hhv.
    destruct (too_many_digits (safe_get_text (Some h))).
    + rewrite Hhv. cbn [mbind res_bind].
      split; [by intros [r H] | by intros (_ & _ & H)].
    + destruct Hhv as [m ->]. cbn [mbind res_bind].
      split; [intros _ | eauto]. repeat split; done.
Qed.

(** The extractor as a filter of the candidates. *)
Lemma extract_reviews_filter (p : Page) :
  _extract_reviews_from_page p =
    filter (λ r, 10 ≤ length (Py.strip (review_text r)))%nat (review_candidates p).
Proof.
  unfold _extract_reviews_from_page, review_candidates, wait_for_reviews_to_load,
    wait_presence.
  destruct (driver_find_elements p sel_review) as [| e l] eqn:Hl; [done |].
  simpl negb. cbv iota. by rewrite review_loop_spec.
Qed.

Lemma candidates_of_incomplete (p : Page) :
  (∀ element, element ∈ driver_find_elements p sel_review → ¬ complete_node element) →
  review_candidates p = [].
Proof.
  unfold review_candidates.
  induction (driver_find_elements p sel_review) as [| element rest IH]; [done |].
  intros H. cbn [omap list_omap].
  destruct (review_data_of p element) as [r |] eqn:Hr.
  - exfalso. apply (H element); [apply list_elem_of_here |].
    apply (review_data_of_built p element). eauto.
  - apply IH. intros e' He. apply H. by apply list_elem_of_further.
Qed.

(** C1. The length test is the last gate, not the only one. For every
    page the extractor returns, in document order and with repetitions,
    the records the loop body completes whose stripped body has at least
    10 characters; but the loop body completes a record only for a review
    node that has a rating, a title, a body and a date element and whose
    numbers [int] can convert, and every other node is dropped whatever
    its body is: a page whose review nodes are all incomplete yields
    nothing. On the page with one review node that has a body of 27
    characters and no date element, the extractor returns the empty
    list. *)
Theorem extract_reviews_gate_and_drops (p : Page) :
  _extract_reviews_from_page p =
    filter (λ r, 10 ≤ length (Py.strip (review_text r)))%nat (review_candidates p)
  ∧ (∀ r, r ∈ _extract_reviews_from_page p ↔
          ∃ element, element ∈ driver_find_elements p sel_review
                     ∧ review_data_of p element = Ok r
                     ∧ (10 ≤ length (Py.strip (review_text r)))%nat)
  ∧ (∀ element, (∃ r, review_data_of p element = Ok r) ↔ complete_node element)
  ∧ ((∀ element, element ∈ driver_find_elements p sel_review → ¬ complete_node element) →
     _extract_reviews_from_page p = [])
  ∧ (∃ element,
       driver_find_elements Sample.no_date sel_review = [element]
       ∧ text_of element sel_review_body = Ok (Py.lit "Works exactly as described.")
       ∧ length (Py.strip (Py.lit "Works exactly as described.")) = 27%nat
       ∧ find_elements element sel_review_date = []
       ∧ _extract_reviews_from_page Sample.no_date = []).
Proof.
  split; [apply extract_reviews_filter |]. split; [| split; [| split]].
  - intros r. rewrite extract_reviews_filter, list_elem_of_filter.
    unfold review_candidates. rewrite list_elem_of_omap. split.
    + intros (Hlen & element & Hin & Hr). exists element.
      destruct (review_data_of p element) as [r' |]; [| done].
      injection Hr as ->. done.
    + intros (element & Hin & Hr & Hlen). split; [done |].
      exists element. by rewrite Hr.
  - intros element. apply review_data_of_built.
  - intros H. by rewrite extract_reviews_filter, (candidates_of_incomplete p H).
  - eexists. split; [vm_compute; reflexivity |].
    repeat split; vm_compute; reflexivity.
Qed.

(** The reviewer look-up of the loop body does not depend on the node. *)
Lemma review_data_of_reviewer (p : Page) (element : WebElement) (r : review) :
  review_data_of p element = Ok r → reviewer_name r = page_reviewer_name p.
Proof.
  unfold review_data_of, page_reviewer_name, safe_find_element, wait_presence.
  destruct (driver_find_elements p sel_profile_name) as [| e l]; simpl;
    repeat (match goal with
            | |- context [find_element ?a ?b] => destruct (find_element a b); simpl; [| done]
            | |- context [first_int_or_zero ?a] => destruct (first_int_or_zero a); simpl; [| done]
            | |- context [if ?c then _ else _] => destruct c; simpl
            | |- context [match ?l with [] => _ | _ :: _ => _ end] => destruct l; simpl
            end);
    intros [= <-]; reflexivity.
Qed.

Lemma candidate_reviewer (p : Page) (r : review) :
  r ∈ review_candidates p → reviewer_name r = page_reviewer_name p.
Proof.
  unfold review_candidates. rewrite list_elem_of_omap.
  intros (element & _ & H).
  destruct (review_data_of p element) as [r' |] eqn:Hr; [| done].
  injection H as ->. by eapply review_data_of_reviewer.
Qed.

(** C10. All records the extractor keeps from one page carry the same
    reviewer name: the text of the first [.a-profile-name] node of the
    whole document, or "Anonymous" when the document has no such node. *)
Theorem reviewer_name_is_page_global (p : Page) (r1 r2 : review) :
  r1 ∈ _extract_reviews_from_page p →
  r2 ∈ _extract_reviews_from_page p →
  reviewer_name r1 = page_reviewer_name p ∧ reviewer_name r2 = reviewer_name r1.
Proof.
  rewrite extract_reviews_filter, !list_elem_of_filter.
  intros [_ H1] [_ H2].
  apply candidate_reviewer in H1, H2. split; congruence.
Qed.

(** On a page with the reviews of Alice, Bob and Carol, the records kept
    for the first and the third review both name Alice. *)
Lemma reviewer_name_is_page_global_witness :
  ∃ r1 r2, _extract_reviews_from_page Sample.two_reviews = [r1; r2]
           ∧ review_id r1 = Py.lit "R1" ∧ review_id r2 = Py.lit "R3"
           ∧ reviewer_name r1 = Py.lit "Alice"
           ∧ reviewer_name r2 = reviewer_name r1.
Proof.
  eexists _, _. split; [vm_compute; reflexivity |].
  split; [reflexivity |]. split; [reflexivity |].
  refine (reviewer_name_is_page_global Sample.two_reviews _ _ _ _).
  - apply (bool_decide_unpack _). vm_compute. exact I.
  - apply (bool_decide_unpack _). vm_compute. exact I.
Defined.

(** C2. A review node with a body of 27 characters and no date element:
    the look-up of the date raises out of the loop body, the handler of
    the iteration skips the review, and the page yields no record. The
    shadowed first definition keeps the review with an empty date. *)
Theorem review_without_date_is_skipped :
  (∃ element, driver_find_elements Sample.no_date sel_review = [element]
              ∧ review_data_of Sample.no_date element = Raise NoSuchElementException)
  ∧ _extract_reviews_from_page Sample.no_date = []
  ∧ (v1_date <$> _extract_reviews_from_page_shadowed Sample.no_date) = [[]]
  ∧ (v1_content <$> _extract_reviews_from_page_shadowed Sample.no_date)
    = [Py.lit "Works exactly as described."].
Proof.
  split.
  { eexists. split; [vm_compute; reflexivity |]. vm_compute. reflexivity. }
  repeat split; vm_compute; reflexivity.
Qed.

(** Of three complete reviews the one with a body of nine characters is
    dropped. *)
Example extract_reviews_two_of_three :
  review_id <$> _extract_reviews_from_page Sample.two_reviews
  = [Py.lit "R1"; Py.lit "R3"].
Proof. vm_compute. reflexivity. Qed.

(** A page without review nodes gives the empty list. *)
Example extract_reviews_none :
  _extract_reviews_from_page Sample.product_page = [].
Proof. vm_compute. reflexivity. Qed.

(** ** The price *)

(** C4, as the specification states it, fails: a price text without any
    of the four symbols leaves the currency at the empty string the
    dictionary starts with; the string "UNKNOWN" is never stored. *)
Lemma price_without_symbol_has_no_UNKNOWN :
  let price_text := Py.lit "1,299.00" in
  let product_data := snd (price_assign price_text (initial_product_data [])) in
  forallb (λ symbol, negb (Py.contains symbol price_text)) [dollar; rupee; pound; euro] = true
  ∧ product_data !! "price" = Some (VStr (Py.lit "1299.00"))
  ∧ product_data !! "currency" = Some (VStr [])
  ∧ product_data !! "currency" ≠ Some (VStr (Py.lit "UNKNOWN")).
Proof.
  cbv zeta. split; [vm_compute; reflexivity |].
  split; [vm_compute; reflexivity |].
  assert (H : snd (price_assign (Py.lit "1,299.00") (initial_product_data []))
              !! "currency" = Some (VStr [])) by (vm_compute; reflexivity).
  split; [exact H |]. rewrite H. discriminate.
Qed.

(** C4, amended. For every price text the price becomes the text without
    the characters that are neither decimal digits nor points, and the
    currency becomes USD, INR, GBP or EUR for the first of the symbols
    dollar, rupee, pound, euro (tried in this order) that occurs in the
    text; when none occurs the currency is left as it was, which is the
    empty string in the dictionary [extract_product_details] starts
    from. *)
Theorem price_assign_currency_and_price (price_text : Py.str) (product_data : gmap string value) :
  fst (price_assign price_text product_data) = Ok ()
  ∧ snd (price_assign price_text product_data) !! "price"
    = Some (VStr (Py.keep_digits_and_points price_text))
  ∧ snd (price_assign price_text product_data) !! "currency"
    = (if Py.contains dollar price_text then Some (VStr (Py.lit "USD"))
       else if Py.contains rupee price_text then Some (VStr (Py.lit "INR"))
       else if Py.contains pound price_text then Some (VStr (Py.lit "GBP"))
       else if Py.contains euro price_text then Some (VStr (Py.lit "EUR"))
       else product_data !! "currency")
  ∧ ∀ resolved_url, initial_product_data resolved_url !! "currency" = Some (VStr []).
Proof.
  unfold price_assign.
  split; [| split; [| split]].
  - repeat case_match; reflexivity.
  - repeat case_match; cbn; by simplify_map_eq.
  - repeat case_match; cbn; by simplify_map_eq.
  - intros u. unfold initial_product_data. by simplify_map_eq.
Qed.

(** ** The catalogue identifier *)

Section Patterns.

Local Hint Unfold ten_AZ09 : core.

(** Past a group, what a match returns is the text of a group. *)
Lemma match_here_keeps (p : list Py.atom) :
  groups_of_ten p →
  ∀ g s r, Py.match_here p (Some g) s = Some r → ten_AZ09 g →
           ∃ a, r = Some a ∧ ten_AZ09 a.
Proof.
  induction p as [| a p IH]; intros Hp g s r H Hg; simpl in H.
  - injection H as <-. eauto.
  - apply Forall_cons in Hp as [Ha Hp].
    destruct a as [l | | n].
    + destruct (Py.startswith l s); [eauto | done].
    + eauto.
    + subst n. destruct (bool_decide _ && forallb _ _) eqn:Hc; [| done].
      apply andb_true_iff in Hc as [Hlen Hall]. apply bool_decide_eq_true in Hlen.
      eapply IH; eauto.
Qed.

Lemma match_here_group (p : list Py.atom) :
  groups_of_ten p → has_group p →
  ∀ g s r, Py.match_here p g s = Some r → ∃ a, r = Some a ∧ ten_AZ09 a.
Proof.
  induction p as [| a p IH]; intros Hp Hg g s r H; [by apply Exists_nil in Hg |].
  apply Forall_cons in Hp as [Ha Hp]. simpl in H.
  destruct a as [l | | n].
  - apply Exists_cons in Hg as [[] | Hg].
    destruct (Py.startswith l s); [eauto | done].
  - apply Exists_cons in Hg as [[] | Hg]. eauto.
  - subst n. destruct (bool_decide _ && forallb _ _) eqn:Hc; [| done].
    apply andb_true_iff in Hc as [Hlen Hall]. apply bool_decide_eq_true in Hlen.
    eapply match_here_keeps; eauto.
Qed.

(** A search with such a pattern returns ten characters of [[A-Z0-9]]. *)
Lemma search_group (p : list Py.atom) (s a : Py.str) :
  groups_of_ten p → has_group p → Py.search p s = Some a → ten_AZ09 a.
Proof.
  intros Hp Hg. induction s as [| c s IH]; simpl.
  - destruct (Py.match_here p None []) as [r |] eqn:Hm; [| done].
    apply match_here_group in Hm as (b & -> & Hb); [| done..].
    by intros [= <-].
  - destruct (Py.match_here p None (c :: s)) as [r |] eqn:Hm; [| exact IH].
    apply match_here_group in Hm as (b & -> & Hb); [| done..].
    by intros [= <-].
Qed.

Lemma first_pattern_group (ps : list (list Py.atom)) (s a : Py.str) :
  Forall (λ p, groups_of_ten p ∧ has_group p) ps →
  first_pattern ps s = Some a → ten_AZ09 a.
Proof.
  induction 1 as [| p ps [Hp Hg] _ IH]; simpl; [done |].
  destruct (Py.search p s) as [b |] eqn:Hs; [| exact IH].
  intros [= <-]. by eapply search_group.
Qed.

Lemma script_loop_group (ps : list (list Py.atom)) (scripts : list Element) (a : Py.str) :
  Forall (λ p, groups_of_ten p ∧ has_group p) ps →
  script_loop ps scripts = Some a → ten_AZ09 a.
Proof.
  intros Hps. induction scripts as [| script rest IH]; simpl; [done |].
  destruct (Py.truthy (textContent script)); [| exact IH].
  destruct (first_pattern ps (textContent script)) as [b |] eqn:Hf; [| exact IH].
  intros [= <-]. by eapply first_pattern_group.
Qed.

Lemma image_url_loop_group (images : list Element) (a : Py.str) :
  image_url_loop images = Some a → ten_AZ09 a.
Proof.
  induction images as [| img rest IH]; simpl; [done |].
  destruct (Py.contains _ _); [| exact IH].
  destruct (Py.search _ _) as [b |] eqn:Hs; [| exact IH].
  intros [= <-]. eapply search_group; [| | exact Hs].
  - repeat constructor.
  - apply Exists_cons_tl, Exists_cons_hd. exact I.
Qed.

Lemma ten_long_spec (asin : option Py.str) (a : Py.str) :
  ten_long asin = Some a ↔ asin = Some a ∧ length a = 10%nat.
Proof.
  destruct asin as [b |]; simpl; [| by split; [| intros [? _]]].
  split.
  - destruct (Py.truthy b); simpl; [| done].
    case_bool_decide; [| done]. by intros [= <-].
  - intros [[= ->] Hl]. destruct a; [done |]. simpl.
    by rewrite bool_decide_true.
Qed.

(** A text starts with [p] exactly when it is [p] followed by a rest. *)
Lemma startswith_split (p s : Py.str) :
  Py.startswith p s = true ↔ ∃ rest, s = p ++ rest.
Proof.
  revert s. induction p as [| a p IH]; intros s; simpl.
  - split; [eauto | done].
  - destruct s as [| b s].
    + split; [done | by intros [rest H]].
    + rewrite andb_true_iff, bool_decide_eq_true, IH. split.
      * intros [-> [rest ->]]. eauto.
      * intros [rest [= -> ->]]. eauto.
Qed.

(** A literal followed by the group matches at the start of a text
    exactly when the text is the literal, ten characters of [[A-Z0-9]],
    and a rest; the group is those ten characters. *)
Lemma match_here_lit_group (l s a : Py.str) :
  Py.match_here [Py.Lit l; Py.Group 10] None s = Some (Some a)
  ↔ ∃ post, s = l ++ a ++ post ∧ ten_AZ09 a.
Proof.
  cbn [Py.match_here]. split.
  - destruct (Py.startswith l s) eqn:Hl; [| done].
    apply startswith_split in Hl as [rest ->]. rewrite drop_app_length.
    destruct (bool_decide _ && forallb _ _) eqn:Hc; [| done].
    apply andb_true_iff in Hc as [Hlen Hall]. apply bool_decide_eq_true in Hlen.
    intros [= <-]. exists (drop 10 rest). by rewrite take_drop.
  - intros (post & -> & Hlen & Hall).
    rewrite (proj2 (startswith_split l _)) by eauto.
    rewrite drop_app_length.
    rewrite <- Hlen, take_app_length, Hall.
    by rewrite bool_decide_true.
Qed.

(** A search succeeds exactly when the pattern matches some suffix. *)
Lemma search_is_Some (p : list Py.atom) (s : Py.str) :
  is_Some (Py.search p s)
  ↔ ∃ pre suf, s = pre ++ suf ∧ is_Some (Py.match_here p None suf).
Proof.
  induction s as [| c s IH]; cbn [Py.search].
  - destruct (Py.match_here p None []) as [g |] eqn:Hm.
    + split; [| by eauto]. intros _. exists [], []. by rewrite Hm.
    + split; [by intros [? ?] |]. intros (pre & suf & Heq & Hs).
      symmetry in Heq. apply app_eq_nil in Heq as [-> ->].
      rewrite Hm in Hs. by destruct Hs.
  - destruct (Py.match_here p None (c :: s)) as [g |] eqn:Hm.
    + split; [| by eauto]. intros _. exists [], (c :: s). by rewrite Hm.
    + rewrite IH. split.
      * intros (pre & suf & -> & Hs). by exists (c :: pre), suf.
      * intros (pre & suf & Heq & Hs). destruct pre as [| c' pre].
        -- simpl in Heq. subst suf. rewrite Hm in Hs. by destruct Hs.
        -- injection Heq as -> ->. eauto.
Qed.

Lemma first_pattern_is_Some (ps : list (list Py.atom)) (s : Py.str) :
  is_Some (first_pattern ps s) ↔ ∃ p, p ∈ ps ∧ is_Some (Py.search p s).
Proof.
  induction ps as [| p ps IH]; cbn [first_pattern].
  - split; [by intros [? ?] | by intros (p & Hp%elem_of_nil & _)].
  - destruct (Py.search p s) as [g |] eqn:Hs.
    + split; [| by eauto]. intros _. exists p. rewrite Hs.
      split; [apply list_elem_of_here | by eauto].
    + rewrite IH. split.
      * intros (q & Hq & Hm). exists q. split; [by apply list_elem_of_further | done].
      * intros (q & Hq & Hm). apply elem_of_cons in Hq as [-> | Hq]; [| by eauto].
        rewrite Hs in Hm. by destruct Hm.
Qed.

Lemma script_loop_is_Some (ps : list (list Py.atom)) (scripts : list Element) :
  is_Some (script_loop ps scripts)
  ↔ ∃ script pattern, script ∈ scripts ∧ pattern ∈ ps
                      ∧ Py.truthy (textContent script) = true
                      ∧ is_Some (Py.search pattern (textContent script)).
Proof.
  induction scripts as [| script rest IH]; cbn [script_loop].
  - split; [by intros [? ?] | by intros (x & q & Hx%elem_of_nil & _)].
  - assert (Hrest : is_Some (script_loop ps rest) →
                    ∃ x q, x ∈ script :: rest ∧ q ∈ ps
                           ∧ Py.truthy (textContent x) = true
                           ∧ is_Some (Py.search q (textContent x))).
    { intros (x & q & Hx & Hq)%IH. exists x, q.
      split; [by apply list_elem_of_further | done]. }
    destruct (Py.truthy (textContent script)) eqn:Ht.
    + destruct (first_pattern ps (textContent script)) as [g |] eqn:Hf.
      * split; [| by eauto]. intros _.
        destruct (proj1 (first_pattern_is_Some ps (textContent script)))
          as (q & Hq & Hm); [by rewrite Hf; eauto |].
        exists script, q. split; [apply list_elem_of_here | done].
      * split; [exact Hrest |].
        intros (x & q & Hx & Hq & Htx & Hm).
        apply elem_of_cons in Hx as [-> | Hx]; [| apply IH; by eauto 6].
        assert (is_Some (first_pattern ps (textContent script))) as Hs
          by (apply first_pattern_is_Some; eauto).
        rewrite Hf in Hs. by destruct Hs.
    + split; [exact Hrest |].
      intros (x & q & Hx & Hq & Htx & Hm).
      apply elem_of_cons in Hx as [-> | Hx]; [congruence | apply IH; by eauto 6].
Qed.

Lemma image_url_loop_is_Some (images : list Element) :
  is_Some (image_url_loop images)
  ↔ ∃ img, img ∈ images
           ∧ Py.contains (Py.lit "/images/I/") (default [] (attr img "src")) = true
           ∧ is_Some (Py.search [Py.Lit (Py.lit "/"); Py.Group 10; Py.Lit (Py.lit ".")]
                                (default [] (attr img "src"))).
Proof.
  induction images as [| img rest IH]; cbn [image_url_loop].
  - split; [by intros [? ?] | by intros (x & Hx%elem_of_nil & _)].
  - assert (Hrest : is_Some (image_url_loop rest) →
                    ∃ x, x ∈ img :: rest
                         ∧ Py.contains (Py.lit "/images/I/") (default [] (attr x "src")) = true
                         ∧ is_Some (Py.search [Py.Lit (Py.lit "/"); Py.Group 10;
                                               Py.Lit (Py.lit ".")]
                                              (default [] (attr x "src")))).
    { intros (x & Hx & Hq)%IH. exists x. split; [by apply list_elem_of_further | done]. }
    destruct (Py.contains (Py.lit "/images/I/") (default [] (attr img "src"))) eqn:Hc.
    + destruct (Py.search _ (default [] (attr img "src"))) as [g |] eqn:Hs.
      * split; [| by eauto]. intros _. exists img. rewrite Hs.
        split; [apply list_elem_of_here |]. split; [done | by eauto].
      * split; [exact Hrest |].
        intros (x & Hx & Hcx & Hm).
        apply elem_of_cons in Hx as [-> | Hx]; [| apply IH; by eauto].
        rewrite Hs in Hm. by destruct Hm.
    + split; [exact Hrest |].
      intros (x & Hx & Hcx & Hm).
      apply elem_of_cons in Hx as [-> | Hx]; [congruence | apply IH; by eauto].
Qed.

Lemma script_patterns_grouped :
  Forall (λ p, groups_of_ten p ∧ has_group p) script_patterns.
Proof.
  unfold script_patterns, pat_ASIN_colon.
  repeat (apply Forall_cons; split;
          [split; [repeat constructor
                  | do 5 apply Exists_cons_tl; apply Exists_cons_hd; exact I] |]).
  apply Forall_nil_2.
Qed.

End Patterns.

(** The path method finds an identifier exactly when the current URL
    holds "/dp/" followed by ten characters of [[A-Z0-9]]. *)
Lemma asin_method1_is_Some (p : Page) :
  is_Some (asin_method1 p)
  ↔ ∃ pre a post, current_url p = pre ++ Py.lit "/dp/" ++ a ++ post ∧ ten_AZ09 a.
Proof.
  unfold asin_method1. rewrite search_is_Some. split.
  - intros (pre & suf & Hu & [g Hg]).
    destruct (match_here_group [Py.Lit (Py.lit "/dp/"); Py.Group 10]
                ltac:(repeat constructor)
                ltac:(apply Exists_cons_tl, Exists_cons_hd; exact I)
                None suf g Hg) as (a & -> & Ha).
    apply match_here_lit_group in Hg as (post & -> & _). by exists pre, a, post.
  - intros (pre & a & post & Hu & Ha). exists pre, (Py.lit "/dp/" ++ a ++ post).
    split; [done |]. exists (Some a). apply match_here_lit_group. eauto.
Qed.

Lemma asin_method2_spec (unicode_alnum : N → bool) (p : Page) (a : Py.str) :
  asin_method2 unicode_alnum p = Some a
  ↔ ∃ meta_tag, soup_find p sel_meta_pageId = Some meta_tag
                ∧ attr meta_tag "content" = Some a
                ∧ length a = 10%nat ∧ isalnum unicode_alnum a = true.
Proof.
  unfold asin_method2.
  destruct (soup_find p sel_meta_pageId) as [m |]; [| by split; [| intros (? & ? & _)]].
  split.
  - destruct (bool_decide _ && _) eqn:Hc; [| done]. intros [= <-].
    apply andb_true_iff in Hc as [Hl Ha]. apply bool_decide_eq_true in Hl.
    exists m. split; [done |].
    destruct (attr m "content") as [c |]; [done |]. simpl in Hl. lia.
  - intros (m' & [= <-] & Hc & Hl & Ha). rewrite Hc. simpl.
    by rewrite bool_decide_true, Ha.
Qed.

Lemma asin_method3_spec (p : Page) (a : Py.str) :
  asin_method3 p = Some a
  ↔ ∃ e, soup_find p sel_data_asin = Some e ∧ attr e "data-asin" = Some a
         ∧ length a = 10%nat.
Proof.
  unfold asin_method3.
  destruct (soup_find p sel_data_asin) as [e |]; [| by split; [| intros (? & ? & _)]].
  rewrite ten_long_spec. split; [by eauto |]. by intros (e' & [= <-] & ?).
Qed.

Lemma asin_method5_spec (p : Page) (a : Py.str) :
  asin_method5 p = Some a
  ↔ ∃ e, soup_find p sel_input_asin = Some e ∧ attr e "value" = Some a
         ∧ length a = 10%nat.
Proof.
  unfold asin_method5.
  destruct (soup_find p sel_input_asin) as [e |]; [| by split; [| intros (? & ? & _)]].
  rewrite ten_long_spec. split; [by eauto |]. by intros (e' & [= <-] & ?).
Qed.

(** C5. The private six-method extraction tries, in this order, the path
    of the current URL, the meta tag, the first [data-asin] attribute,
    the script variables, the form input and the image URLs, and returns
    the candidate of the first method that accepts one. The path, script
    and image methods accept exactly a match of their pattern, ten
    characters of [[A-Z0-9]]; the meta tag method accepts exactly a
    content of ten characters for which [isalnum] holds. The [data-asin]
    and form input methods accept every value of ten characters: they
    check the length and nothing else, so that a value of ten characters
    that are not letters or digits is returned as the identifier. The
    function the scraper calls, [extract_asin_from_page], returns that
    value as well. *)
Theorem asin_methods_order_and_validation (unicode_alnum : N → bool) (p : Page) :
  _extract_asin_from_page unicode_alnum p
  = head (omap id [asin_method1 p; asin_method2 unicode_alnum p; asin_method3 p;
                   asin_method4 p; asin_method5 p; asin_method6 p])
  ∧ ((∀ a, asin_method1 p = Some a → ten_AZ09 a)
     ∧ (is_Some (asin_method1 p)
        ↔ ∃ pre a post, current_url p = pre ++ Py.lit "/dp/" ++ a ++ post ∧ ten_AZ09 a))
  ∧ (∀ a, asin_method2 unicode_alnum p = Some a
          ↔ ∃ meta_tag, soup_find p sel_meta_pageId = Some meta_tag
                        ∧ attr meta_tag "content" = Some a
                        ∧ length a = 10%nat ∧ isalnum unicode_alnum a = true)
  ∧ (∀ a, asin_method3 p = Some a
          ↔ ∃ e, soup_find p sel_data_asin = Some e ∧ attr e "data-asin" = Some a
                 ∧ length a = 10%nat)
  ∧ ((∀ a, asin_method4 p = Some a → ten_AZ09 a)
     ∧ (is_Some (asin_method4 p)
        ↔ ∃ script pattern,
            script ∈ soup_find_all p sel_script ∧ pattern ∈ script_patterns
            ∧ Py.truthy (textContent script) = true
            ∧ is_Some (Py.search pattern (textContent script))))
  ∧ (∀ a, asin_method5 p = Some a
          ↔ ∃ e, soup_find p sel_input_asin = Some e ∧ attr e "value" = Some a
                 ∧ length a = 10%nat)
  ∧ ((∀ a, asin_method6 p = Some a → ten_AZ09 a)
     ∧ (is_Some (asin_method6 p)
        ↔ ∃ img, img ∈ soup_find_all p sel_img
                 ∧ Py.contains (Py.lit "/images/I/") (default [] (attr img "src")) = true
                 ∧ is_Some (Py.search [Py.Lit (Py.lit "/"); Py.Group 10;
                                       Py.Lit (Py.lit ".")]
                                      (default [] (attr img "src")))))
  ∧ (∀ e v, asin_method1 p = None → asin_method2 unicode_alnum p = None →
            soup_find p sel_data_asin = Some e → attr e "data-asin" = Some v →
            length v = 10%nat →
            _extract_asin_from_page unicode_alnum p = Some v)
  ∧ (_extract_asin_from_page ascii_alnum Sample.odd_data_asin = Some (Py.lit "B01-2_AB.C")
     ∧ forallb ascii_alnum (Py.lit "B01-2_AB.C") = false
     ∧ extract_asin_from_page Sample.odd_data_asin = Some (Py.lit "B01-2_AB.C")).
Proof.
  split.
  { unfold _extract_asin_from_page.
    destruct (asin_method1 p); [done |].
    destruct (asin_method2 unicode_alnum p); [done |].
    destruct (asin_method3 p); [done |].
    destruct (asin_method4 p); [done |].
    destruct (asin_method5 p); [done |].
    by destruct (asin_method6 p). }
  split; [split |].
  { intros a H. eapply search_group; [| | exact H].
    - repeat constructor.
    - apply Exists_cons_tl, Exists_cons_hd. exact I. }
  { apply asin_method1_is_Some. }
  split; [apply asin_method2_spec |].
  split; [apply asin_method3_spec |].
  split; [split |].
  { intros a H. eapply script_loop_group; [apply script_patterns_grouped | exact H]. }
  { apply script_loop_is_Some. }
  split; [apply asin_method5_spec |].
  split; [split |].
  { intros a H. by eapply image_url_loop_group. }
  { apply image_url_loop_is_Some. }
  split.
  { intros e v H1 H2 He Hv Hl. unfold _extract_asin_from_page.
    rewrite H1, H2. rewrite (proj2 (asin_method3_spec p v)); [done | eauto]. }
  repeat split; vm_compute; reflexivity.
Qed.

(** The identifier of the scenario of the specification, present in a
    script variable only, is found by the fourth method. *)
Example asin_from_script_only :
  _extract_asin_from_page ascii_alnum Sample.script_only = Some (Py.lit "B0123ABCDE")
  ∧ asin_method4 Sample.script_only = Some (Py.lit "B0123ABCDE").
Proof. split; vm_compute; reflexivity. Qed.

(** ** Calls on the session *)

Lemma stx_bind_run {S A B} (c : stx S A) (k : A → stx S B) (s : S) :
  (c ≫= k) s = match c s with
               | (Ok a, s') => k a s'
               | (Raise e, s') => (Raise e, s')
               end.
Proof. reflexivity. Qed.

Lemma paused_refl (s : Session) : paused s s [].
Proof. unfold paused. by rewrite app_nil_r. Qed.

Lemma paused_trans (s1 s2 s3 : Session) (l1 l2 : list event) :
  paused s1 s2 l1 → paused s2 s3 l2 → paused s1 s3 (l1 ++ l2).
Proof.
  intros (? & ? & ? & Hl1 & ?) (? & ? & ? & Hl2 & ?).
  repeat split; try congruence.
  - by rewrite Hl2, Hl1, app_assoc.
  - rewrite forallb_app. by apply andb_true_iff.
Qed.

Section Pausing.

Variable cfg : ScrapingSettings.
Variable w : World.

Lemma pausing_ret {A} (P : exn → Prop) (a : A) : pausing P (mret a).
Proof. intros s. exists (Ok a), s, []. split; [done |]. split; [apply paused_refl | done]. Qed.

Lemma pausing_gets {A} (P : exn → Prop) (f : Session → A) : pausing P (gets f).
Proof. intros s. exists (Ok (f s)), s, []. split; [done |]. split; [apply paused_refl | done]. Qed.

Lemma pausing_bind {A B} (P : exn → Prop) (c : stx Session A) (k : A → stx Session B) :
  pausing P c → (∀ a, pausing P (k a)) → pausing P (c ≫= k).
Proof.
  intros Hc Hk s. destruct (Hc s) as (r & s1 & l1 & Hr & Hp & He).
  rewrite stx_bind_run, Hr. destruct r as [a | e].
  - destruct (Hk a s1) as (r2 & s2 & l2 & Hr2 & Hp2 & He2).
    exists r2, s2, (l1 ++ l2). split; [done |]. split; [by eapply paused_trans | done].
  - exists (Raise e), s1, l1. split; [done |]. split; [done |].
    intros e' [= <-]. by apply He.
Qed.

Lemma pausing_try {A} (P Q : exn → Prop) (c h : stx Session A) (handles : exn → bool) :
  pausing P c → pausing Q h →
  (∀ e, P e → handles e = false → Q e) →
  pausing Q (try_ c handles h).
Proof.
  intros Hc Hh HPQ s. destruct (Hc s) as (r & s1 & l1 & Hr & Hp & He).
  unfold try_. rewrite Hr. destruct r as [a | e].
  - exists (Ok a), s1, l1. done.
  - destruct (handles e) eqn:Hhe.
    + destruct (Hh s1) as (r2 & s2 & l2 & Hr2 & Hp2 & He2).
      exists r2, s2, (l1 ++ l2). split; [done |]. split; [by eapply paused_trans | done].
    + exists (Raise e), s1, l1. split; [done |]. split; [done |].
      intros e' [= <-]. apply HPQ; [by apply He | done].
Qed.

Lemma pausing_record (P : exn → Prop) (e : event) :
  is_pause e = true → pausing P (modify (record e)).
Proof.
  intros He s. exists (Ok ()), (record e s), [e]. split; [done |].
  split; [| done]. repeat split; simpl. by rewrite He.
Qed.

Lemma pausing_sleep (P : exn → Prop) (q : Q) : pausing P (sleep q).
Proof. by apply pausing_record. Qed.

(** The fraction a draw is made of lies between 0 and 1. *)
Lemma fraction_bounds (bits : N) :
  (0 <= Z.of_N (bits mod 2 ^ 53) # 2 ^ 53 <= 1)%Q.
Proof.
  assert (H : (bits mod 2 ^ 53 < 2 ^ 53)%N) by (apply N.mod_lt; discriminate).
  assert (Hd : Z.pos (2 ^ 53) = Z.of_N (2 ^ 53)) by reflexivity.
  unfold Qle. cbn [Qnum Qden]. rewrite Hd.
  generalize dependent (bits mod 2 ^ 53)%N. generalize (2 ^ 53)%N.
  intros d k Hk. lia.
Qed.

(** Between bounds that are not negative no draw is negative; between
    negative bounds every draw is. *)
Lemma uniform_nonneg (bits : N) (a b : Q) :
  Qle_bool 0 a = true → Qle_bool 0 b = true → Qle_bool 0 (uniform bits a b) = true.
Proof.
  rewrite !Qle_bool_iff. intros Ha Hb. unfold uniform.
  destruct (fraction_bounds bits) as [H0 H1].
  generalize dependent (Z.of_N (bits mod 2 ^ 53) # 2 ^ 53). intros r H0 H1. nra.
Qed.


(** The delay in one step: the call of [time.sleep] goes to the log, and
    it raises when the draw is negative. *)
Lemma ethical_delay_run (a b : option Q) (s : Session) :
  ethical_delay cfg w a b s
  = if negb (RANDOM_DELAYS cfg) then (Ok (), s)
    else (if Qle_bool 0 (uniform (random w (length (log s)))
                                 (q_or a (MIN_DELAY cfg)) (q_or b (MAX_DELAY cfg)))
          then Ok () else Raise ValueError,
          record (RandomSleep (q_or a (MIN_DELAY cfg)) (q_or b (MAX_DELAY cfg))) s).
Proof.
  unfold ethical_delay. destruct (negb _); [done |].
  rewrite stx_bind_run. cbn [gets]. rewrite stx_bind_run. cbn [modify].
  by destruct (Qle_bool _ _).
Qed.

Lemma pausing_ethical_delay (P : exn → Prop) (a b : option Q) :
  P ValueError → pausing P (ethical_delay cfg w a b).
Proof.
  intros HP s. rewrite ethical_delay_run.
  destruct (negb _).
  - exists (Ok ()), s, []. split; [done |]. split; [apply paused_refl | done].
  - eexists _, _, [RandomSleep _ _]. split; [reflexivity |].
    split; [by repeat split |].
    destruct (Qle_bool _ _); [done |]. by intros e [= <-].
Qed.

Lemma pausing_ethical_delay_ok (P : exn → Prop) (a b : option Q) :
  delay_range_ok cfg a b = true → pausing P (ethical_delay cfg w a b).
Proof.
  intros Hok s. rewrite ethical_delay_run.
  unfold delay_range_ok in Hok.
  destruct (negb _); simpl in Hok.
  - exists (Ok ()), s, []. split; [done |]. split; [apply paused_refl | done].
  - apply andb_true_iff in Hok as [Ha Hb].
    rewrite (uniform_nonneg _ _ _ Ha Hb).
    eexists _, _, [RandomSleep _ _]. split; [reflexivity |].
    split; [by repeat split | done].
Qed.

Lemma pausing_scroll_to_bottom (P : exn → Prop) : pausing P scroll_to_bottom.
Proof.
  intros s. eexists (Ok ()), _, [Scroll]. split; [reflexivity |].
  split; [| done]. by repeat split.
Qed.

Lemma pausing_scroll_loop (P : exn → Prop) (n : nat) (h : Z) : pausing P (scroll_loop n h).
Proof.
  revert h. induction n as [| n IH]; intros h; simpl; [apply pausing_ret |].
  apply pausing_bind; [apply pausing_scroll_to_bottom | intros _].
  apply pausing_bind; [apply pausing_sleep | intros _].
  apply pausing_bind; [apply pausing_gets | intros h'].
  destruct (h' =? h); [apply pausing_ret | apply IH].
Qed.

Lemma pausing_scroll_page (P : exn → Prop) : pausing P scroll_page.
Proof.
  unfold scroll_page.
  eapply (pausing_try (λ _, False)); [| apply pausing_ret | done].
  apply pausing_bind; [apply pausing_gets | intros h; apply pausing_scroll_loop].
Qed.

Lemma pausing_lift_wait (p : Page) (sel : selector) :
  pausing (λ e, e = TimeoutException) (lift (wait_presence p sel)).
Proof.
  intros s. exists (wait_presence p sel), s, []. split; [done |].
  split; [apply paused_refl |]. unfold wait_presence.
  destruct (driver_find_elements p sel); [| done]. by intros e [= <-].
Qed.

(** Settling never raises: the time-out of the wait for the body is
    the only exception of its block, and its handler takes it. *)
Lemma pausing_handle_dynamic_content_loading (P : exn → Prop) :
  pausing P handle_dynamic_content_loading.
Proof.
  unfold handle_dynamic_content_loading.
  eapply (pausing_try (λ e, e = TimeoutException)); [| apply pausing_ret |].
  - apply pausing_bind; [apply pausing_gets | intros p].
    apply pausing_bind; [apply pausing_lift_wait | intros _].
    apply pausing_bind; [apply pausing_scroll_page | intros _].
    apply pausing_ret.
  - intros e -> H. done.
Qed.

Lemma pausing_captcha_loop (P : exn → Prop) (p : Page) (selectors : list selector) :
  pausing P (captcha_loop p selectors).
Proof.
  induction selectors as [| sel rest IH]; simpl; [apply pausing_ret |].
  destruct (driver_find_elements p sel); [apply IH | apply pausing_sleep].
Qed.

(** The check for a challenge never raises, found or not. *)
Lemma pausing_handle_anti_bot_measures (P : exn → Prop) :
  pausing P (handle_anti_bot_measures cfg w).
Proof.
  unfold handle_anti_bot_measures. destruct (negb _); [apply pausing_ret |].
  eapply (pausing_try (λ _, False)); [| apply pausing_ret | done].
  apply pausing_bind; [apply pausing_gets | intros p].
  apply pausing_bind; [apply pausing_captcha_loop | intros _].
  destruct (existsb _ _); [| apply pausing_ret].
  apply pausing_ethical_delay_ok. unfold delay_range_ok.
  by destruct (RANDOM_DELAYS cfg).
Qed.

End Pausing.

(** ** Navigation with retries *)

Section Retry.

Variable cfg : ScrapingSettings.
Variable w : World.
Variable url : Py.str.

Lemma try_run {S A} (c h : stx S A) (handles : exn → bool) (s : S) :
  try_ c handles h s = match c s with
                       | (Ok a, s') => (Ok a, s')
                       | (Raise e, s') => if handles e then h s' else (Raise e, s')
                       end.
Proof. reflexivity. Qed.



(** An attempt whose load raises leaves the navigation in the log. *)
Lemma attempt_block_raised (s : Session) (e : exn) :
  load w (loads s) url = Raise e →
  ∃ s', attempt_block cfg w url s = (Raise e, s')
        ∧ loads s' = S (loads s) ∧ position s' = position s ∧ page s' = page s
        ∧ log s' = log s ++ [Navigate url].
Proof.
  intros Hload. unfold attempt_block. rewrite stx_bind_run.
  unfold driver_get. rewrite Hload. eexists. split; [reflexivity |]. done.
Qed.


(** The handler of an attempt returns. *)
Lemma attempt_failed_run (attempt : Z) (s : Session) :
  attempt_failed cfg attempt s
  = if attempt <? MAX_RETRIES cfg - 1
    then (Ok None, record (Sleep (inject_Z ((attempt + 1) * 2))) s)
    else (Ok (Some false), s).
Proof. unfold attempt_failed. by destruct (_ <? _). Qed.


Lemma backoffs_shift (first k start : nat) :
  flat_map (λ i, [Navigate url; Sleep (inject_Z ((Z.of_nat (first + i) + 1) * 2))])
           (seq (S start) k)
  = flat_map (λ i, [Navigate url; Sleep (inject_Z ((Z.of_nat (S first + i) + 1) * 2))])
             (seq start k).
Proof.
  revert start. induction k as [| k IH]; intros start; [done |].
  cbn [seq flat_map]. rewrite IH. by rewrite Nat.add_succ_r.
Qed.

Lemma backoffs_S (first k : nat) :
  backoffs url first (S k)
  = Navigate url :: Sleep (inject_Z ((Z.of_nat first + 1) * 2)) :: backoffs url (S first) k.
Proof.
  unfold backoffs. cbn [seq flat_map]. rewrite backoffs_shift.
  by rewrite Nat.add_0_r.
Qed.


Lemma all_raise_tail (s s1 : Session) (n : nat) :
  loads s1 = S (loads s) → all_raise w url s (S n) → all_raise w url s1 n.
Proof.
  intros Hl Hn k Hk. rewrite Hl. rewrite Nat.add_succ_comm. apply Hn. lia.
Qed.

(** Whatever the settings, when every load raises the loop from attempt
    [a] on, with [j] attempts left, returns [False] and leaves the
    navigations and the back-offs between them in the log. *)
Lemma retry_loop_all_raise (j : nat) :
  ∀ (a : nat) (s : Session),
    (j = 0%nat ∨ Z.of_nat (a + j) = MAX_RETRIES cfg) →
    all_raise w url s j →
    ∃ s', retry_loop cfg w url (seqZ (Z.of_nat a) (Z.of_nat j)) s = (Ok false, s')
          ∧ loads s' = (loads s + j)%nat ∧ position s' = position s ∧ page s' = page s
          ∧ log s' = log s ++ backoffs url a (j - 1)
                           ++ match j with O => [] | _ => [Navigate url] end.
Proof.
  induction j as [| j IH]; intros a s HM Hall.
  - exists s. split; [done |]. simpl. rewrite !app_nil_r. repeat split; lia.
  - destruct HM as [| HM]; [done |].
    rewrite seqZ_cons by lia.
    replace (Z.succ (Z.of_nat a)) with (Z.of_nat (S a)) by lia.
    replace (Z.pred (Z.of_nat (S j))) with (Z.of_nat j) by lia.
    cbn [retry_loop]. rewrite stx_bind_run, try_run.
    destruct (Hall 0%nat ltac:(lia)) as [e Hload]. rewrite Nat.add_0_r in Hload.
    destruct (attempt_block_raised s e Hload) as (s1 & -> & Hl & Hpos & Hpage & Hlog).
    simpl any_exception. cbv iota. rewrite attempt_failed_run.
    destruct (Z.of_nat a <? MAX_RETRIES cfg - 1) eqn:Hlast.
    + apply Z.ltb_lt in Hlast. destruct j as [| j]; [lia |].
      set (s2 := record _ s1).
      destruct (IH (S a) s2) as (s' & Hrun & Hl' & Hpos' & Hpage' & Hlog').
      { right. lia. }
      { apply (all_raise_tail s); [subst s2; simpl; lia | done]. }
      assert (Hlog2 : log s2 = log s ++ [Navigate url;
                         Sleep (inject_Z ((Z.of_nat a + 1) * 2))]).
      { subst s2. simpl. rewrite Hlog. by rewrite <- app_assoc. }
      exists s'. split; [exact Hrun |].
      split; [subst s2; simpl in *; lia |].
      split; [subst s2; simpl in *; congruence |].
      split; [subst s2; simpl in *; congruence |].
      rewrite Hlog', Hlog2.
      replace (S (S j) - 1)%nat with (S (S j - 1)) by lia.
      rewrite backoffs_S. by rewrite <- !app_assoc.
    + apply Z.ltb_ge in Hlast. assert (j = 0%nat) as -> by lia.
      exists s1. split; [done |]. split; [lia |]. done.
Qed.




Lemma seqZ_retries :
  seqZ 0 (MAX_RETRIES cfg)
  = seqZ (Z.of_nat 0) (Z.of_nat (Z.to_nat (MAX_RETRIES cfg))).
Proof. unfold seqZ. by rewrite Nat2Z.id. Qed.

End Retry.




(** ** The bound on the pages *)

Section Adds.

Context {S : Type} (m : S → nat).

Lemma adds_ret {A} (a : A) : adds m 0 (mret a).
Proof. intros s. simpl. lia. Qed.

Lemma adds_lift {A} (c : res A) : adds m 0 (lift c).
Proof. intros s. simpl. lia. Qed.

Lemma adds_gets {A} (f : S → A) : adds m 0 (gets f).
Proof. intros s. simpl. lia. Qed.

Lemma adds_modify (f : S → S) (n : nat) :
  (∀ s, m (f s) ≤ m s + n)%nat → adds m n (modify f).
Proof. intros H s. apply H. Qed.

Lemma adds_bind {A B} (n1 n2 : nat) (c : stx S A) (k : A → stx S B) :
  adds m n1 c → (∀ a, adds m n2 (k a)) → adds m (n1 + n2) (c ≫= k).
Proof.
  intros Hc Hk s. rewrite stx_bind_run. specialize (Hc s).
  destruct (c s) as [[a | e] s1]; simpl in *.
  - specialize (Hk a s1). lia.
  - lia.
Qed.

Lemma adds_try {A} (n1 n2 : nat) (c h : stx S A) (handles : exn → bool) :
  adds m n1 c → adds m n2 h → adds m (n1 + n2) (try_ c handles h).
Proof.
  intros Hc Hh s. unfold try_. specialize (Hc s).
  destruct (c s) as [[a | e] s1]; simpl in *; [lia |].
  destruct (handles e); simpl; [| lia]. specialize (Hh s1). lia.
Qed.

Lemma adds_le {A} (n n' : nat) (c : stx S A) :
  adds m n c → (n ≤ n')%nat → adds m n' c.
Proof. intros Hc Hn s. specialize (Hc s). lia. Qed.

End Adds.

Lemma adds_on_fst {T A} (n : nat) (c : stx Session A) :
  adds pages_visited n c → adds (@pages_visited_fst T) n (on_fst c).
Proof.
  intros Hc [s t]. unfold on_fst, pages_visited_fst. simpl.
  specialize (Hc s). by destruct (c s).
Qed.

Lemma adds_on_snd {T A} (c : stx T A) : adds (@pages_visited_fst T) 0 (on_snd c).
Proof.
  intros [s t]. unfold on_snd, pages_visited_fst. simpl.
  destruct (c t). simpl. lia.
Qed.

Lemma pages_visited_record (e : event) (s : Session) :
  pages_visited (record e s)
  = (pages_visited s + if is_scraping e then 1 else 0)%nat.
Proof.
  unfold pages_visited, record. simpl. rewrite List.filter_app, length_app. simpl.
  by destruct (is_scraping e).
Qed.

Lemma paused_pages_visited (s s' : Session) (l : list event) :
  paused s s' l → pages_visited s' = pages_visited s.
Proof.
  intros (_ & _ & _ & Hlog & Hp). unfold pages_visited.
  rewrite Hlog, List.filter_app, length_app.
  assert (List.filter is_scraping l = []) as ->; [| simpl; lia].
  clear Hlog. induction l as [| e l IH]; [done |]. simpl in *.
  apply andb_true_iff in Hp as [He Hl]. rewrite (IH Hl). by destruct e.
Qed.

Lemma adds_pausing {A} (P : exn → Prop) (c : stx Session A) :
  pausing P c → adds pages_visited 0 c.
Proof.
  intros Hc s. destruct (Hc s) as (r & s' & l & -> & Hp & _). simpl.
  rewrite (paused_pages_visited _ _ _ Hp). lia.
Qed.

Section Bound.

Variable cfg : ScrapingSettings.
Variable w : World.

Lemma adds_driver_get (url : Py.str) : adds pages_visited 0 (driver_get w url).
Proof.
  intros s. unfold driver_get. destruct (load w (loads s) url); simpl;
    unfold pages_visited; simpl; rewrite List.filter_app, length_app; simpl; lia.
Qed.

Lemma adds_click_next : adds pages_visited 0 (click_next w).
Proof.
  intros s. unfold click_next, modify. simpl.
  unfold pages_visited. simpl. rewrite List.filter_app, length_app. simpl. lia.
Qed.

Lemma adds_attempt_block (url : Py.str) : adds pages_visited 0 (attempt_block cfg w url).
Proof.
  unfold attempt_block.
  apply (adds_bind _ 0 0); [apply adds_driver_get | intros _].
  apply (adds_bind _ 0 0);
    [apply (adds_pausing (λ _, False)), pausing_handle_dynamic_content_loading | intros _].
  apply (adds_bind _ 0 0);
    [apply (adds_pausing (λ _, False)), pausing_handle_anti_bot_measures | intros _].
  apply (adds_bind _ 0 0);
    [apply (adds_pausing (λ _, True)), pausing_ethical_delay; exact I | intros _].
  apply adds_ret.
Qed.

Lemma adds_attempt_failed (attempt : Z) : adds pages_visited 0 (attempt_failed cfg attempt).
Proof.
  unfold attempt_failed. destruct (_ <? _); [| apply adds_ret].
  apply (adds_bind _ 0 0); [| intros _; apply adds_ret].
  apply (adds_pausing (λ _, False)), pausing_sleep.
Qed.

Lemma adds_retry_loop (url : Py.str) (attempts : list Z) :
  adds pages_visited 0 (retry_loop cfg w url attempts).
Proof.
  induction attempts as [| attempt rest IH]; simpl; [apply adds_ret |].
  apply (adds_bind _ 0 0).
  - apply (adds_try _ 0 0); [apply adds_attempt_block | apply adds_attempt_failed].
  - intros [b |]; [apply adds_ret | apply IH].
Qed.

Lemma adds_advance (p : Page) :
  adds pages_visited_fst 0 (advance cfg w p).
Proof.
  unfold advance.
  apply (adds_bind _ 0 0); [apply adds_lift | intros [b |]; [| apply adds_ret]].
  apply (adds_bind _ 0 0); [apply adds_lift | intros cls].
  destruct (negb _); [| apply adds_ret].
  apply (adds_bind _ 0 0); [apply adds_on_fst, adds_click_next | intros _].
  apply (adds_bind _ 0 0); [| intros _; apply adds_ret].
  apply adds_on_fst, (adds_pausing (λ _, True)), pausing_ethical_delay. exact I.
Qed.

(** The loop scrapes at most one page for each number of its range. *)
Lemma adds_page_loop (pages : list Z) :
  adds pages_visited_fst (length pages) (page_loop cfg w pages).
Proof.
  induction pages as [| page_no rest IH]; cbn [page_loop length]; [apply adds_ret |].
  apply (adds_bind _ 1 (length rest)).
  { apply adds_on_fst, adds_modify. intros s. rewrite pages_visited_record. simpl. lia. }
  intros _. apply (adds_bind _ 0 (length rest)); [apply adds_gets | intros p].
  apply (adds_bind _ 0 (length rest)).
  { apply adds_modify. intros [s t]. unfold pages_visited_fst. simpl. lia. }
  intros _. apply (adds_bind _ 0 (length rest)).
  { apply (adds_try _ 0 0); [apply adds_advance | apply adds_ret]. }
  intros [|]; [apply IH |]. eapply adds_le; [apply adds_ret | lia].
Qed.

Lemma adds_collect_body (url : Py.str) (max_pages : Z) :
  adds pages_visited_fst (Z.to_nat max_pages) (collect_body cfg w url max_pages).
Proof.
  unfold collect_body.
  apply (adds_bind _ 0 (Z.to_nat max_pages)); [apply adds_gets | intros p].
  destruct (extract_asin p url) as [asin |]; [| eapply adds_le; [apply adds_ret | lia]].
  destruct (negb _); [eapply adds_le; [apply adds_ret | lia] |].
  apply (adds_bind _ 0 (Z.to_nat max_pages)).
  { apply adds_on_fst, adds_retry_loop. }
  intros ok. destruct (negb ok); [eapply adds_le; [apply adds_ret | lia] |].
  eapply adds_le; [apply adds_page_loop |]. by rewrite length_seqZ.
Qed.

(** [collect_customer_reviews] returns, and scrapes at most [max_pages]
    pages. *)
Lemma adds_collect_customer_reviews (url : Py.str) (max_pages : Z) :
  adds pages_visited (Z.to_nat max_pages) (collect_customer_reviews cfg w url max_pages).
Proof.
  intros s. unfold collect_customer_reviews.
  pose proof (adds_try pages_visited_fst _ 0 _ (mret ()) any_exception
                (adds_collect_body url max_pages) (adds_ret _ ()) (s, [])) as H.
  destruct (try_ _ _ _ _) as [r [s' reviews]]. unfold pages_visited_fst in H.
  simpl in *. lia.
Qed.

Lemma adds_product_details_body (resolved_url : Py.str) :
  adds pages_visited_fst 0 (product_details_body cfg w resolved_url).
Proof.
  unfold product_details_body.
  apply (adds_bind _ 0 0); [apply adds_on_fst, adds_driver_get | intros _].
  apply (adds_bind _ 0 0);
    [apply adds_on_fst, (adds_pausing (λ _, True)), pausing_ethical_delay; exact I | intros _].
  apply (adds_bind _ 0 0); [apply adds_gets | intros p].
  repeat (apply (adds_bind _ 0 0); [apply adds_on_snd | intros _]).
  apply adds_on_snd.
Qed.

Lemma adds_extract_product_details (url : Py.str) :
  adds pages_visited 0 (extract_product_details cfg w url).
Proof.
  unfold extract_product_details.
  apply (adds_bind _ 0 0).
  { unfold resolve_short_url. apply (adds_try _ 0 0); [apply adds_lift | apply adds_ret]. }
  intros resolved_url s. unfold product_details_from.
  pose proof (adds_try pages_visited_fst _ 0 _ (mret ()) any_exception
                (adds_product_details_body resolved_url) (adds_ret _ ())
                (s, initial_product_data resolved_url)) as H.
  destruct (try_ _ _ _ _) as [r [s' d]]. unfold pages_visited_fst in H.
  simpl in *. lia.
Qed.

(** A run scrapes at most five pages of the listing. *)
Lemma adds_scrape_product (url : Py.str) :
  adds pages_visited 5 (scrape_product cfg w url).
Proof.
  unfold scrape_product.
  apply (adds_bind _ 0 5); [apply adds_extract_product_details | intros d].
  apply (adds_bind _ 5 0); [apply (adds_collect_customer_reviews url 5) | intros r].
  apply adds_ret.
Qed.

End Bound.

(** C3. The settings ask for at most two pages; the listing shows an
    enabled control for the next page on every page. The run scrapes five
    pages: [scrape_product] calls [collect_customer_reviews] with the
    default [max_pages] of 5, and MAX_PAGES_TO_SCRAPE is never read, so
    that changing it changes nothing. The loop itself always ends, after
    at most five pages, whatever the control says. *)
Theorem pagination_ignores_MAX_PAGES_TO_SCRAPE :
  let cfg := with_max_pages 2 settings in
  MAX_PAGES_TO_SCRAPE cfg = 2
  ∧ pages_visited (snd (scrape_product cfg Sample.endless Sample.product_url new_session))
    = 5%nat
  ∧ (∀ n cfg w url s, scrape_product (with_max_pages n cfg) w url s
                      = scrape_product cfg w url s)
  ∧ (∀ cfg w url s, (pages_visited (snd (scrape_product cfg w url s))
                     ≤ pages_visited s + 5)%nat).
Proof.
  cbv zeta. split; [reflexivity |]. split; [vm_compute; reflexivity |].
  split; [reflexivity |]. intros cfg w url s. apply adds_scrape_product.
Qed.

(** A control with the class of a disabled one ends the loop after the
    first page, without a click. *)
Example disabled_control_stops :
  let s := snd (scrape_product settings Sample.one_page Sample.product_url new_session) in
  pages_visited s = 1%nat ∧ List.filter is_click (log s) = [].
Proof. cbv zeta. split; vm_compute; reflexivity. Qed.

(** ** The orchestrator *)

Section Preserves.

Context {S X : Type} (f : S → X).

Lemma preserves_ret {A} (a : A) : preserves f (mret a).
Proof. done. Qed.

Lemma preserves_lift {A} (c : res A) : preserves f (lift c).
Proof. done. Qed.

Lemma preserves_gets {A} (g : S → A) : preserves f (gets g).
Proof. done. Qed.

Lemma preserves_bind {A B} (c : stx S A) (k : A → stx S B) :
  preserves f c → (∀ a, preserves f (k a)) → preserves f (c ≫= k).
Proof.
  intros Hc Hk s. rewrite stx_bind_run. specialize (Hc s).
  destruct (c s) as [[a | e] s1]; simpl in *; [| done].
  by rewrite (Hk a s1).
Qed.

Lemma preserves_try {A} (c h : stx S A) (handles : exn → bool) :
  preserves f c → preserves f h → preserves f (try_ c handles h).
Proof.
  intros Hc Hh s. unfold try_. specialize (Hc s).
  destruct (c s) as [[a | e] s1]; simpl in *; [done |].
  destruct (handles e); simpl; [| done]. by rewrite (Hh s1).
Qed.

End Preserves.

Lemma preserves_on_fst {S T A X} (f : T → X) (c : stx S A) :
  preserves (λ st : S * T, f (snd st)) (on_fst c).
Proof. intros [s t]. unfold on_fst. simpl. by destruct (c s). Qed.

Lemma preserves_on_snd {S T A X} (f : T → X) (c : stx T A) :
  preserves f c → preserves (λ st : S * T, f (snd st)) (on_snd c).
Proof.
  intros Hc [s t]. unfold on_snd. simpl. specialize (Hc t). by destruct (c t).
Qed.

Section Keys.

(** A key the block does not assign. *)
Variable k : string.
Hypothesis Hk : k ∉ assigned_keys.

Lemma assigned_ne (k' : string) : k' ∈ assigned_keys → k' ≠ k.
Proof. intros H ->. by apply Hk. Qed.

Lemma preserves_set_item (k' : string) (v : value) :
  k' ∈ assigned_keys → preserves (λ d : gmap string value, d !! k) (set_item k' v).
Proof.
  intros H d. unfold set_item, modify. simpl.
  apply lookup_insert_ne. by apply assigned_ne.
Qed.

Lemma preserves_get_item (k' : string) :
  preserves (λ d : gmap string value, d !! k) (get_item k').
Proof. intros d. unfold get_item. by destruct (d !! k'). Qed.

Lemma preserves_append_item (k' : string) (x : Py.str) :
  k' ∈ assigned_keys → preserves (λ d : gmap string value, d !! k) (append_item k' x).
Proof.
  intros H. unfold append_item.
  apply preserves_bind; [apply preserves_get_item | intros v].
  destruct v; try apply preserves_lift. by apply preserves_set_item.
Qed.

Ltac key_in := apply (bool_decide_unpack _); vm_compute; exact I.

Ltac keep :=
  repeat first
    [ apply preserves_ret
    | apply preserves_lift
    | apply preserves_gets
    | apply preserves_get_item
    | apply preserves_set_item; key_in
    | apply preserves_append_item; key_in
    | apply preserves_try
    | apply preserves_bind; [| intros ?]
    | match goal with
      | |- preserves _ (match ?x with _ => _ end) => destruct x
      end ].

Lemma preserves_name_loop (p : Page) (selectors : list selector) :
  preserves (λ d : gmap string value, d !! k) (name_loop p selectors).
Proof. induction selectors as [| sel rest IH]; simpl; keep; exact IH. Qed.

Lemma preserves_price_assign (price_text : Py.str) :
  preserves (λ d : gmap string value, d !! k) (price_assign price_text).
Proof. unfold price_assign. keep. Qed.

Lemma preserves_price_loop (p : Page) (selectors : list selector) :
  preserves (λ d : gmap string value, d !! k) (price_loop p selectors).
Proof.
  induction selectors as [| sel rest IH]; simpl; keep;
    first [exact IH | apply preserves_price_assign].
Qed.

Lemma preserves_rating_loop (p : Page) (selectors : list selector) :
  preserves (λ d : gmap string value, d !! k) (rating_loop p selectors).
Proof. induction selectors as [| sel rest IH]; simpl; keep; exact IH. Qed.

Lemma preserves_review_count_loop (p : Page) (selectors : list selector) :
  preserves (λ d : gmap string value, d !! k) (review_count_loop p selectors).
Proof. induction selectors as [| sel rest IH]; simpl; keep; exact IH. Qed.

Lemma preserves_feature_items (elements : list WebElement) :
  preserves (λ d : gmap string value, d !! k) (feature_items elements).
Proof. induction elements as [| e rest IH]; simpl; keep; exact IH. Qed.

Lemma preserves_feature_loop (p : Page) (selectors : list selector) :
  preserves (λ d : gmap string value, d !! k) (feature_loop p selectors).
Proof.
  induction selectors as [| sel rest IH]; simpl; keep;
    first [exact IH | apply preserves_feature_items].
Qed.

Lemma preserves_extract_seller_info (p : Page) :
  preserves (λ d : gmap string value, d !! k) (_extract_seller_info p).
Proof.
  intros d. unfold _extract_seller_info.
  destruct (seller_loop p seller_selectors ∅) as [[[] | e] seller_info]; simpl; [| done].
  apply lookup_insert_ne, assigned_ne. key_in.
Qed.

Lemma preserves_availability_loop (p : Page) (selectors : list selector) :
  preserves (λ d : gmap string value, d !! k) (availability_loop p selectors).
Proof. induction selectors as [| sel rest IH]; simpl; keep; exact IH. Qed.

Lemma preserves_image_items (elements : list WebElement) :
  preserves (λ d : gmap string value, d !! k) (image_items elements).
Proof. induction elements as [| e rest IH]; simpl; keep; exact IH. Qed.

Lemma preserves_image_loop (p : Page) (selectors : list selector) :
  preserves (λ d : gmap string value, d !! k) (image_loop p selectors).
Proof.
  induction selectors as [| sel rest IH]; simpl; keep;
    first [exact IH | apply preserves_image_items].
Qed.

Lemma preserves_logging_summary :
  preserves (λ d : gmap string value, d !! k) logging_summary.
Proof. unfold logging_summary. keep. Qed.

Lemma preserves_product_details_body (cfg : ScrapingSettings) (w : World)
    (resolved_url : Py.str) :
  preserves (λ st : Session * gmap string value, snd st !! k)
            (product_details_body cfg w resolved_url).
Proof.
  unfold product_details_body.
  apply preserves_bind; [apply (preserves_on_fst (λ d, d !! k)) | intros _].
  apply preserves_bind; [apply (preserves_on_fst (λ d, d !! k)) | intros _].
  apply preserves_bind; [apply preserves_gets | intros p].
  apply preserves_bind;
    [apply (preserves_on_snd (λ d, d !! k)), preserves_set_item; key_in | intros _].
  apply preserves_bind;
    [apply (preserves_on_snd (λ d, d !! k)), preserves_name_loop | intros _].
  apply preserves_bind;
    [apply (preserves_on_snd (λ d, d !! k)), preserves_price_loop | intros _].
  apply preserves_bind.
  { apply (preserves_on_snd (λ d, d !! k)). unfold _extract_rating_info.
    apply preserves_bind; [apply preserves_rating_loop | intros _].
    apply preserves_review_count_loop. }
  intros _. apply preserves_bind;
    [apply (preserves_on_snd (λ d, d !! k)), preserves_feature_loop | intros _].
  apply preserves_bind;
    [apply (preserves_on_snd (λ d, d !! k)), preserves_extract_seller_info | intros _].
  apply preserves_bind;
    [apply (preserves_on_snd (λ d, d !! k)), preserves_availability_loop | intros _].
  apply preserves_bind;
    [apply (preserves_on_snd (λ d, d !! k)), preserves_image_loop | intros _].
  apply (preserves_on_snd (λ d, d !! k)), preserves_logging_summary.
Qed.

(** [extract_product_details] returns, and a key its block does not
    assign holds what the initial dictionary gave it. *)
Lemma product_details_from_key (cfg : ScrapingSettings) (w : World)
    (resolved_url : Py.str) (s : Session) :
  ∃ product_data s',
    product_details_from cfg w resolved_url s = (Ok product_data, s')
    ∧ product_data !! k = initial_product_data resolved_url !! k.
Proof.
  unfold product_details_from.
  pose proof (preserves_try (λ st : Session * gmap string value, snd st !! k)
                _ (mret ()) any_exception
                (preserves_product_details_body cfg w resolved_url)
                (preserves_ret _ ()) (s, initial_product_data resolved_url)) as H.
  destruct (try_ _ _ _ _) as [r [s' d]]. simpl in H. eauto.
Qed.

End Keys.

(** [resolve_short_url] returns the URL the probe ends on, or the URL it
    was given when the probe raises. *)
Lemma resolve_short_url_run (w : World) (url : Py.str) (s : Session) :
  resolve_short_url w url s
  = (Ok (match probe w url with Ok final_url => final_url | Raise _ => url end), s).
Proof. unfold resolve_short_url, try_, lift. by destruct (probe w url). Qed.

Lemma collect_customer_reviews_run (cfg : ScrapingSettings) (w : World)
    (url : Py.str) (max_pages : Z) (s : Session) :
  ∃ reviews s', collect_customer_reviews cfg w url max_pages s = (Ok reviews, s').
Proof.
  unfold collect_customer_reviews.
  destruct (try_ _ _ _ _) as [r [s' reviews]]. eauto.
Qed.

(** The result of a run, with the value of a key that is not assigned. *)
Lemma scrape_product_run (cfg : ScrapingSettings) (w : World) (url : Py.str)
    (s : Session) (k : string) :
  k ∉ assigned_keys →
  ∃ result s',
    scrape_product cfg w url s = (Ok result, s')
    ∧ total_reviews_scraped result = length (reviews result)
    ∧ product_details result !! k
      = initial_product_data
          (match probe w url with Ok final_url => final_url | Raise _ => url end) !! k.
Proof.
  intros Hk. unfold scrape_product, extract_product_details.
  rewrite !stx_bind_run, resolve_short_url_run.
  destruct (product_details_from_key k Hk cfg w
              (match probe w url with Ok final_url => final_url | Raise _ => url end) s)
    as (d & s1 & -> & Hd).
  rewrite stx_bind_run.
  destruct (collect_customer_reviews_run cfg w url 5 s1) as (rs & s2 & ->).
  eexists _, _. split; [reflexivity |]. simpl. done.
Qed.



(** C8. Two runs with the default settings.  With no network the
    navigation raises before the seller is looked up: the result has the
    key [seller_name] with the empty string, and neither [seller_info]
    nor [availability]. On a product page without a seller element the
    default "Amazon" is stored as the name in [seller_info], and
    [seller_name] is the empty string again. No run assigns
    [seller_name]. *)
Theorem seller_name_stays_empty :
  (∃ result s',
     scrape_product settings Sample.offline Sample.product_url new_session = (Ok result, s')
     ∧ product_details result !! "seller_name" = Some (VStr [])
     ∧ product_details result !! "seller_info" = None
     ∧ product_details result !! "availability" = None)
  ∧ (∃ result s' seller_info,
       scrape_product settings Sample.endless Sample.product_url new_session = (Ok result, s')
       ∧ product_details result !! "seller_name" = Some (VStr [])
       ∧ product_details result !! "seller_info" = Some (VDict seller_info)
       ∧ seller_info !! "name" = Some (Py.lit "Amazon"))
  ∧ (∀ cfg w url s result s',
       scrape_product cfg w url s = (Ok result, s') →
       product_details result !! "seller_name" = Some (VStr [])).
Proof.
  split; [| split].
  - destruct (scrape_product settings Sample.offline Sample.product_url new_session)
      as [[result | e] s'] eqn:Hrun; [| by vm_compute in Hrun].
    exists result, s'. split; [done |].
    assert (Hr : result = match fst (scrape_product settings Sample.offline
                                       Sample.product_url new_session) with
                          | Ok r => r | Raise _ => result end) by (by rewrite Hrun).
    rewrite Hr. repeat split; vm_compute; reflexivity.
  - destruct (scrape_product settings Sample.endless Sample.product_url new_session)
      as [[result | e] s'] eqn:Hrun; [| by vm_compute in Hrun].
    assert (Hr : result = match fst (scrape_product settings Sample.endless
                                       Sample.product_url new_session) with
                          | Ok r => r | Raise _ => result end) by (by rewrite Hrun).
    exists result, s'.
    exists (match product_details result !! "seller_info" with
            | Some (VDict d) => d | _ => ∅ end).
    split; [done |]. rewrite Hr. repeat split; vm_compute; reflexivity.
  - intros cfg w url s result s' Hrun.
    destruct (scrape_product_run cfg w url s "seller_name") as (r & s1 & Hrun' & _ & Hkey).
    { apply (bool_decide_unpack _). vm_compute. exact I. }
    rewrite Hrun in Hrun'. injection Hrun' as <- _.
    rewrite Hkey. unfold initial_product_data. by simplify_map_eq.
Qed.

(** ** The entry point *)

Lemma startswith_app (p s t : Py.str) :
  Py.startswith p s = true → Py.startswith p (s ++ t) = true.
Proof.
  revert s. induction p as [| a p IH]; intros [| b s]; simpl; try done.
  intros [Hab Hp]%andb_true_iff. apply andb_true_iff. split; [done | by apply IH].
Qed.

Lemma contains_app_r (p s t : Py.str) :
  Py.contains p s = true → Py.contains p (s ++ t) = true.
Proof.
  induction s as [| b s IH].
  - simpl. rewrite orb_false_r. destruct p; [| done]. by destruct t.
  - cbn [Py.contains app]. fold (@app N).
    intros [H | H]%orb_true_iff; apply orb_true_iff.
    + left. by apply (startswith_app p (b :: s) t).
    + right. by apply IH.
Qed.

Lemma contains_app_l (p s t : Py.str) :
  Py.contains p t = true → Py.contains p (s ++ t) = true.
Proof.
  intros H. induction s as [| b s IH]; [done |].
  cbn [Py.contains app]. fold (@app N). apply orb_true_iff. by right.
Qed.

Lemma lower_app (s t : Py.str) : Py.lower (s ++ t) = Py.lower s ++ Py.lower t.
Proof. unfold Py.lower. apply bind_app. Qed.


Lemma contains_self (p a b : Py.str) : Py.contains p (a ++ p ++ b) = true.
Proof.
  apply contains_app_l, contains_app_r.
  destruct p as [| c p]; [by destruct b |].
  cbn [Py.contains]. apply orb_true_iff. left.
  apply startswith_split. exists []. by rewrite app_nil_r.
Qed.

Lemma endswith_contains (p s : Py.str) : endswith p s = true → Py.contains p s = true.
Proof.
  unfold endswith. intros [rest H]%startswith_split.
  apply (f_equal (@rev N)) in H. rewrite rev_involutive, rev_app_distr, rev_involutive in H.
  rewrite H. pose proof (contains_self p (rev rest) []) as Hc.
  by rewrite app_nil_r in Hc.
Qed.

Lemma after_scheme_suffix (s r : Py.str) :
  after_scheme s = Some r → ∃ pre, s = pre ++ r.
Proof.
  induction s as [| c s IH]; cbn [after_scheme].
  - destruct (Py.startswith _ _); [| done]. intros [= <-]. by exists [].
  - destruct (Py.startswith (Py.lit "://") (c :: s)).
    + intros [= <-]. exists (take 3 (c :: s)). exact (eq_sym (take_drop 3 (c :: s))).
    + intros [pre ->]%IH. by exists (c :: pre).
Qed.

Lemma span_app (cls : N → bool) (s : Py.str) :
  s = fst (Py.span cls s) ++ snd (Py.span cls s).
Proof.
  induction s as [| c s IH]; [done |]. cbn [Py.span].
  destruct (cls c); [| done]. destruct (Py.span cls s) as [a b]. simpl in *.
  by rewrite <- IH.
Qed.

(** The host of an address, as the specification reads it, is part of
    the lower-cased address. *)
Lemma spec_url_host_within (url : Py.str) :
  ∃ pre post, Py.lower url = pre ++ spec_url_host url ++ post.
Proof.
  unfold spec_url_host.
  set (cls := λ c : N, negb (bool_decide (c ∈ [47; 63; 35; 58]%N))).
  destruct (after_scheme url) as [r |] eqn:Hr; simpl.
  - apply after_scheme_suffix in Hr as [pre ->].
    exists (Py.lower pre), (Py.lower (snd (Py.span cls r))).
    by rewrite <- !lower_app, <- span_app.
  - exists [], (Py.lower (snd (Py.span cls url))).
    by rewrite <- !lower_app, <- span_app.
Qed.

(** Every address the specification's check accepts passes the check of
    the code. *)
Lemma spec_domain_allowed_passes (url : Py.str) :
  spec_domain_allowed url = true → is_amazon_url url = true.
Proof.
  unfold spec_domain_allowed, is_amazon_url. rewrite !existsb_exists.
  intros (domain & Hin & Hd). exists domain. split; [done |].
  destruct (spec_url_host_within url) as (pre & post & ->).
  apply contains_app_l, contains_app_r.
  apply orb_true_iff in Hd as [Hd | Hd].
  - apply bool_decide_eq_true in Hd. rewrite Hd.
    pose proof (contains_self domain [] []) as H.
    by rewrite app_nil_l, app_nil_r in H.
  - apply endswith_contains in Hd.
    destruct (spec_url_host url) as [| c h]; [by destruct domain |].
    revert Hd. generalize (c :: h). intros t Ht.
    clear -Ht. induction t as [| x t IH]; cbn [Py.contains] in *.
    + rewrite orb_false_r in *. by destruct domain.
    + apply orb_true_iff in Ht as [Ht | Ht]; apply orb_true_iff.
      * apply startswith_split in Ht as [rest Ht]. simpl in Ht.
        injection Ht as -> ->. right. apply (contains_self domain [] rest).
      * right. by apply IH.
Qed.

(** C9. The check of the address is a search for the text of a listed
    domain anywhere in the lower-cased address, not a check of its
    domain. An address in which no listed text occurs ends the run with
    status 1 before anything is navigated to, and every address whose
    host is on the list passes. But an address of another shop whose text
    holds "a.co" passes as well: it is navigated to and scraped, and the
    run can end with status 0. The status is 0 exactly when the address
    passes the check, the browser starts, saving and printing the result
    raise nothing, and the collection of reviews is not empty; it is 1 in
    every other case, also when reviews were collected and printing the
    summary raised. *)
Theorem main_exit_status (cfg : ScrapingSettings) (w : World) (url : Py.str) :
  (is_amazon_url url = false →
     main cfg w url = (1, new_session)
     ∧ List.filter is_navigate (log (snd (main cfg w url))) = []
     ∧ loads (snd (main cfg w url)) = 0%nat)
  ∧ (spec_domain_allowed url = true → is_amazon_url url = true)
  ∧ (∃ result s',
       scrape_product cfg w url new_session = (Ok result, s')
       ∧ (fst (main cfg w url) = 0
          ↔ is_amazon_url url = true ∧ driver_starts w = true
            ∧ report w result = None ∧ reviews result ≠ []))
  ∧ (fst (main cfg w url) = 0 ∨ fst (main cfg w url) = 1)
  ∧ (spec_url_host Scenario.ikea_url = Py.lit "www.ikea.com"
     ∧ spec_domain_allowed Scenario.ikea_url = false
     ∧ is_amazon_url Scenario.ikea_url = true
     ∧ fst (main settings Sample.endless Scenario.ikea_url) = 0
     ∧ loads (snd (main settings Sample.endless Scenario.ikea_url)) = 2%nat)
  ∧ (fst (main settings Scenario.narrow_console Sample.product_url) = 1
     ∧ ∃ result s',
         scrape_product settings Scenario.narrow_console Sample.product_url new_session
         = (Ok result, s')
         ∧ length (reviews result) = 5%nat).
Proof.
  split; [| split; [apply spec_domain_allowed_passes | split; [| split; [| split]]]].
  - intros Hu. unfold main. by rewrite Hu.
  - destruct (scrape_product_run cfg w url new_session "url")
      as (result & s' & Hrun & _).
    { apply (bool_decide_unpack _). vm_compute. exact I. }
    exists result, s'. split; [exact Hrun |].
    unfold main, scrape_amazon_product, setup_driver. rewrite stx_bind_run.
    destruct (is_amazon_url url); cbn [negb]; [| by split; [| intros [? _]]].
    destruct (driver_starts w); cbn [mret stx_ret lift];
      [| by split; [| intros (_ & ? & _)]].
    rewrite Hrun.
    destruct (report w result) as [[e |] |]; cbn [fst];
      [by split; [| intros (_ & _ & ? & _)].. |].
    destruct (reviews result); cbn [fst];
      [by split; [| intros (_ & _ & _ & ?)] | done].
  - unfold main, scrape_amazon_product.
    destruct (is_amazon_url url); cbn [negb]; [| by right].
    destruct ((_ ← setup_driver w; scrape_product cfg w url) new_session)
      as [[result | e] s']; [| by right].
    destruct (report w result) as [[e |] |]; [by right.. |].
    destruct (reviews result); [by right | by left].
  - repeat split; vm_compute; reflexivity.
  - split; [vm_compute; reflexivity |].
    eexists _, _. split; [vm_compute; reflexivity |]. vm_compute. reflexivity.
Qed.

(** * Further properties *)

(** ** The page loop *)

Section Pagination.

Variable cfg : ScrapingSettings.
Variable w : World.





(** A navigation whose loads all raise. *)
Lemma navigate_all_raise (url : Py.str) (s : Session) :
  all_raise w url s (Z.to_nat (MAX_RETRIES cfg)) →
  ∃ s', navigate_with_retry cfg w url s = (Ok false, s')
        ∧ loads s' = (loads s + Z.to_nat (MAX_RETRIES cfg))%nat
        ∧ page s' = page s
        ∧ log s' = log s ++ backoffs url 0 (Z.to_nat (MAX_RETRIES cfg) - 1)
                         ++ match Z.to_nat (MAX_RETRIES cfg) with
                            | O => []
                            | _ => [Navigate url]
                            end.
Proof.
  intros Hall. unfold navigate_with_retry. rewrite seqZ_retries.
  destruct (retry_loop_all_raise cfg w url (Z.to_nat (MAX_RETRIES cfg)) 0%nat s)
    as (s' & Hrun & Hl & _ & Hpage & Hlog); [| done | by exists s'].
  destruct (decide (0 < MAX_RETRIES cfg)); [right | left]; lia.
Qed.

Lemma collect_body_with_asin (url asin : Py.str) (max_pages : Z) (s : Session) :
  extract_asin (page s) url = Some asin → asin ≠ [] →
  collect_body cfg w url max_pages (s, [])
  = match navigate_with_retry cfg w (reviews_url_of url asin) s with
    | (Ok true, s1) => page_loop cfg w (seqZ 1 max_pages) (s1, [])
    | (Ok false, s1) => (Ok (), (s1, []))
    | (Raise e, s1) => (Raise e, (s1, []))
    end.
Proof.
  intros Hasin Hne. unfold collect_body. rewrite stx_bind_run.
  cbn [gets fst snd]. cbv iota beta. rewrite Hasin.
  destruct asin as [| c asin]; [done |]. cbn [Py.truthy negb]. cbv iota beta zeta.
  rewrite stx_bind_run. unfold on_fst at 1. cbn [fst snd].
  change (detect_amazon_domain url ++ Py.lit "/product-reviews/" ++ (c :: asin) ++ reviews_path)
    with (reviews_url_of url (c :: asin)).
  by destruct (navigate_with_retry cfg w (reviews_url_of url (c :: asin)) s)
    as [[[|] | e] s1].
Qed.

End Pagination.



(** X2. Without an identifier, neither in the URL nor on the current
    page, [collect_customer_reviews] returns the empty list and leaves
    the session as it was: nothing is navigated to. *)
Theorem collect_reviews_without_asin (cfg : ScrapingSettings) (w : World)
    (url : Py.str) (max_pages : Z) (s : Session) :
  extract_asin (page s) url = None ∨ extract_asin (page s) url = Some [] →
  collect_customer_reviews cfg w url max_pages s = (Ok [], s).
Proof.
  intros H. unfold collect_customer_reviews. rewrite try_run.
  unfold collect_body. rewrite stx_bind_run. cbn [gets fst snd]. cbv iota beta.
  by destruct H as [-> | ->].
Qed.

(** A short link on a browser that shows nothing yet. *)
Lemma collect_reviews_without_asin_witness :
  collect_customer_reviews settings Sample.endless (Py.lit "https://amzn.to/3xYzAbC") 5
    new_session = (Ok [], new_session).
Proof.
  apply collect_reviews_without_asin. left. vm_compute. reflexivity.
Defined.

(** X3. When every attempt to load the listing raises,
    [collect_customer_reviews] returns the empty list after MAX_RETRIES
    loads, without scraping a page. *)
Theorem collect_reviews_navigation_fails (cfg : ScrapingSettings) (w : World)
    (url asin : Py.str) (max_pages : Z) (s : Session) :
  extract_asin (page s) url = Some asin → asin ≠ [] →
  all_raise w (reviews_url_of url asin) s (Z.to_nat (MAX_RETRIES cfg)) →
  ∃ s', collect_customer_reviews cfg w url max_pages s = (Ok [], s')
        ∧ loads s' = (loads s + Z.to_nat (MAX_RETRIES cfg))%nat
        ∧ page s' = page s
        ∧ pages_visited s' = pages_visited s.
Proof.
  intros Hasin Hne Hall.
  destruct (navigate_all_raise cfg w (reviews_url_of url asin) s Hall)
    as (s1 & Hnav & Hl & Hpage & Hlog).
  exists s1. split.
  - unfold collect_customer_reviews. rewrite try_run.
    by rewrite (collect_body_with_asin cfg w url asin max_pages s Hasin Hne), Hnav.
  - split; [done |]. split; [done |].
    unfold pages_visited in *. rewrite Hlog, !List.filter_app, !length_app.
    assert (Hb : ∀ a n, List.filter is_scraping
                         (backoffs (reviews_url_of url asin) a n) = []).
    { intros a n. unfold backoffs. induction (seq 0 n); [done | by simpl]. }
    rewrite Hb. by destruct (Z.to_nat (MAX_RETRIES cfg)); simpl; lia.
Qed.

(** With no network the three attempts of the default settings fail. *)
Lemma collect_reviews_navigation_fails_witness :
  ∃ s', collect_customer_reviews settings Sample.offline Sample.product_url 5 new_session
        = (Ok [], s')
        ∧ loads s' = 3%nat.
Proof.
  destruct (collect_reviews_navigation_fails settings Sample.offline Sample.product_url
              (Py.lit "B0123ABCDE") 5 new_session)
    as (s' & Hrun & Hl & _).
  - vm_compute. reflexivity.
  - discriminate.
  - intros k _. by exists WebDriverException.
  - exists s'. split; [exact Hrun | exact Hl].
Defined.


(** ** The text of a located element *)

Lemma lstrip_starts_clean (l : Py.str) : starts_clean (Py.lstrip l).
Proof.
  induction l as [| c l IH]; simpl; [done |].
  destruct (Py.isspace c) eqn:Hc; [exact IH | exact Hc].
Qed.

Lemma lstrip_clean (l : Py.str) : starts_clean l → Py.lstrip l = l.
Proof. destruct l as [| c l]; simpl; [done |]. by intros ->. Qed.

Lemma starts_clean_app (x y : Py.str) : x ≠ [] → starts_clean (x ++ y) ↔ starts_clean x.
Proof. by destruct x. Qed.

Lemma lstrip_ends_clean (u : Py.str) :
  starts_clean (rev u) → starts_clean (rev (Py.lstrip u)).
Proof.
  induction u as [| c u IH]; simpl; [done |].
  destruct (Py.isspace c); [| done].
  destruct u as [| d u]; [done |].
  intros H. apply IH. revert H. apply starts_clean_app.
  simpl. by destruct (rev u).
Qed.

Lemma strip_clean (s : Py.str) :
  starts_clean (Py.strip s) ∧ starts_clean (rev (Py.strip s)).
Proof.
  unfold Py.strip. split.
  - apply lstrip_ends_clean. rewrite rev_involutive. apply lstrip_starts_clean.
  - rewrite rev_involutive. apply lstrip_starts_clean.
Qed.

Lemma strip_of_clean (t : Py.str) :
  starts_clean t → starts_clean (rev t) → Py.strip t = t.
Proof.
  intros H1 H2. unfold Py.strip.
  by rewrite (lstrip_clean t H1), (lstrip_clean (rev t) H2), rev_involutive.
Qed.

(** Stripping a stripped text changes nothing. *)
Lemma strip_idempotent (s : Py.str) : Py.strip (Py.strip s) = Py.strip s.
Proof. destruct (strip_clean s). by apply strip_of_clean. Qed.

Lemma safe_get_text_stripped (element : option WebElement) :
  Py.strip (safe_get_text element) = safe_get_text element.
Proof. destruct element; [apply strip_idempotent | done]. Qed.

Lemma int_digits_nonneg (s : Py.str) (n : Z) : Py.int_digits s = Some n → 0 ≤ n.
Proof.
  unfold Py.int_digits. destruct s as [| c s]; [done |].
  destruct (bool_decide _); [done |]. intros [= <-].
  assert (H : ∀ l acc, 0 ≤ acc →
            0 ≤ fold_left (λ acc c, 10 * acc + Z.of_N (default 0%N (Py.digit_value c))) l acc).
  { induction l as [| d l IH]; intros acc Hacc; simpl; [done |]. apply IH. lia. }
  apply H. lia.
Qed.





(** ** The identifier the scraper uses *)

Lemma url_patterns_grouped :
  Forall (λ p, groups_of_ten p ∧ has_group p) url_patterns.
Proof.
  unfold url_patterns.
  repeat (apply Forall_cons; split;
          [split; [repeat constructor | apply Exists_cons_tl, Exists_cons_hd; exact I] |]).
  apply Forall_nil_2.
Qed.

Lemma pat_ASIN_colon_grouped :
  Forall (λ p, groups_of_ten p ∧ has_group p) [pat_ASIN_colon].
Proof.
  apply Forall_cons. split; [| apply Forall_nil_2].
  split; [repeat constructor |].
  do 5 apply Exists_cons_tl. apply Exists_cons_hd. exact I.
Qed.

(** X5. The identifier [extract_asin] returns comes from the first of
    four places that gives one: the URL, the meta tag, the first
    [data-asin] attribute, a script. From the URL or a script it is ten
    characters of [[A-Z0-9]]; from the meta tag or the attribute it is
    the value of the attribute as it stands, of any length and content,
    and a tag or attribute that is present hides the places after it. *)
Theorem extract_asin_provenance (p : Page) (url a : Py.str) :
  extract_asin p url = Some a →
  (first_pattern url_patterns url = Some a ∧ ten_AZ09 a)
  ∨ (first_pattern url_patterns url = None
     ∧ ∃ meta_tag, soup_find p sel_meta_pageId = Some meta_tag
                   ∧ attr meta_tag "content" = Some a)
  ∨ (first_pattern url_patterns url = None ∧ soup_find p sel_meta_pageId = None
     ∧ ∃ e, soup_find p sel_data_asin = Some e ∧ attr e "data-asin" = Some a)
  ∨ (first_pattern url_patterns url = None ∧ soup_find p sel_meta_pageId = None
     ∧ soup_find p sel_data_asin = None
     ∧ script_loop [pat_ASIN_colon] (soup_find_all p sel_script) = Some a
     ∧ ten_AZ09 a).
Proof.
  unfold extract_asin, extract_asin_from_page.
  destruct (first_pattern url_patterns url) as [g |] eqn:Hu.
  { intros [= <-]. left. split; [done |].
    eapply first_pattern_group; [apply url_patterns_grouped | exact Hu]. }
  destruct (soup_find p sel_meta_pageId) as [m |].
  { intros H. right; left. eauto. }
  destruct (soup_find p sel_data_asin) as [e |].
  { intros H. right; right; left. eauto. }
  intros Hs. right; right; right.
  split; [done |]. split; [done |]. split; [done |]. split; [exact Hs |].
  eapply script_loop_group; [apply pat_ASIN_colon_grouped | exact Hs].
Qed.

(** A [data-asin] value with a hyphen, an underscore and a point is what
    the scraper goes on with. *)
Lemma extract_asin_provenance_witness :
  extract_asin Sample.odd_data_asin (Py.lit "https://amzn.to/3xYzAbC")
  = Some (Py.lit "B01-2_AB.C")
  ∧ ∃ e, soup_find Sample.odd_data_asin sel_data_asin = Some e
         ∧ attr e "data-asin" = Some (Py.lit "B01-2_AB.C").
Proof.
  split; [vm_compute; reflexivity |].
  destruct (extract_asin_provenance Sample.odd_data_asin (Py.lit "https://amzn.to/3xYzAbC")
              (Py.lit "B01-2_AB.C"))
    as [[H _] | [(_ & m & H & _) | [(_ & _ & H) | (_ & _ & H & _)]]].
  - vm_compute. reflexivity.
  - vm_compute in H. discriminate H.
  - vm_compute in H. discriminate H.
  - exact H.
  - vm_compute in H. discriminate H.
Defined.

(** ** What the product record holds *)

Section Triple.

Context {S : Type}.

Lemma triple_ret {A} (P : S → Prop) (a : A) : triple P (mret a) P.
Proof. by intros s. Qed.

Lemma triple_lift {A} (P : S → Prop) (c : res A) : triple P (lift c) P.
Proof. by intros s. Qed.

Lemma triple_gets {A} (P : S → Prop) (f : S → A) : triple P (gets f) P.
Proof. by intros s. Qed.

Lemma triple_conseq {A} (P P' Q Q' : S → Prop) (c : stx S A) :
  triple P' c Q' → (∀ s, P s → P' s) → (∀ s, Q' s → Q s) → triple P c Q.
Proof. intros Hc HP HQ s Hs. apply HQ, Hc, HP, Hs. Qed.

(** A sequence: the state in between is in [R]; a first part that raises
    leaves the state it reached. *)
Lemma triple_bind {A B} (P R Q : S → Prop) (c : stx S A) (k : A → stx S B) :
  triple P c R → (∀ s, R s → Q s) → (∀ a, triple R (k a) Q) → triple P (c ≫= k) Q.
Proof.
  intros Hc HRQ Hk s Hs. rewrite stx_bind_run. specialize (Hc s Hs).
  destruct (c s) as [[a | e] s1]; simpl in *; [by apply Hk | by apply HRQ].
Qed.

Lemma triple_seq {A B} (P : S → Prop) (c : stx S A) (k : A → stx S B) :
  triple P c P → (∀ a, triple P (k a) P) → triple P (c ≫= k) P.
Proof. intros Hc Hk. by apply (triple_bind P P P). Qed.

Lemma triple_try {A} (P : S → Prop) (c h : stx S A) (handles : exn → bool) :
  triple P c P → triple P h P → triple P (try_ c handles h) P.
Proof.
  intros Hc Hh s Hs. rewrite try_run. specialize (Hc s Hs).
  destruct (c s) as [[a | e] s1]; simpl in *; [done |].
  destruct (handles e); [by apply Hh | done].
Qed.

End Triple.

Lemma triple_on_fst {S T A} (P : T → Prop) (c : stx S A) :
  triple (λ st : S * T, P (snd st)) (on_fst c) (λ st, P (snd st)).
Proof. intros [s t] H. unfold on_fst. simpl in *. by destruct (c s). Qed.

Lemma triple_on_snd {S T A} (P Q : T → Prop) (c : stx T A) :
  triple P c Q → triple (λ st : S * T, P (snd st)) (on_snd c) (λ st, Q (snd st)).
Proof.
  intros Hc [s t] H. unfold on_snd. simpl in *. specialize (Hc t H).
  by destruct (c t).
Qed.

Section AtKey.

Variable K : string.
Variable Q : option value → Prop.

Lemma triple_set_item (k : string) (v : value) :
  (k = K → Q (Some v)) → triple (at_key K Q) (set_item k v) (at_key K Q).
Proof.
  intros Hv d Hd. unfold at_key, set_item, modify in *. simpl.
  destruct (decide (k = K)) as [-> | Hne].
  - rewrite lookup_insert_eq. by apply Hv.
  - by rewrite lookup_insert_ne.
Qed.

Lemma triple_get_item (k : string) :
  triple (at_key K Q) (get_item k) (at_key K Q).
Proof. intros d Hd. unfold get_item. by destruct (d !! k). Qed.

Lemma triple_append_item (k : string) (x : Py.str) :
  (k = K → ∀ l, Q (Some (VList l)) → Q (Some (VList (l ++ [x])))) →
  triple (at_key K Q) (append_item k x) (at_key K Q).
Proof.
  intros Hx d Hd. unfold append_item. rewrite stx_bind_run. unfold get_item.
  destruct (d !! k) as [v |] eqn:Hk; [| done].
  destruct v; try done.
  apply triple_set_item; [| done].
  intros ->. apply Hx; [done |]. unfold at_key in Hd. by rewrite Hk in Hd.
Qed.

Ltac tri :=
  repeat lazymatch goal with
    | |- triple _ (mret _) _ => apply triple_ret
    | |- triple _ (lift _) _ => apply triple_lift
    | |- triple _ (gets _) _ => apply triple_gets
    | |- triple _ (get_item _) _ => apply triple_get_item
    | |- triple _ (try_ _ _ _) _ => apply triple_try
    | |- triple _ (_ ≫= _) _ => apply triple_seq; [| intros ?]
    | |- triple _ (match ?x with _ => _ end) _ => destruct x eqn:?
    end.

Lemma safe_get_text_is_strip (element : option WebElement) :
  ∃ t, safe_get_text element = Py.strip t.
Proof. destruct element; [eauto | by exists []]. Qed.

Lemma at_name_loop (p : Page) (selectors : list selector) :
  ("name" = K → ∀ t, Q (Some (VStr (Py.strip t)))) →
  triple (at_key K Q) (name_loop p selectors) (at_key K Q).
Proof.
  intros H. induction selectors as [| sel rest IH]; cbn [name_loop]; tri; try exact IH.
  apply triple_set_item. intros HK.
  destruct (safe_get_text_is_strip (Some w)) as [t ->]. by apply H.
Qed.

Lemma at_price_assign (price_text : Py.str) :
  ("price" = K → ∀ t, Q (Some (VStr (Py.keep_digits_and_points t)))) →
  ("currency" = K →
     ∀ c, c ∈ ["USD"; "INR"; "GBP"; "EUR"]%string → Q (Some (VStr (Py.lit c)))) →
  triple (at_key K Q) (price_assign price_text) (at_key K Q).
Proof.
  intros Hp Hc. unfold price_assign. tri;
    apply triple_set_item; intros HK;
    first [ by apply Hp
          | apply (Hc HK); apply (bool_decide_unpack _); vm_compute; exact I ].
Qed.

Lemma at_price_loop (p : Page) (selectors : list selector) :
  ("price" = K → ∀ t, Q (Some (VStr (Py.keep_digits_and_points t)))) →
  ("currency" = K →
     ∀ c, c ∈ ["USD"; "INR"; "GBP"; "EUR"]%string → Q (Some (VStr (Py.lit c)))) →
  triple (at_key K Q) (price_loop p selectors) (at_key K Q).
Proof.
  intros Hp Hc. induction selectors as [| sel rest IH]; cbn [price_loop]; tri;
    first [exact IH | by apply at_price_assign].
Qed.

Lemma at_rating_loop (p : Page) (selectors : list selector) :
  ("rating" = K → ∀ t g, Py.search_decimal t = Some g → Q (Some (VFloat g))) →
  triple (at_key K Q) (rating_loop p selectors) (at_key K Q).
Proof.
  intros H. induction selectors as [| sel rest IH]; cbn [rating_loop]; tri; try exact IH.
  apply triple_set_item. intros HK. by eapply H.
Qed.

Lemma at_review_count_loop (p : Page) (selectors : list selector) :
  ("review_count" = K → ∀ n, 0 ≤ n → Q (Some (VInt n))) →
  triple (at_key K Q) (review_count_loop p selectors) (at_key K Q).
Proof.
  intros H. induction selectors as [| sel rest IH]; cbn [review_count_loop];
    [apply triple_ret |].
  apply triple_seq; [apply triple_lift | intros element].
  destruct element as [e |]; [| exact IH].
  destruct (Py.truthy _); [| exact IH].
  destruct (Py.search_count _) as [g |]; [| exact IH].
  apply triple_seq; [| intros [|]; [apply triple_ret | exact IH]].
  apply triple_try; [| apply triple_ret].
  intros d Hd. rewrite stx_bind_run. unfold lift at 1.
  destruct (int_ (without_commas g)) as [n | e'] eqn:Hn; [| done].
  apply triple_seq; [| intros ?; apply triple_ret | done].
  apply triple_set_item. intros HK. apply (H HK).
  unfold int_ in Hn. destruct (Py.int_digits _) as [m |] eqn:Hm; [| done].
  injection Hn as <-. by eapply int_digits_nonneg.
Qed.

Lemma at_feature_items (elements : list WebElement) :
  ("features" = K → ∀ l x, Q (Some (VList l)) → Q (Some (VList (l ++ [x])))) →
  triple (at_key K Q) (feature_items elements) (at_key K Q).
Proof.
  intros H. induction elements as [| e rest IH]; cbn [feature_items]; tri; try exact IH.
  apply triple_append_item. intros HK l. by apply H.
Qed.

Lemma at_feature_loop (p : Page) (selectors : list selector) :
  ("features" = K → ∀ l x, Q (Some (VList l)) → Q (Some (VList (l ++ [x])))) →
  triple (at_key K Q) (feature_loop p selectors) (at_key K Q).
Proof.
  intros H. induction selectors as [| sel rest IH]; cbn [feature_loop]; tri;
    first [exact IH | by apply at_feature_items].
Qed.

Lemma at_extract_seller_info (p : Page) :
  ("seller_info" = K →
     ∀ m name, m !! "name" = Some name → name ≠ [] → Q (Some (VDict m))) →
  triple (at_key K Q) (_extract_seller_info p) (at_key K Q).
Proof.
  intros H d Hd. unfold _extract_seller_info.
  destruct (seller_loop p seller_selectors ∅) as [[[] | e] m]; [| done].
  apply triple_set_item; [| done]. intros HK.
  destruct (m !! "name") as [name |] eqn:Hname; simpl.
  - destruct name as [| c name]; simpl.
    + apply (H HK _ (Py.lit "Amazon")); [by rewrite lookup_insert_eq | done].
    + by apply (H HK _ (c :: name)).
  - apply (H HK _ (Py.lit "Amazon")); [by rewrite lookup_insert_eq | done].
Qed.

Lemma at_availability_loop (p : Page) (selectors : list selector) :
  ("availability" = K → ∀ t, Q (Some (VStr (Py.strip t)))) →
  triple (at_key K Q) (availability_loop p selectors) (at_key K Q).
Proof.
  intros H. induction selectors as [| sel rest IH]; cbn [availability_loop]; tri;
    try exact IH.
  apply triple_set_item. intros HK.
  destruct (safe_get_text_is_strip (Some w)) as [t ->]. by apply H.
Qed.

Lemma at_image_items (elements : list WebElement) :
  ("images" = K → ∀ l x, Py.contains (Py.lit "http") x = true →
                  Q (Some (VList l)) → Q (Some (VList (l ++ [x])))) →
  triple (at_key K Q) (image_items elements) (at_key K Q).
Proof.
  intros H. induction elements as [| e rest IH]; cbn [image_items]; [apply triple_ret |].
  apply triple_seq; [| intros _; exact IH].
  destruct (Py.truthy _ && Py.contains _ _) eqn:Hc; [| apply triple_ret].
  apply andb_true_iff in Hc as [_ Hc].
  apply triple_append_item. intros HK l. by apply H.
Qed.

Lemma at_image_loop (p : Page) (selectors : list selector) :
  ("images" = K → ∀ l x, Py.contains (Py.lit "http") x = true →
                  Q (Some (VList l)) → Q (Some (VList (l ++ [x])))) →
  triple (at_key K Q) (image_loop p selectors) (at_key K Q).
Proof.
  intros H. induction selectors as [| sel rest IH]; cbn [image_loop]; tri;
    first [exact IH | by apply at_image_items].
Qed.

Lemma at_logging_summary : triple (at_key K Q) logging_summary (at_key K Q).
Proof. unfold logging_summary. tri. Qed.

End AtKey.

Section Details.

Variable cfg : ScrapingSettings.
Variable w : World.

(** The URL [extract_product_details] goes on with. *)
Lemma extract_product_details_run (url : Py.str) (s : Session) :
  extract_product_details cfg w url s
  = product_details_from cfg w (resolved_url_of w url) s.
Proof.
  unfold extract_product_details. by rewrite stx_bind_run, resolve_short_url_run.
Qed.

(** Every step of the block keeps what [Q] says of the key [K], when [Q]
    admits what the steps may store there. *)
Lemma admits_product_details_body (K : string) (Q : option value → Prop)
    (resolved_url : Py.str) :
  admits K Q →
  triple (λ st : Session * gmap string value, at_key K Q (snd st))
         (product_details_body cfg w resolved_url)
         (λ st, at_key K Q (snd st)).
Proof.
  intros HQ. unfold product_details_body.
  apply triple_seq; [apply (triple_on_fst (at_key K Q)) | intros _].
  apply triple_seq; [apply (triple_on_fst (at_key K Q)) | intros _].
  apply triple_seq; [apply triple_gets | intros p].
  apply triple_seq; [apply triple_on_snd, triple_set_item | intros _].
  { intros HK. by apply (admits_asin K Q HQ). }
  apply triple_seq; [apply triple_on_snd, at_name_loop, HQ | intros _].
  apply triple_seq; [apply triple_on_snd, at_price_loop; apply HQ | intros _].
  apply triple_seq; [apply triple_on_snd | intros _].
  { unfold _extract_rating_info.
    apply triple_seq; [apply at_rating_loop, HQ | intros _].
    apply at_review_count_loop, HQ. }
  apply triple_seq; [apply triple_on_snd, at_feature_loop, HQ | intros _].
  apply triple_seq; [apply triple_on_snd, at_extract_seller_info, HQ | intros _].
  apply triple_seq; [apply triple_on_snd, at_availability_loop, HQ | intros _].
  apply triple_seq; [apply triple_on_snd, at_image_loop, HQ | intros _].
  apply triple_on_snd, at_logging_summary.
Qed.

(** What holds of a key of the initial dictionary holds of it in the
    result. *)
Lemma admits_extract_product_details (K : string) (Q : option value → Prop)
    (url : Py.str) (s : Session) (d : gmap string value) (s' : Session) :
  admits K Q →
  extract_product_details cfg w url s = (Ok d, s') →
  Q (initial_product_data (resolved_url_of w url) !! K) → Q (d !! K).
Proof.
  intros HQ. rewrite extract_product_details_run. unfold product_details_from.
  pose proof (triple_try _ _ (mret ()) any_exception
                (admits_product_details_body K Q (resolved_url_of w url) HQ)
                (triple_ret _ ())
                (s, initial_product_data (resolved_url_of w url))) as H.
  destruct (try_ _ _ _ _) as [r [s1 d1]]. simpl in H.
  intros [= <- _]. exact H.
Qed.

Lemma extract_product_details_returns (url : Py.str) (s : Session) :
  ∃ d s', extract_product_details cfg w url s = (Ok d, s').
Proof.
  rewrite extract_product_details_run. unfold product_details_from.
  destruct (try_ _ _ _ _) as [r [s1 d1]]. eauto.
Qed.

End Details.

Ltac admits_by :=
  constructor; try (intros [=]; fail); intros _.

(** X6. Whatever the product page looks like and whether or not it
    loads, the dictionary [extract_product_details] returns has the ten
    keys it starts with, each with a value of its kind: the resolved URL;
    a stripped name; a price of decimal digits and points only; a
    currency that is empty or one of USD, INR, GBP, EUR; a rating that is
    the initial numeral or digits with an optional point and digits; a
    review count that is not negative; a list of features; the empty
    [seller_name]; an [asin]; and a list of images whose addresses all
    contain "http". The keys [seller_info] and [availability] are absent
    or hold a dictionary with a non-empty name and a stripped text, and
    the dictionary has no other key. *)
Theorem product_details_shape (cfg : ScrapingSettings) (w : World) (url : Py.str)
    (s : Session) :
  ∃ d s',
    extract_product_details cfg w url s = (Ok d, s')
    ∧ d !! "url" = Some (VStr (resolved_url_of w url))
    ∧ (∃ t, d !! "name" = Some (VStr t) ∧ Py.strip t = t)
    ∧ (∃ t, d !! "price" = Some (VStr t)
            ∧ forallb (λ c, Py.isdecimal c || (c =? 46)%N) t = true)
    ∧ (∃ c, d !! "currency" = Some (VStr (Py.lit c))
            ∧ c ∈ [""; "USD"; "INR"; "GBP"; "EUR"]%string)
    ∧ (∃ g, d !! "rating" = Some (VFloat g)
            ∧ (g = Py.lit "0.0" ∨ ∃ t, Py.search_decimal t = Some g))
    ∧ (∃ n, d !! "review_count" = Some (VInt n) ∧ 0 ≤ n)
    ∧ (∃ l, d !! "features" = Some (VList l))
    ∧ d !! "seller_name" = Some (VStr [])
    ∧ (∃ t, d !! "asin" = Some (VStr t))
    ∧ (∃ l, d !! "images" = Some (VList l)
            ∧ Forall (λ x, Py.contains (Py.lit "http") x = true) l)
    ∧ (d !! "seller_info" = None
       ∨ ∃ m name, d !! "seller_info" = Some (VDict m)
                   ∧ m !! "name" = Some name ∧ name ≠ [])
    ∧ (d !! "availability" = None
       ∨ ∃ t, d !! "availability" = Some (VStr t) ∧ Py.strip t = t)
    ∧ (∀ k, is_Some (d !! k) →
            k ∈ ["url"; "name"; "price"; "currency"; "rating"; "review_count";
                 "features"; "seller_name"; "asin"; "images"; "seller_info";
                 "availability"]%string).
Proof.
  destruct (extract_product_details_returns cfg w url s) as (d & s' & Hrun).
  exists d, s'. split; [exact Hrun |].
  repeat apply conj.
  - apply (admits_extract_product_details cfg w "url"
             (λ o, o = Some (VStr (resolved_url_of w url))) url s d s'); [| done | done].
    by admits_by.
  - apply (admits_extract_product_details cfg w "name"
             (λ o, ∃ t, o = Some (VStr t) ∧ Py.strip t = t) url s d s'); [| done |].
    + admits_by. intros t. exists (Py.strip t). split; [done | apply strip_idempotent].
    + by exists [].
  - apply (admits_extract_product_details cfg w "price"
             (λ o, ∃ t, o = Some (VStr t)
                        ∧ forallb (λ c, Py.isdecimal c || (c =? 46)%N) t = true)
             url s d s'); [| done |].
    + admits_by. intros t. eexists. split; [done |].
      unfold Py.keep_digits_and_points. apply forallb_forall.
      intros c Hc. by apply filter_In in Hc as [_ Hc].
    + by exists [].
  - apply (admits_extract_product_details cfg w "currency"
             (λ o, ∃ c, o = Some (VStr (Py.lit c))
                        ∧ c ∈ [""; "USD"; "INR"; "GBP"; "EUR"]%string)
             url s d s'); [| done |].
    + admits_by. intros c Hc. exists c. split; [done |]. by apply list_elem_of_further.
    + exists ""%string. split; [done | apply list_elem_of_here].
  - apply (admits_extract_product_details cfg w "rating"
             (λ o, ∃ g, o = Some (VFloat g)
                        ∧ (g = Py.lit "0.0" ∨ ∃ t, Py.search_decimal t = Some g))
             url s d s'); [| done |].
    + admits_by. intros t g Hg. exists g. eauto.
    + exists (Py.lit "0.0"). eauto.
  - apply (admits_extract_product_details cfg w "review_count"
             (λ o, ∃ n, o = Some (VInt n) ∧ 0 ≤ n) url s d s'); [| done |].
    + admits_by. intros n Hn. eauto.
    + by exists 0.
  - apply (admits_extract_product_details cfg w "features"
             (λ o, ∃ l, o = Some (VList l)) url s d s'); [| done |].
    + admits_by. intros l x _. eauto.
    + by exists [].
  - apply (admits_extract_product_details cfg w "seller_name"
             (λ o, o = Some (VStr [])) url s d s'); [| done | done].
    by admits_by.
  - apply (admits_extract_product_details cfg w "asin"
             (λ o, ∃ t, o = Some (VStr t)) url s d s'); [| done |].
    + admits_by. intros t. eauto.
    + by exists [].
  - apply (admits_extract_product_details cfg w "images"
             (λ o, ∃ l, o = Some (VList l)
                        ∧ Forall (λ x, Py.contains (Py.lit "http") x = true) l)
             url s d s'); [| done |].
    + admits_by. intros l x Hx (l' & [= <-] & Hl). exists (l ++ [x]).
      split; [done |]. apply Forall_app. split; [done | by constructor].
    + by exists [].
  - apply (admits_extract_product_details cfg w "seller_info"
             (λ o, o = None ∨ ∃ m name, o = Some (VDict m)
                                        ∧ m !! "name" = Some name ∧ name ≠ [])
             url s d s'); [| done |].
    + admits_by. intros m name Hm Hn. right. eauto.
    + by left.
  - apply (admits_extract_product_details cfg w "availability"
             (λ o, o = None ∨ ∃ t, o = Some (VStr t) ∧ Py.strip t = t)
             url s d s'); [| done |].
    + admits_by. intros t. right. exists (Py.strip t).
      split; [done | apply strip_idempotent].
    + by left.
  - intros k Hk.
    destruct (decide (k ∈ ["url"; "name"; "price"; "currency"; "rating";
                           "review_count"; "features"; "seller_name"; "asin";
                           "images"; "seller_info"; "availability"]%string))
      as [Hin | Hout]; [done |].
    exfalso. apply (is_Some_None (A := value)). revert Hk.
    apply (admits_extract_product_details cfg w k (λ o, is_Some o → is_Some None)
             url s d s'); [| done |].
    + constructor; intros <-; exfalso; apply Hout;
        repeat first [apply list_elem_of_here | apply list_elem_of_further].
    + unfold initial_product_data. intros Hk.
      rewrite !lookup_insert_is_Some in Hk. rewrite lookup_empty in Hk.
      exfalso. apply Hout.
      repeat destruct Hk as [<- | [_ Hk]];
        try (repeat first [apply list_elem_of_here | apply list_elem_of_further]).
      by destruct Hk.
Qed.

(** ** How many features and images are kept *)

Lemma list_upto_mono (n m : nat) (o : option value) :
  (n ≤ m)%nat → list_upto n o → list_upto m o.
Proof. intros Hnm (l & -> & Hl). exists l. split; [done | lia]. Qed.

Lemma triple_weaken {S A} (P Q Q' : S → Prop) (c : stx S A) :
  triple P c Q' → (∀ s, Q' s → Q s) → triple P c Q.
Proof. intros Hc HQ s Hs. apply HQ, Hc, Hs. Qed.

Lemma append_item_upto (K : string) (n : nat) (x : Py.str) :
  triple (at_key K (list_upto n)) (append_item K x) (at_key K (list_upto (S n))).
Proof.
  intros d (l & Hd & Hl). unfold append_item. rewrite stx_bind_run.
  unfold get_item. rewrite Hd. unfold set_item, modify, at_key. simpl.
  rewrite lookup_insert_eq.
  exists (l ++ [x]). split; [done |]. rewrite length_app. simpl. lia.
Qed.

Lemma feature_items_upto (elements : list WebElement) (n : nat) :
  triple (at_key "features" (list_upto n)) (feature_items elements)
         (at_key "features" (list_upto (n + length elements))).
Proof.
  revert n. induction elements as [| e rest IH]; intros n; cbn [feature_items length].
  - eapply triple_weaken; [apply triple_ret |]. intros d. apply list_upto_mono. lia.
  - apply (triple_bind _ (at_key "features" (list_upto (S n)))).
    + destruct (_ && _ && _).
      * apply append_item_upto.
      * eapply triple_weaken; [apply triple_ret |].
        intros d. apply list_upto_mono. lia.
    + intros d. apply list_upto_mono. lia.
    + intros _. eapply triple_weaken; [apply (IH (S n)) |].
      intros d. apply list_upto_mono. lia.
Qed.

Lemma feature_loop_upto (p : Page) (selectors : list selector) :
  triple (at_key "features" (list_upto 0)) (feature_loop p selectors)
         (at_key "features" (list_upto 10)).
Proof.
  induction selectors as [| sel rest IH]; cbn [feature_loop].
  - eapply triple_weaken; [apply triple_ret |].
    intros d. apply list_upto_mono. lia.
  - apply (triple_bind _ (at_key "features" (list_upto 0))).
    + apply triple_lift.
    + intros d. apply list_upto_mono. lia.
    + intros elements. destruct elements as [| e els]; [exact IH |].
      eapply triple_weaken; [apply (feature_items_upto _ 0) |].
      intros d. apply list_upto_mono. rewrite length_take. lia.
Qed.

Lemma image_items_upto (elements : list WebElement) (n : nat) :
  triple (at_key "images" (list_upto n)) (image_items elements)
         (at_key "images" (list_upto (n + length elements))).
Proof.
  revert n. induction elements as [| e rest IH]; intros n; cbn [image_items length].
  - eapply triple_weaken; [apply triple_ret |]. intros d. apply list_upto_mono. lia.
  - apply (triple_bind _ (at_key "images" (list_upto (S n)))).
    + destruct (_ && _).
      * apply append_item_upto.
      * eapply triple_weaken; [apply triple_ret |].
        intros d. apply list_upto_mono. lia.
    + intros d. apply list_upto_mono. lia.
    + intros _. eapply triple_weaken; [apply (IH (S n)) |].
      intros d. apply list_upto_mono. lia.
Qed.

Lemma image_loop_upto (p : Page) (selectors : list selector) :
  triple (at_key "images" (list_upto 0)) (image_loop p selectors)
         (at_key "images" (list_upto 5)).
Proof.
  induction selectors as [| sel rest IH]; cbn [image_loop].
  - eapply triple_weaken; [apply triple_ret |].
    intros d. apply list_upto_mono. lia.
  - apply (triple_bind _ (at_key "images" (list_upto 0))).
    + apply triple_lift.
    + intros d. apply list_upto_mono. lia.
    + intros elements. destruct elements as [| e els]; [exact IH |].
      eapply triple_weaken; [apply (image_items_upto _ 0) |].
      intros d. apply list_upto_mono. rewrite length_take. lia.
Qed.

Lemma at_extract_rating_info (K : string) (Q : option value → Prop) (p : Page) :
  ("rating" = K → ∀ t g, Py.search_decimal t = Some g → Q (Some (VFloat g))) →
  ("review_count" = K → ∀ n, 0 ≤ n → Q (Some (VInt n))) →
  triple (at_key K Q) (_extract_rating_info p) (at_key K Q).
Proof.
  intros Hr Hc. unfold _extract_rating_info.
  apply triple_seq; [by apply at_rating_loop | intros _].
  by apply at_review_count_loop.
Qed.

Section Bounds.

Variable cfg : ScrapingSettings.
Variable w : World.

Ltac upto_mono := intros ?; apply list_upto_mono; lia.
Ltac keeps H :=
  lazymatch goal with
  | |- triple ?P _ _ =>
      apply (triple_bind P P); [apply triple_on_snd, H | upto_mono | intros _]
  end.
Ltac keeps_fst :=
  lazymatch goal with
  | |- triple (λ st, at_key ?K ?Q (snd st)) _ _ =>
      apply (triple_bind _ (λ st : Session * gmap string value, at_key K Q (snd st)));
      [apply (triple_on_fst (at_key K Q)) | upto_mono | intros _]
  end.

Lemma product_details_body_features (resolved_url : Py.str) :
  triple (λ st : Session * gmap string value, at_key "features" (list_upto 0) (snd st))
         (product_details_body cfg w resolved_url)
         (λ st, at_key "features" (list_upto 10) (snd st)).
Proof.
  unfold product_details_body.
  keeps_fst. keeps_fst.
  lazymatch goal with
  | |- triple ?P _ _ => apply (triple_bind P P); [apply triple_gets | upto_mono | intros p]
  end.
  keeps triple_set_item; [done |].
  keeps at_name_loop; [done |].
  keeps at_price_loop; [done | done |].
  keeps at_extract_rating_info; [done | done |].
  apply (triple_bind _ (λ st : Session * gmap string value,
                          at_key "features" (list_upto 10) (snd st)));
    [apply triple_on_snd, feature_loop_upto | upto_mono | intros _].
  keeps at_extract_seller_info; [done |].
  keeps at_availability_loop; [done |].
  keeps at_image_loop; [done |].
  apply triple_on_snd, at_logging_summary.
Qed.

Lemma product_details_body_images (resolved_url : Py.str) :
  triple (λ st : Session * gmap string value, at_key "images" (list_upto 0) (snd st))
         (product_details_body cfg w resolved_url)
         (λ st, at_key "images" (list_upto 5) (snd st)).
Proof.
  unfold product_details_body.
  keeps_fst. keeps_fst.
  lazymatch goal with
  | |- triple ?P _ _ => apply (triple_bind P P); [apply triple_gets | upto_mono | intros p]
  end.
  keeps triple_set_item; [done |].
  keeps at_name_loop; [done |].
  keeps at_price_loop; [done | done |].
  keeps at_extract_rating_info; [done | done |].
  keeps at_feature_loop; [done |].
  keeps at_extract_seller_info; [done |].
  keeps at_availability_loop; [done |].
  apply (triple_bind _ (λ st : Session * gmap string value,
                          at_key "images" (list_upto 5) (snd st)));
    [apply triple_on_snd, image_loop_upto | upto_mono | intros _].
  apply triple_on_snd, at_logging_summary.
Qed.

(** A property of the final dictionary from a two-state property of the
    block: the handler keeps the dictionary as the block left it. *)
Lemma product_details_from_triple (P Q : gmap string value → Prop)
    (resolved_url : Py.str) (s : Session) :
  triple (λ st : Session * gmap string value, P (snd st))
         (product_details_body cfg w resolved_url)
         (λ st, Q (snd st)) →
  P (initial_product_data resolved_url) →
  ∃ d s', product_details_from cfg w resolved_url s = (Ok d, s') ∧ Q d.
Proof.
  intros Hbody Hinit. unfold product_details_from.
  pose proof (Hbody (s, initial_product_data resolved_url) Hinit) as H.
  unfold try_.
  destruct (product_details_body cfg w resolved_url (s, initial_product_data resolved_url))
    as [[[] | e] [s1 d1]] eqn:Hrun; simpl in H |- *; eauto.
Qed.

End Bounds.

(** X7. However many feature bullets and images the product page shows,
    the dictionary [extract_product_details] returns holds at most ten
    features and at most five images. *)
Theorem product_details_bounds (cfg : ScrapingSettings) (w : World) (url : Py.str)
    (s : Session) :
  ∃ d s',
    extract_product_details cfg w url s = (Ok d, s')
    ∧ (∃ l, d !! "features" = Some (VList l) ∧ (length l ≤ 10)%nat)
    ∧ (∃ l, d !! "images" = Some (VList l) ∧ (length l ≤ 5)%nat).
Proof.
  rewrite extract_product_details_run.
  destruct (product_details_from_triple cfg w
              (at_key "features" (list_upto 0)) (at_key "features" (list_upto 10))
              (resolved_url_of w url) s
              (product_details_body_features cfg w _)) as (d & s' & Hrun & Hf).
  { by exists []. }
  destruct (product_details_from_triple cfg w
              (at_key "images" (list_upto 0)) (at_key "images" (list_upto 5))
              (resolved_url_of w url) s
              (product_details_body_images cfg w _)) as (d2 & s2 & Hrun2 & Hi).
  { by exists []. }
  rewrite Hrun in Hrun2. injection Hrun2 as <- <-.
  by exists d, s'.
Qed.

(** X8. When the product page fails to load, [extract_product_details]
    does not raise and does not try again: it returns the dictionary it
    started from, with the resolved address and every other field empty,
    after asking for the page once. *)
Theorem product_details_load_fails (cfg : ScrapingSettings) (w : World)
    (url : Py.str) (s : Session) (e : exn) :
  load w (loads s) (resolved_url_of w url) = Raise e →
  ∃ s',
    extract_product_details cfg w url s
    = (Ok (initial_product_data (resolved_url_of w url)), s')
    ∧ loads s' = S (loads s)
    ∧ page s' = page s
    ∧ log s' = log s ++ [Navigate (resolved_url_of w url)].
Proof.
  intros Hload. rewrite extract_product_details_run.
  unfold product_details_from, product_details_body.
  rewrite try_run, stx_bind_run. unfold on_fst at 1, driver_get. cbn [fst snd].
  rewrite Hload. cbn. eauto.
Qed.

Lemma product_details_load_fails_witness :
  ∃ s',
    extract_product_details settings Sample.offline Sample.product_url new_session
    = (Ok (initial_product_data (resolved_url_of Sample.offline Sample.product_url)), s')
    ∧ loads s' = S (loads new_session)
    ∧ page s' = page new_session
    ∧ log s' = log new_session
               ++ [Navigate (resolved_url_of Sample.offline Sample.product_url)].
Proof.
  apply (product_details_load_fails settings Sample.offline Sample.product_url
           new_session WebDriverException).
  reflexivity.
Defined.

(** ** Scrolling and the checks against blocking *)

Lemma scrolls_needed_le (p : Page) (k n : nat) : (scrolls_needed p k n ≤ n)%nat.
Proof.
  revert k. induction n as [| n IH]; intros k; cbn [scrolls_needed]; [lia |].
  destruct (_ =? _); [lia |]. specialize (IH (S k)). lia.
Qed.

Lemma scrolls_needed_pos (p : Page) (k n : nat) : (1 ≤ scrolls_needed p k (S n))%nat.
Proof. cbn [scrolls_needed]. destruct (_ =? _); lia. Qed.

(** Every scroll before the last changed the height. *)
Lemma scrolls_needed_changes (p : Page) (k n j : nat) :
  (S j < scrolls_needed p k n)%nat →
  scroll_height p (k + S j) ≠ scroll_height p (k + j).
Proof.
  revert k j. induction n as [| n IH]; intros k j; cbn [scrolls_needed]; [lia |].
  destruct (scroll_height p (S k) =? scroll_height p k) eqn:Hh; [lia |].
  intros Hj. destruct j as [| j].
  - replace (k + 1)%nat with (S k) by lia. replace (k + 0)%nat with k by lia.
    by apply Z.eqb_neq.
  - replace (k + S (S j))%nat with (S k + S j)%nat by lia.
    replace (k + S j)%nat with (S k + j)%nat by lia.
    apply IH. lia.
Qed.

(** Stopping before the last scroll allowed means the last one made
    left the height as it was. *)
Lemma scrolls_needed_stops (p : Page) (k n : nat) :
  (scrolls_needed p k n < n)%nat →
  scroll_height p (k + scrolls_needed p k n)
  = scroll_height p (k + scrolls_needed p k n - 1).
Proof.
  revert k. induction n as [| n IH]; intros k; cbn [scrolls_needed]; [lia |].
  destruct (scroll_height p (S k) =? scroll_height p k) eqn:Hh.
  - intros _. replace (k + 1)%nat with (S k) by lia.
    replace (S k - 1)%nat with k by lia. by apply Z.eqb_eq.
  - intros Hn. replace (k + S (scrolls_needed p (S k) n))%nat
      with (S k + scrolls_needed p (S k) n)%nat by lia.
    apply IH. lia.
Qed.

Section Scrolling.

Variable cfg : ScrapingSettings.

Lemma scroll_loop_run (n : nat) (s : Session) :
  ∃ s', scroll_loop n (body_scroll_height s) s = (Ok (), s')
        ∧ loads s' = loads s ∧ position s' = position s ∧ page s' = page s
        ∧ scrolled s' = (scrolled s + scrolls_needed (page s) (scrolled s) n)%nat
        ∧ log s' = log s ++ concat (replicate (scrolls_needed (page s) (scrolled s) n)
                                              [Scroll; Sleep 1]).
Proof.
  revert s. induction n as [| n IH]; intros s; cbn [scroll_loop scrolls_needed].
  - exists s. simpl. rewrite app_nil_r. repeat split; lia.
  - rewrite stx_bind_run. cbn [scroll_to_bottom modify].
    rewrite stx_bind_run. cbn [sleep modify].
    rewrite stx_bind_run. cbn [gets].
    set (s2 := record (Sleep 1) (record Scroll _)).
    change (body_scroll_height s2) with (scroll_height (page s) (S (scrolled s))).
    unfold body_scroll_height at 1.
    destruct (scroll_height (page s) (S (scrolled s)) =? scroll_height (page s) (scrolled s)).
    + exists s2. simpl. rewrite <- app_assoc. repeat split; lia.
    + destruct (IH s2) as (s' & Hrun & Hl & Hpos & Hp & Hsc & Hlog).
      change (body_scroll_height s2) with (scroll_height (page s) (S (scrolled s))) in Hrun.
      exists s'. split; [exact Hrun |].
      simpl in Hl, Hpos, Hp, Hsc, Hlog.
      rewrite Hl, Hpos, Hp, Hsc, Hlog. simpl. rewrite <- !app_assoc. simpl.
      repeat split. lia.
Qed.

End Scrolling.

(** X9. [scroll_page] never raises and never leaves the page: it scrolls
    between one and three times, each scroll followed by a pause of one
    second; every scroll but the last changed the height of the page, and
    when it stops before the third scroll the last scroll left the height
    unchanged. *)
Theorem scroll_page_stops (s : Session) :
  ∃ k s',
    scroll_page s = (Ok (), s')
    ∧ (1 ≤ k ≤ 3)%nat
    ∧ loads s' = loads s ∧ position s' = position s ∧ page s' = page s
    ∧ scrolled s' = (scrolled s + k)%nat
    ∧ log s' = log s ++ concat (replicate k [Scroll; Sleep 1])
    ∧ (∀ j, (S j < k)%nat →
            scroll_height (page s) (scrolled s + S j)
            ≠ scroll_height (page s) (scrolled s + j))
    ∧ ((k < 3)%nat →
       scroll_height (page s) (scrolled s + k)
       = scroll_height (page s) (scrolled s + k - 1)).
Proof.
  exists (scrolls_needed (page s) (scrolled s) 3).
  destruct (scroll_loop_run 3 s) as (s' & Hrun & Hl & Hpos & Hp & Hsc & Hlog).
  exists s'. split.
  { unfold scroll_page. rewrite try_run, stx_bind_run. cbn [gets]. by rewrite Hrun. }
  split.
  { split; [apply scrolls_needed_pos | apply scrolls_needed_le]. }
  do 5 (split; [done |]).
  split; [intros j; apply scrolls_needed_changes | apply scrolls_needed_stops].
Qed.

Section AntiBot.

Variable cfg : ScrapingSettings.

Lemma captcha_loop_run (p : Page) (selectors : list selector) (s : Session) :
  captcha_loop p selectors s
  = (Ok (),
     if existsb (fun selector => match driver_find_elements p selector with
                                 | [] => false
                                 | _ => true
                                 end) selectors
     then record (Sleep 30) s else s).
Proof.
  induction selectors as [| sel rest IH]; cbn [captcha_loop existsb]; [done |].
  by destruct (driver_find_elements p sel).
Qed.

End AntiBot.

(** A delay between two positive bounds that are given with the call:
    the draw is not negative, so the call does not raise. *)
Lemma ethical_delay_between (cfg : ScrapingSettings) (w : World) (lo hi : Q)
    (s : Session) :
  Qeq_bool lo 0 = false → Qeq_bool hi 0 = false →
  Qle_bool 0 lo = true → Qle_bool 0 hi = true →
  ethical_delay cfg w (Some lo) (Some hi) s
  = if RANDOM_DELAYS cfg then (Ok (), record (RandomSleep lo hi) s) else (Ok (), s).
Proof.
  intros Hlo Hhi Hl Hh. rewrite ethical_delay_run. unfold q_or. rewrite Hlo, Hhi.
  destruct (RANDOM_DELAYS cfg); cbn [negb]; [| done].
  by rewrite (uniform_nonneg _ _ _ Hl Hh).
Qed.

(** X10. [handle_anti_bot_measures] never raises and only waits: with
    [HANDLE_CAPTCHAS] off it does nothing; otherwise it sleeps thirty
    seconds once when an element of a CAPTCHA selector is on the page,
    however many there are, and then, when the lower-cased page source
    holds one of the five phrases, makes the delay of five to ten seconds
    (which [RANDOM_DELAYS] off turns into nothing). The page is not
    loaded again. *)
Theorem handle_anti_bot_measures_waits (cfg : ScrapingSettings) (w : World)
    (s : Session) :
  ∃ s',
    handle_anti_bot_measures cfg w s = (Ok (), s')
    ∧ loads s' = loads s ∧ position s' = position s ∧ page s' = page s
    ∧ scrolled s' = scrolled s
    ∧ log s' = log s
               ++ (if HANDLE_CAPTCHAS cfg && captcha_shown (page s)
                   then [Sleep 30] else [])
               ++ (if HANDLE_CAPTCHAS cfg && looks_blocked (page s) && RANDOM_DELAYS cfg
                   then [RandomSleep 5 10] else []).
Proof.
  unfold handle_anti_bot_measures.
  destruct (HANDLE_CAPTCHAS cfg); cbn [negb andb].
  - rewrite try_run, stx_bind_run. cbn [gets].
    rewrite stx_bind_run, captcha_loop_run.
    fold (captcha_shown (page s)). fold (looks_blocked (page s)).
    destruct (captcha_shown (page s)), (looks_blocked (page s));
      rewrite ?ethical_delay_between by reflexivity;
      destruct (RANDOM_DELAYS cfg); cbn;
      eexists; (split; [reflexivity |]); simpl;
      rewrite <- ?app_assoc, ?app_nil_r; by repeat split.
  - exists s. simpl. rewrite app_nil_r. by repeat split.
Qed.

(** ** How much of the site a run asks for *)

Lemma adds_fst {S T A} (m : S → nat) (n : nat) (c : stx S A) :
  adds m n c → adds (λ st : S * T, m (fst st)) n (on_fst c).
Proof. intros Hc [s t]. unfold on_fst. simpl. specialize (Hc s). by destruct (c s). Qed.

Lemma adds_snd {S T A} (m : S → nat) (c : stx T A) :
  adds (λ st : S * T, m (fst st)) 0 (on_snd c).
Proof. intros [s t]. unfold on_snd. simpl. destruct (c t). simpl. lia. Qed.

Section Budget.

Variable cfg : ScrapingSettings.
Variable w : World.

(** A count [m] on sessions that pauses and log lines leave alone, that a
    call of [driver.get] raises by at most [g] and a click by at most
    [c]. *)
Variable m : Session → nat.
Variables g c : nat.
Hypothesis m_paused : ∀ s s' l, paused s s' l → m s' = m s.
Hypothesis m_scraping : ∀ n s, m (record (Scraping n) s) = m s.
Hypothesis m_get : ∀ url, adds m g (driver_get w url).
Hypothesis m_click : adds m c (click_next w).

Lemma budget_pausing {A} (P : exn → Prop) (k : stx Session A) :
  pausing P k → adds m 0 k.
Proof.
  intros Hk s. destruct (Hk s) as (r & s' & l & -> & Hp & _). simpl.
  rewrite (m_paused _ _ _ Hp). lia.
Qed.

Lemma budget_attempt_block (url : Py.str) : adds m g (attempt_block cfg w url).
Proof.
  unfold attempt_block.
  eapply adds_le; [| apply Nat.eq_le_incl, (Nat.add_0_r g)].
  apply adds_bind; [apply m_get | intros _].
  apply (adds_bind _ 0 0);
    [apply (budget_pausing (λ _, False)), pausing_handle_dynamic_content_loading | intros _].
  apply (adds_bind _ 0 0);
    [apply (budget_pausing (λ _, False)), pausing_handle_anti_bot_measures | intros _].
  apply (adds_bind _ 0 0);
    [apply (budget_pausing (λ _, True)), pausing_ethical_delay; exact I | intros _].
  apply adds_ret.
Qed.

Lemma budget_attempt_failed (attempt : Z) : adds m 0 (attempt_failed cfg attempt).
Proof.
  unfold attempt_failed. destruct (_ <? _); [| apply adds_ret].
  apply (adds_bind _ 0 0); [| intros _; apply adds_ret].
  apply (budget_pausing (λ _, False)), pausing_sleep.
Qed.

Lemma budget_retry_loop (url : Py.str) (attempts : list Z) :
  adds m (length attempts * g) (retry_loop cfg w url attempts).
Proof.
  induction attempts as [| attempt rest IH]; cbn [retry_loop length]; [apply adds_ret |].
  replace (S (length rest) * g)%nat with (g + 0 + length rest * g)%nat by lia.
  apply adds_bind.
  - apply adds_try; [apply budget_attempt_block | apply budget_attempt_failed].
  - intros [b |]; [| apply IH]. eapply adds_le; [apply adds_ret | lia].
Qed.

Lemma budget_navigate_with_retry (url : Py.str) :
  adds m (Z.to_nat (MAX_RETRIES cfg) * g) (navigate_with_retry cfg w url).
Proof.
  unfold navigate_with_retry.
  eapply adds_le; [apply budget_retry_loop |]. by rewrite length_seqZ.
Qed.

Lemma budget_advance (p : Page) :
  adds (λ st : Session * list review, m (fst st)) c (advance cfg w p).
Proof.
  unfold advance.
  apply (adds_bind _ 0 c); [apply adds_lift | intros [b |]].
  2: { eapply adds_le; [apply adds_ret | lia]. }
  apply (adds_bind _ 0 c); [apply adds_lift | intros cls].
  destruct (negb _); [| eapply adds_le; [apply adds_ret | lia]].
  eapply adds_le; [| apply Nat.eq_le_incl, (Nat.add_0_r c)].
  apply adds_bind; [apply adds_fst, m_click | intros _].
  apply (adds_bind _ 0 0); [| intros _; apply adds_ret].
  apply adds_fst, (budget_pausing (λ _, True)), pausing_ethical_delay. exact I.
Qed.

Lemma budget_page_loop (pages : list Z) :
  adds (λ st : Session * list review, m (fst st)) (length pages * c)
       (page_loop cfg w pages).
Proof.
  induction pages as [| page_no rest IH]; cbn [page_loop length]; [apply adds_ret |].
  apply (adds_bind _ 0 (S (length rest) * c)).
  { apply adds_fst, adds_modify. intros s. rewrite m_scraping. lia. }
  intros _. apply (adds_bind _ 0 (S (length rest) * c)); [apply adds_gets | intros p].
  apply (adds_bind _ 0 (S (length rest) * c)).
  { apply adds_modify. intros st. simpl. lia. }
  intros _. replace (S (length rest) * c)%nat with (c + 0 + length rest * c)%nat by lia.
  apply adds_bind.
  - apply adds_try; [apply budget_advance | apply adds_ret].
  - intros [|]; [apply IH | eapply adds_le; [apply adds_ret | lia]].
Qed.

Lemma budget_collect_body (url : Py.str) (max_pages : Z) :
  adds (λ st : Session * list review, m (fst st))
       (Z.to_nat (MAX_RETRIES cfg) * g + Z.to_nat max_pages * c)
       (collect_body cfg w url max_pages).
Proof.
  unfold collect_body.
  apply (adds_bind _ 0); [apply adds_gets | intros p].
  destruct (extract_asin p url) as [asin |]; [| eapply adds_le; [apply adds_ret | lia]].
  destruct (negb _); [eapply adds_le; [apply adds_ret | lia] |].
  apply adds_bind; [apply adds_fst, budget_navigate_with_retry | intros ok].
  destruct (negb ok); [eapply adds_le; [apply adds_ret | lia] |].
  eapply adds_le; [apply budget_page_loop |]. by rewrite length_seqZ.
Qed.

Lemma budget_collect_customer_reviews (url : Py.str) (max_pages : Z) :
  adds m (Z.to_nat (MAX_RETRIES cfg) * g + Z.to_nat max_pages * c)
       (collect_customer_reviews cfg w url max_pages).
Proof.
  intros s. unfold collect_customer_reviews.
  pose proof (adds_try (λ st : Session * list review, m (fst st)) _ 0 _ (mret ())
                any_exception (budget_collect_body url max_pages) (adds_ret _ ())
                (s, [])) as H.
  destruct (try_ _ _ _ _) as [r [s' reviews]]. simpl in *. lia.
Qed.

Lemma budget_product_details_body (resolved_url : Py.str) :
  adds (λ st : Session * gmap string value, m (fst st)) g
       (product_details_body cfg w resolved_url).
Proof.
  unfold product_details_body.
  eapply adds_le; [| apply Nat.eq_le_incl, (Nat.add_0_r g)].
  apply adds_bind; [apply adds_fst, m_get | intros _].
  apply (adds_bind _ 0 0);
    [apply adds_fst, (budget_pausing (λ _, True)), pausing_ethical_delay; exact I | intros _].
  apply (adds_bind _ 0 0); [apply adds_gets | intros p].
  repeat (apply (adds_bind _ 0 0); [apply adds_snd | intros _]).
  apply adds_snd.
Qed.

Lemma budget_extract_product_details (url : Py.str) :
  adds m g (extract_product_details cfg w url).
Proof.
  intros s. rewrite extract_product_details_run. unfold product_details_from.
  pose proof (adds_try (λ st : Session * gmap string value, m (fst st)) _ 0 _ (mret ())
                any_exception (budget_product_details_body (resolved_url_of w url))
                (adds_ret _ ()) (s, initial_product_data (resolved_url_of w url))) as H.
  destruct (try_ _ _ _ _) as [r [s' d]]. simpl in *. lia.
Qed.

Lemma budget_scrape_product (url : Py.str) :
  adds m (g + (Z.to_nat (MAX_RETRIES cfg) * g + 5 * c)) (scrape_product cfg w url).
Proof.
  unfold scrape_product.
  apply adds_bind; [apply budget_extract_product_details | intros d].
  eapply adds_le; [| apply Nat.eq_le_incl, Nat.add_0_r].
  apply adds_bind; [apply (budget_collect_customer_reviews url 5) | intros r].
  apply adds_ret.
Qed.

End Budget.

Lemma filter_length_app {A} (f : A → bool) (l1 l2 : list A) :
  length (List.filter f (l1 ++ l2))
  = (length (List.filter f l1) + length (List.filter f l2))%nat.
Proof. by rewrite List.filter_app, length_app. Qed.

Lemma clicks_paused (s s' : Session) (l : list event) :
  paused s s' l → clicks s' = clicks s.
Proof.
  intros (_ & _ & _ & Hlog & Hl). unfold clicks. rewrite Hlog, filter_length_app.
  assert (List.filter is_click l = []) as ->; [| simpl; lia].
  clear Hlog. induction l as [| e l IH]; [done |].
  simpl in Hl. apply andb_true_iff in Hl as [He Hl].
  simpl. destruct e; try done; by apply IH.
Qed.

(** X11. A run of [scrape_product] asks the browser for at most one page
    by address more than [MAX_RETRIES] (the product page, once, and the
    listing of the reviews with its retries) and clicks on the control of
    the next page at most five times, whatever the site answers. *)
Theorem scrape_product_budget (cfg : ScrapingSettings) (w : World) (url : Py.str)
    (s : Session) :
  (loads (snd (scrape_product cfg w url s))
   ≤ loads s + 1 + Z.to_nat (MAX_RETRIES cfg))%nat
  ∧ (clicks (snd (scrape_product cfg w url s)) ≤ clicks s + 5)%nat.
Proof.
  split.
  - pose proof (budget_scrape_product cfg w loads 1 0) as H.
    specialize (H (λ s s' l (Hp : paused s s' l), proj1 Hp)).
    specialize (H (λ _ _, eq_refl)).
    assert (∀ u, adds loads 1 (driver_get w u)) as Hget.
    { intros u t. unfold driver_get. destruct (load w (loads t) u); simpl; lia. }
    assert (adds loads 0 (click_next w)) as Hclick.
    { intros t. simpl. lia. }
    specialize (H Hget Hclick url s). lia.
  - pose proof (budget_scrape_product cfg w clicks 0 1 clicks_paused) as H.
    assert (∀ n t, clicks (record (Scraping n) t) = clicks t) as Hsc.
    { intros n t. unfold clicks. simpl. rewrite filter_length_app. simpl. lia. }
    assert (∀ u, adds clicks 0 (driver_get w u)) as Hget.
    { intros u t. unfold driver_get, clicks.
      destruct (load w (loads t) u); simpl; rewrite filter_length_app; simpl; lia. }
    assert (adds clicks 1 (click_next w)) as Hclick.
    { intros t. unfold click_next, modify, clicks. simpl.
      rewrite filter_length_app. simpl. lia. }
    specialize (H Hsc Hget Hclick url s). lia.
Qed.

(** ** The check of the address in main.py *)

(** X12. [is_amazon_url] looks for the name of a shop anywhere in the
    text: an address it accepts is still accepted with any text before
    and after it, so the name need not be the host of the address. *)
Theorem is_amazon_url_anywhere (before url after : Py.str) :
  is_amazon_url url = true → is_amazon_url (before ++ url ++ after) = true.
Proof.
  unfold is_amazon_url. rewrite !existsb_exists.
  intros (domain & Hin & Hc). exists domain. split; [done |].
  rewrite !lower_app. by apply contains_app_l, contains_app_r.
Qed.

Lemma is_amazon_url_anywhere_witness :
  is_amazon_url (Py.lit "https://example.org/?next=" ++ Py.lit "A.CO" ++ Py.lit "#top")
  = true.
Proof.
  apply (is_amazon_url_anywhere (Py.lit "https://example.org/?next=") (Py.lit "A.CO")
           (Py.lit "#top")).
  vm_compute. reflexivity.
Defined.

(** ** File names *)

Lemma lstrip_elem (c : N) (l : Py.str) : c ∈ Py.lstrip l → c ∈ l.
Proof.
  induction l as [| b l IH]; simpl; [done |].
  destruct (Py.isspace b); [| done]. intros H. right. by apply IH.
Qed.

Lemma strip_elem (c : N) (l : Py.str) : c ∈ Py.strip l → c ∈ l.
Proof.
  unfold Py.strip. intros H.
  apply list_elem_of_In, in_rev, list_elem_of_In, lstrip_elem in H.
  apply list_elem_of_In, in_rev, list_elem_of_In in H. by apply lstrip_elem.
Qed.

(** X13. The part of a file name [generate_filename] makes of the product
    name has at most fifty characters, no space, and nothing but letters
    and digits, hyphens and underscores, whatever the name of the product
    is; the identifier and the file type go into the name as they are. *)
Theorem generate_filename_safe_name (unicode_alnum : N → bool)
    (timestamp product_name asin file_type : Py.str) :
  generate_filename unicode_alnum timestamp product_name asin file_type
  = Py.lit "amazon_" ++ safe_name unicode_alnum product_name ++ Py.lit "_" ++ asin
    ++ Py.lit "_" ++ timestamp ++ Py.lit "." ++ file_type
  ∧ (length (safe_name unicode_alnum product_name) ≤ 50)%nat
  ∧ Forall (λ c, c ≠ 32%N ∧ (unicode_alnum c = true ∨ c = 45%N ∨ c = 95%N))
           (safe_name unicode_alnum product_name).
Proof.
  split; [done |]. unfold safe_name. split.
  - rewrite length_fmap, length_take. lia.
  - apply Forall_fmap, Forall_forall. intros c Hc. simpl.
    apply elem_of_take in Hc as (i & Hc & _).
    apply list_elem_of_lookup_2, strip_elem, list_elem_of_In, filter_In in Hc as [_ Hc].
    unfold filename_char in Hc.
    destruct (c =? 32)%N eqn:H32.
    + split; [done | by right; right].
    + apply N.eqb_neq in H32. split; [done |].
      apply orb_true_iff in Hc as [Hc | Hc]; [by left |].
      apply bool_decide_eq_true in Hc. right.
      apply elem_of_cons in Hc as [-> | Hc]; [done |].
      apply elem_of_cons in Hc as [-> | Hc]; [by left |].
      apply elem_of_cons in Hc as [-> | Hc]; [by right |].
      by apply elem_of_nil in Hc.
Qed.

(** ** The helper that moves to the next page *)





(** ** The empty result *)

(** X15. [scrape_amazon_product] never raises. It returns the empty
    dictionary when the browser does not start, and then nothing is asked
    of the site; once the browser has started it returns the result of
    [scrape_product], whatever the site answers, unless saving and
    printing that result raise or are interrupted: then the result is
    dropped and the empty dictionary returned, also when reviews were
    collected. *)
Theorem scrape_amazon_product_result (cfg : ScrapingSettings) (w : World)
    (url : Py.str) (s : Session) :
  (driver_starts w = false → scrape_amazon_product cfg w url s = (Ok None, s))
  ∧ (driver_starts w = true →
     ∃ result s',
       scrape_product cfg w url s = (Ok result, s')
       ∧ scrape_amazon_product cfg w url s
         = (Ok (match report w result with
                | None => Some result
                | Some _ => None
                end), s')).
Proof.
  unfold scrape_amazon_product, setup_driver. rewrite stx_bind_run.
  split; intros ->; [done |].
  destruct (scrape_product_run cfg w url s "url") as (result & s' & Hrun & _).
  { apply (bool_decide_unpack _). vm_compute. exact I. }
  exists result, s'. split; [done |].
  cbn [mret stx_ret]. cbv iota beta. rewrite Hrun.
  by destruct (report w result) as [[e |] |].
Qed.

(** On a console that cannot show the summary, the five pages of reviews
    that were collected are dropped. *)
Lemma scrape_amazon_product_result_witness :
  ∃ result s',
    scrape_product settings Scenario.narrow_console Sample.product_url new_session
    = (Ok result, s')
    ∧ scrape_amazon_product settings Scenario.narrow_console Sample.product_url
        new_session
      = (Ok None, s')
    ∧ length (reviews result) = 5%nat.
Proof.
  destruct (proj2 (scrape_amazon_product_result settings Scenario.narrow_console
                     Sample.product_url new_session) eq_refl)
    as (result & s' & Hrun & Hres).
  exists result, s'. split; [exact Hrun |]. split; [exact Hres |].
  assert (Hr : result = match fst (scrape_product settings Scenario.narrow_console
                                     Sample.product_url new_session) with
                        | Ok r => r | Raise _ => result end) by (by rewrite Hrun).
  rewrite Hr. vm_compute. reflexivity.
Defined.

(** ** Letter case in the check of the address *)

Lemma lower1_lower (c : N) : Py.lower (Py.lower1 c) = Py.lower1 c.
Proof.
  unfold Py.lower1.
  destruct ((65 <=? c) && (c <=? 90))%N eqn:Hup.
  - apply andb_true_iff in Hup as [H1 H2]. apply N.leb_le in H1, H2.
    unfold Py.lower. simpl. unfold Py.lower1.
    assert (((65 <=? c + 32) && (c + 32 <=? 90))%N = false) as ->.
    { apply andb_false_iff. right. apply N.leb_gt. lia. }
    assert ((c + 32 =? 8490)%N = false) as -> by (apply N.eqb_neq; lia).
    assert ((c + 32 =? 304)%N = false) as -> by (apply N.eqb_neq; lia).
    done.
  - destruct (c =? 8490)%N eqn:HK; [done |].
    destruct (c =? 304)%N eqn:HI; [done |].
    unfold Py.lower. simpl. unfold Py.lower1. by rewrite Hup, HK, HI.
Qed.

Lemma lower_idempotent (s : Py.str) : Py.lower (Py.lower s) = Py.lower s.
Proof.
  induction s as [| c s IH]; [done |].
  change (c :: s) with ([c] ++ s). rewrite !lower_app, IH. f_equal.
  change (Py.lower [c]) with (Py.lower1 c ++ []). rewrite app_nil_r.
  apply lower1_lower.
Qed.

Lemma startswith_prefix (p q s : Py.str) :
  Py.startswith (p ++ q) s = true → Py.startswith p s = true.
Proof.
  revert s. induction p as [| a p IH]; intros [| b s]; simpl; try done.
  intros [Hab Hp]%andb_true_iff. apply andb_true_iff. split; [done | by apply IH].
Qed.

Lemma contains_prefix (p q s : Py.str) :
  Py.contains (p ++ q) s = true → Py.contains p s = true.
Proof.
  induction s as [| b s IH]; cbn [Py.contains].
  - rewrite !orb_false_r. apply startswith_prefix.
  - intros [H | H]%orb_true_iff; apply orb_true_iff;
      [left; by apply (startswith_prefix p q) | right; by apply IH].
Qed.

Lemma contains_prefix_false (p q s : Py.str) :
  Py.contains p s = false → Py.contains (p ++ q) s = false.
Proof.
  intros H. destruct (Py.contains (p ++ q) s) eqn:Hc; [| done].
  by rewrite (contains_prefix p q s Hc) in H.
Qed.

(** X16. [is_amazon_url] does not depend on the case of the letters of
    the address, but the choice of the shop does: for an address that
    does not hold the lower-case text "amazon." (an address in capitals,
    a short link), the reviews are asked of amazon.com, whatever shop the
    address leads to. *)
Theorem reviews_shop_of_address (url asin : Py.str) :
  is_amazon_url (Py.lower url) = is_amazon_url url
  ∧ (Py.contains (Py.lit "amazon.") url = false →
     detect_amazon_domain url = Py.lit "https://www.amazon.com"
     ∧ reviews_url_of url asin
       = Py.lit "https://www.amazon.com/product-reviews/" ++ asin ++ reviews_path).
Proof.
  split.
  - unfold is_amazon_url. by rewrite lower_idempotent.
  - intros H.
    assert (detect_amazon_domain url = Py.lit "https://www.amazon.com") as Hd.
    { unfold detect_amazon_domain.
      pose proof (contains_prefix_false (Py.lit "amazon.") (Py.lit "com") url H) as H1.
      pose proof (contains_prefix_false (Py.lit "amazon.") (Py.lit "co.uk") url H) as H2.
      pose proof (contains_prefix_false (Py.lit "amazon.") (Py.lit "in") url H) as H3.
      pose proof (contains_prefix_false (Py.lit "amazon.") (Py.lit "de") url H) as H4.
      change (Py.lit "amazon." ++ Py.lit "com") with (Py.lit "amazon.com") in H1.
      change (Py.lit "amazon." ++ Py.lit "co.uk") with (Py.lit "amazon.co.uk") in H2.
      change (Py.lit "amazon." ++ Py.lit "in") with (Py.lit "amazon.in") in H3.
      change (Py.lit "amazon." ++ Py.lit "de") with (Py.lit "amazon.de") in H4.
      by rewrite H1, H2, H3, H4. }
    split; [exact Hd |]. unfold reviews_url_of. by rewrite Hd.
Qed.

Lemma reviews_shop_of_address_witness :
  detect_amazon_domain (Py.lit "https://amzn.in/d/0abcdEF")
  = Py.lit "https://www.amazon.com"
  ∧ reviews_url_of (Py.lit "https://amzn.in/d/0abcdEF") (Py.lit "B0TESTASIN")
    = Py.lit "https://www.amazon.com/product-reviews/" ++ Py.lit "B0TESTASIN"
      ++ reviews_path.
Proof.
  apply (reviews_shop_of_address (Py.lit "https://amzn.in/d/0abcdEF")
           (Py.lit "B0TESTASIN")).
  vm_compute. reflexivity.
Defined.
